(** * DeFi reputation scoring service: a shallow embedding and its properties

    The development follows the three source modules:
    - [app/utils/types.py]          (module [Types]): the validated wire records;
    - [app/models/dex_model.py]     (module [DexModel]): feature extraction and scoring;
    - [app/services/kafka_service.py] (modules [KafkaService] and
      [KafkaServiceManager]): the per-record pipeline and the retry loop.

    Numbers.  Python [float]s are embedded as exact rationals [Q]: every
    formula is the source formula read over the rationals, so rounding error,
    infinities and NaN of binary64 arithmetic are outside the model.  Where
    the source distinguishes [int] from [float] in a way that is observable,
    the embedding keeps the distinction: in the text produced by [str]
    ([pynum]), and in the conversion [float(n)] of an [int] timestamp, which
    rounds to the nearest binary64 value and raises [OverflowError] beyond
    the largest one ([Py.float_of_int]).  Division by a variable divisor is
    fallible ([ZeroDivisionError]), as is [statistics.mean] on an empty
    list; all of these are modelled in the error monad [result].

    What lies outside the repository is a parameter or an explicit input:
    the ISO-8601 parser and [str.upper] of the standard library
    ([IsoFormat], [StrUpper]), the conversions the validation library
    applies to values that are not of the declared type ([LaxCoercion]),
    the clock and the broker's acknowledgements
    ([KafkaService.environment]), the messages the consumer delivers and
    the outcome of connecting ([KafkaService.polled],
    [KafkaServiceManager.attempt]).

    The modules [Spec] and [Samples] that follow the embedding hold the
    statements of the specification the code is compared with, and the
    concrete inputs the properties are exercised on. *)

From Stdlib Require Import QArith Qround Qminmax Lqa ZArith String Ascii List Lia.
From Stdlib Require Import DecimalString DecimalN Sorted Permutation.
From stdpp Require Import base gmap sets list strings.
Import ListNotations.

#[local] Open Scope Q_scope.
#[local] Open Scope string_scope.

(** ** Exceptions and the error monad *)

Inductive exn : Type :=
| ZeroDivisionError
| StatisticsError
| OverflowError
| TypeError
| AttributeError
| RuntimeError
| ValidationError (msg : string)
| KafkaError.

Inductive result (A : Type) : Type :=
| Ok (a : A)
| Raise (e : exn).
Arguments Ok {A} a.
Arguments Raise {A} e.

#[global] Instance result_ret : MRet result := fun _ a => Ok a.
#[global] Instance result_bind : MBind result := fun _ _ f m =>
  match m with
  | Ok a => f a
  | Raise e => Raise e
  end.

Definition is_ok {A} (r : result A) : bool :=
  match r with Ok _ => true | Raise _ => false end.

(** ** Python built-ins over the rationals *)

Module Py.

(** [a < b] as a boolean. *)
Definition ltb (a b : Q) : bool := if Qlt_le_dec a b then true else false.

(** [min(a, b)]: the first argument unless the second is strictly smaller. *)
Definition min2 (a b : Q) : Q := if ltb b a then b else a.

(** [max(a, b)]: the first argument unless the second is strictly larger. *)
Definition max2 (a b : Q) : Q := if ltb a b then b else a.

(** [min(l)] and [max(l)] on a list with head [x]. *)
Definition min_list (x : Q) (l : list Q) : Q := fold_left min2 l x.
Definition max_list (x : Q) (l : list Q) : Q := fold_left max2 l x.

(** [sum(l)]: left to right from [0]. *)
Definition sum (l : list Q) : Q := fold_left Qplus l 0.

(** [a / b]. *)
Definition truediv (a b : Q) : result Q :=
  if Qeq_bool b 0 then Raise ZeroDivisionError else Ok (a / b).

(** [statistics.mean(l)]. *)
Definition mean (l : list Q) : result Q :=
  match l with
  | [] => Raise StatisticsError
  | _ => Ok (sum l / inject_Z (Z.of_nat (length l)))
  end.

(** [float(n)] on an [int]: the nearest binary64 value, ties going to the
    even mantissa; [OverflowError] when that value is beyond the largest
    float. *)
Definition float_of_int (n : Z) : result Q :=
  let a := Z.abs n in
  let bits := Z.log2 a in
  if (bits <? 53)%Z then Ok (inject_Z n)
  else
    let shift := (bits - 52)%Z in
    let mantissa := Z.shiftr a shift in
    let rest := Z.land a (Z.ones shift) in
    let half := Z.shiftl 1 (shift - 1) in
    let mantissa :=
      if (half <? rest)%Z || ((rest =? half)%Z && Z.odd mantissa)
      then (mantissa + 1)%Z else mantissa in
    let rounded := Z.shiftl mantissa shift in
    if (2 ^ 1024 <=? rounded)%Z then Raise OverflowError
    else Ok (inject_Z (Z.sgn n * rounded)).

(** A comprehension [[y for x in l for y in f(x)]] whose body may raise:
    the elements are visited from left to right and the first exception
    ends the evaluation. *)
Fixpoint collect {A B} (f : A -> result (list B)) (l : list A) : result (list B) :=
  match l with
  | [] => Ok []
  | x :: rest =>
      ys ← f x;
      more ← collect f rest;
      mret (ys ++ more)%list
  end.

(** A [for] loop over [l] that updates [acc] and whose body may raise. *)
Fixpoint for_each {A S} (body : S -> A -> result S) (l : list A) (acc : S) : result S :=
  match l with
  | [] => Ok acc
  | x :: rest =>
      acc ← body acc x;
      for_each body rest acc
  end.

(** Truth value of a string: non-empty. *)
Definition truthy_str (s : string) : bool :=
  match s with EmptyString => false | _ => true end.

(** Upper case on the ASCII letters; other characters are left as they
    are. *)
Definition upper_ascii (c : ascii) : ascii :=
  let n := nat_of_ascii c in
  if (97 <=? n)%nat && (n <=? 122)%nat then ascii_of_nat (n - 32) else c.

Fixpoint ascii_upper (s : string) : string :=
  match s with
  | EmptyString => EmptyString
  | String c r => String (upper_ascii c) (ascii_upper r)
  end.

(** The text holds ASCII characters only. *)
Fixpoint is_ascii (s : string) : bool :=
  match s with
  | EmptyString => true
  | String c r => (nat_of_ascii c <? 128)%nat && is_ascii r
  end.

(** [needle in s] for strings. *)
Fixpoint contains (needle s : string) : bool :=
  if String.prefix needle s then true
  else match s with
       | EmptyString => false
       | String _ r => contains needle r
       end.

(** [s.replace('Z', '+00:00')]. *)
Fixpoint replace_Z (s : string) : string :=
  match s with
  | EmptyString => EmptyString
  | String c r =>
      if Ascii.eqb c "Z"%char then "+00:00" ++ replace_Z r
      else String c (replace_Z r)
  end.

(** Rounding to the nearest integer, ties to the even neighbour. *)
Definition round_half_even (q : Q) : Z :=
  let f := Qfloor q in
  let r := q - inject_Z f in
  if ltb r (1 # 2) then f
  else if ltb (1 # 2) r then (f + 1)%Z
  else if Z.even f then f else (f + 1)%Z.

(** [round(q, ndigits)] on a float. *)
Definition round_float (ndigits : nat) (q : Q) : Q :=
  let p := Z.to_pos (10 ^ Z.of_nat ndigits) in
  Qmake (round_half_even (q * inject_Z (Zpos p))) p.

End Py.

(** Numbers whose [int]/[float] nature is observable. *)
Inductive pynum : Type :=
| PInt (z : Z)
| PFloat (q : Q).

Definition pynum_val (n : pynum) : Q :=
  match n with
  | PInt z => inject_Z z
  | PFloat q => q
  end.

(** [min(a, b)], [max(a, b)] and [round(n, ndigits)] keep the operand they
    select: an [int] bound stays an [int]. *)
Definition pynum_min (a b : pynum) : pynum :=
  if Py.ltb (pynum_val b) (pynum_val a) then b else a.

Definition pynum_max (a b : pynum) : pynum :=
  if Py.ltb (pynum_val a) (pynum_val b) then b else a.

Definition pynum_round (ndigits : nat) (n : pynum) : pynum :=
  match n with
  | PInt z => PInt z
  | PFloat q => PFloat (Py.round_float ndigits q)
  end.

(** [datetime.fromisoformat(s).timestamp()] of the Python standard library;
    [None] stands for the [ValueError] it raises on a malformed string. *)
Class IsoFormat := fromisoformat_timestamp : string -> option Q.

(** [str.upper] of the Python standard library.  What it does outside
    ASCII (it follows the Unicode case mappings, so that a dotless i or a
    long s becomes an ASCII capital) is left open; on ASCII text it changes
    the letters a-z to A-Z and nothing else. *)
Class StrUpper := {
  str_upper : string -> string;
  str_upper_ascii : forall s, Py.is_ascii s = true -> str_upper s = Py.ascii_upper s
}.

(** ** app/models/dex_model.py *)

Module DexModel.

(** The kinds of timestamp [_parse_timestamp] distinguishes: a number,
    [int] or [float], and a string. *)
Inductive timestamp_value : Type :=
| TsInt (n : Z)
| TsFloat (t : Q)
| TsStr (s : string).

(** A transaction dictionary, restricted to the keys the model reads; an
    absent key is [None]. *)
Record TransactionDict : Type := mkTransactionDict {
  type_ : option string;
  action : option string;
  amount_usd : option Q;
  timestamp : option timestamp_value;
  pool_id : option string;
  pool_address : option string;
  token_in_symbol : option string;
  token_out_symbol : option string
}.

Record ScoreBreakdown : Type := mkScoreBreakdown {
  volume_score : Q;
  frequency_score : Q;
  retention_score : Q;
  holding_score : Q;
  diversity_score : Q;
  total_score : Q
}.

(** Values stored in the protocol-data dictionary handed to the model. *)
Inductive protocol_value : Type :=
| PVStr (s : string)
| PVList (l : list TransactionDict).

Record CategoryDict : Type := mkCategoryDict {
  score : Q;
  features : gmap string Q;
  tags : list string
}.

Record WalletResult : Type := mkWalletResult {
  zscore : pynum;
  lp_category : CategoryDict;
  swap_category : CategoryDict
}.

Definition stable_tokens : gset string :=
  {[ "USDC"; "USDT"; "DAI"; "LUSD"; "USDP"; "TUSD"; "FRAX" ]}.

(** [d.get(k, default)] on a feature dictionary. *)
Definition get_or (d : gmap string Q) (k : string) (default : Q) : Q :=
  match d !! k with
  | Some v => v
  | None => default
  end.

(** [not d] for a dictionary. *)
Definition dict_empty (d : gmap string Q) : bool := (size d =? 0)%nat.

(** Truth value of [tx.get('timestamp')]. *)
Definition truthy_timestamp (o : option timestamp_value) : bool :=
  match o with
  | None => false
  | Some (TsInt n) => negb (n =? 0)%Z
  | Some (TsFloat t) => negb (Qeq_bool t 0)
  | Some (TsStr s) => Py.truthy_str s
  end.

Definition has_type (ty : string) (tx : TransactionDict) : bool :=
  bool_decide (type_ tx = Some ty).

Definition has_action (a : string) (tx : TransactionDict) : bool :=
  bool_decide (action tx = Some a).

Section WithLibrary.
Context {iso : IsoFormat} {up : StrUpper}.

(** The [lru_cache] is transparent: the function is pure and an exception
    is never cached. *)
Definition _parse_timestamp (timestamp : option timestamp_value) : result (option Q) :=
  match timestamp with
  | Some (TsInt n) => t ← Py.float_of_int n; mret (Some t)
  | Some (TsFloat t) => Ok (Some t)
  | Some (TsStr s) => Ok (fromisoformat_timestamp (Py.replace_Z s))
  | None => Ok None
  end.

(** [{'type': ty, **tx}]: the keys of [tx] win. *)
Definition with_type (ty : string) (tx : TransactionDict) : TransactionDict :=
  {| type_ := match type_ tx with Some t => Some t | None => Some ty end;
     action := action tx;
     amount_usd := amount_usd tx;
     timestamp := timestamp tx;
     pool_id := pool_id tx;
     pool_address := pool_address tx;
     token_in_symbol := token_in_symbol tx;
     token_out_symbol := token_out_symbol tx |}.

(** Iterating [protocol_data.get(k, [])] and spreading each element with
    [**]: a list of dictionaries is iterated, an empty string yields
    nothing, a character of a non-empty string cannot be spread. *)
Definition spread_all (ty : string) (v : option protocol_value)
  : result (list TransactionDict) :=
  match v with
  | None => Ok []
  | Some (PVList l) => Ok (map (with_type ty) l)
  | Some (PVStr EmptyString) => Ok []
  | Some (PVStr _) => Raise TypeError
  end.

Definition preprocess_dex_transactions (protocol_data : gmap string protocol_value)
  : result (list TransactionDict) :=
  lp ← spread_all "lp" (protocol_data !! "lp_transactions");
  swap ← spread_all "swap" (protocol_data !! "swap_transactions");
  mret (lp ++ swap)%list.

(** The comprehension selecting the parsed withdraw times after a deposit. *)
Definition future_withdraws (withdraws : list TransactionDict) (deposit_time : Q)
  : result (list Q) :=
  Py.collect (fun w =>
                parsed_time ← _parse_timestamp (timestamp w);
                mret (match parsed_time with
                      | Some parsed_time =>
                          if Py.ltb deposit_time parsed_time then [parsed_time] else []
                      | None => []
                      end)) withdraws.

(** One iteration of the loop over the deposits. *)
Definition holding_step (withdraws : list TransactionDict)
           (holding_times : list Q) (deposit : TransactionDict) : result (list Q) :=
  let deposit_timestamp := timestamp deposit in
  if negb (truthy_timestamp deposit_timestamp) then Ok holding_times
  else
    deposit_time ← _parse_timestamp deposit_timestamp;
    match deposit_time with
    | None => Ok holding_times
    | Some deposit_time =>
        future ← future_withdraws withdraws deposit_time;
        match future with
        | [] => Ok holding_times
        | w :: ws =>
            let withdraw_time := Py.min_list w ws in
            Ok (holding_times ++ [(withdraw_time - deposit_time) / 86400])%list
        end
    end.

Definition holding_times (deposits withdraws : list TransactionDict)
  : result (list Q) :=
  Py.for_each (holding_step withdraws) deposits [].

Definition calculate_holding_time (deposits withdraws : list TransactionDict)
  : result Q :=
  match deposits with
  | [] => Ok 0
  | _ =>
      hts ← holding_times deposits withdraws;
      match hts with
      | [] => Ok 0
      | _ => Py.mean hts
      end
  end.

Definition usd_or_zero (tx : TransactionDict) : Q :=
  match amount_usd tx with Some a => a | None => 0 end.

Definition parsed_timestamps (txs : list TransactionDict) : result (list Q) :=
  Py.collect (fun tx =>
                parsed_time ← _parse_timestamp (timestamp tx);
                mret (match parsed_time with
                      | Some parsed_time => [parsed_time]
                      | None => []
                      end)) txs.

Definition account_age (lp_transactions : list TransactionDict) : result Q :=
  match lp_transactions with
  | [] => Ok 0
  | _ =>
      timestamps ← parsed_timestamps lp_transactions;
      mret (match timestamps with
            | t1 :: (t2 :: _) as rest =>
                (Py.max_list t1 rest - Py.min_list t1 rest) / 86400
            | _ => 0
            end)
  end.

Definition pool_ids (txs : list TransactionDict) : gset string :=
  list_to_set
    (flat_map (fun tx =>
                 match pool_id tx with
                 | Some p => if Py.truthy_str p then [p] else []
                 | None => []
                 end) txs).

Definition calculate_lp_features (transactions : list TransactionDict)
  : result (gmap string Q) :=
  match transactions with
  | [] => Ok ∅
  | _ =>
      let lp_transactions := filter (fun tx => has_type "lp" tx = true) transactions in
      let deposits := filter (fun tx => has_action "deposit" tx = true) lp_transactions in
      let withdraws := filter (fun tx => has_action "withdraw" tx = true) lp_transactions in
      let total_deposit_usd := Py.sum (map usd_or_zero deposits) in
      let total_withdraw_usd := Py.sum (map usd_or_zero withdraws) in
      let num_deposits := length deposits in
      let num_withdraws := length withdraws in
      withdraw_ratio ←
        (if Py.ltb 0 total_deposit_usd
         then Py.truediv total_withdraw_usd total_deposit_usd
         else Ok 0);
      account_age_days ← account_age lp_transactions;
      avg_hold_time_days ← calculate_holding_time deposits withdraws;
      let unique_pools := size (pool_ids lp_transactions) in
      mret (list_to_map
              [ ("total_deposit_usd", total_deposit_usd);
                ("total_withdraw_usd", total_withdraw_usd);
                ("num_deposits", inject_Z (Z.of_nat num_deposits));
                ("num_withdraws", inject_Z (Z.of_nat num_withdraws));
                ("withdraw_ratio", withdraw_ratio);
                ("avg_hold_time_days", avg_hold_time_days);
                ("account_age_days", account_age_days);
                ("unique_pools", inject_Z (Z.of_nat unique_pools)) ])
  end.

Definition calculate_lp_score (features : gmap string Q) : Q * ScoreBreakdown :=
  if dict_empty features then (0, mkScoreBreakdown 0 0 0 0 0 0)
  else
    let volume_score :=
      Py.min2 (get_or features "total_deposit_usd" 0 / 10000 * 300) 300 in
    let frequency_score := Py.min2 (get_or features "num_deposits" 0 * 20) 200 in
    let retention_score :=
      Py.max2 0 ((1 - get_or features "withdraw_ratio" 0) * 250) in
    let holding_score :=
      Py.min2 (get_or features "avg_hold_time_days" 0 / 30 * 150) 150 in
    let diversity_score := Py.min2 (get_or features "unique_pools" 0 * 20) 100 in
    let total_score :=
      volume_score + frequency_score + retention_score + holding_score
      + diversity_score in
    (total_score,
     mkScoreBreakdown volume_score frequency_score retention_score
                      holding_score diversity_score total_score).

Definition _is_stable_token (token : string) : bool :=
  bool_decide (str_upper token ∈ stable_tokens).

Definition symbols (key : TransactionDict -> option string)
           (swaps : list TransactionDict) : gset string :=
  list_to_set
    (flat_map (fun tx =>
                 match key tx with
                 | Some s => if Py.truthy_str s then [s] else []
                 | None => []
                 end) swaps).

Definition all_tokens (swaps : list TransactionDict) : gset string :=
  symbols token_in_symbol swaps ∪ symbols token_out_symbol swaps.

Definition calculate_token_diversity (swaps : list TransactionDict) : Z :=
  match swaps with
  | [] => 0%Z
  | _ =>
      let tokens := all_tokens swaps in
      let stable_count :=
        Z.of_nat (size (filter (fun token => _is_stable_token token = true) tokens)) in
      let volatile_count := (Z.of_nat (size tokens) - stable_count)%Z in
      let diversity_score := (stable_count * 10 + volatile_count * 15)%Z in
      Z.min diversity_score 150
  end.

(** [sorted(l, key=...)] on the parsed timestamps: a stable insertion sort. *)
Fixpoint insert_sorted (x : Q) (l : list Q) : list Q :=
  match l with
  | [] => [x]
  | y :: r => if Py.ltb y x then y :: insert_sorted x r else x :: y :: r
  end.

Definition sorted (l : list Q) : list Q := fold_right insert_sorted [] l.

(** The loop [for i in range(1, len(s)): s[i] - s[i-1]]. *)
Fixpoint time_diffs (s : list Q) : list Q :=
  match s with
  | a :: (b :: _) as r => (b - a) :: time_diffs r
  | _ => []
  end.

Definition calculate_swap_frequency (swaps : list TransactionDict) : result Q :=
  if (length swaps <? 2)%nat then Ok 0
  else
    parsed_swaps ← parsed_timestamps swaps;
    if (length parsed_swaps <? 2)%nat then Ok 0
    else
      let swaps_sorted := sorted parsed_swaps in
      let time_diffs_hours := map (fun diff => diff / 3600) (time_diffs swaps_sorted) in
      avg_time_between_swaps ← Py.mean time_diffs_hours;
      mret (if Qle_bool avg_time_between_swaps 1 then 100
            else if Qle_bool avg_time_between_swaps 24 then 80
            else if Qle_bool avg_time_between_swaps 168 then 60
            else if Qle_bool avg_time_between_swaps 720 then 40
            else 20).

(** [tx.get('pool_id', tx.get('pool_address', ''))]. *)
Definition swap_pool (tx : TransactionDict) : string :=
  match pool_id tx with
  | Some p => p
  | None => match pool_address tx with Some p => p | None => "" end
  end.

Definition swap_pools (swaps : list TransactionDict) : gset string :=
  list_to_set (filter (fun p => Py.truthy_str p = true) (map swap_pool swaps)).

Definition calculate_swap_features (transactions : list TransactionDict)
  : result (gmap string Q) :=
  match transactions with
  | [] => Ok ∅
  | _ =>
      let swaps := filter (fun tx => has_type "swap" tx = true) transactions in
      match swaps with
      | [] =>
          Ok (list_to_map
                [ ("total_swap_volume", 0); ("num_swaps", 0);
                  ("unique_tokens_swapped", 0); ("unique_pools_swapped", 0);
                  ("avg_swap_size", 0); ("token_diversity_score", 0);
                  ("swap_frequency_score", 0) ])
      | _ =>
          let total_swap_volume := Py.sum (map usd_or_zero swaps) in
          let num_swaps := inject_Z (Z.of_nat (length swaps)) in
          avg_swap_size ←
            (if Py.ltb 0 num_swaps then Py.truediv total_swap_volume num_swaps
             else Ok 0);
          let unique_tokens_swapped := size (all_tokens swaps) in
          let unique_pools_swapped := size (swap_pools swaps) in
          let token_diversity_score := calculate_token_diversity swaps in
          swap_frequency_score ← calculate_swap_frequency swaps;
          mret (list_to_map
                  [ ("total_swap_volume", total_swap_volume);
                    ("num_swaps", num_swaps);
                    ("unique_tokens_swapped", inject_Z (Z.of_nat unique_tokens_swapped));
                    ("unique_pools_swapped", inject_Z (Z.of_nat unique_pools_swapped));
                    ("avg_swap_size", avg_swap_size);
                    ("token_diversity_score", inject_Z token_diversity_score);
                    ("swap_frequency_score", swap_frequency_score) ])
      end
  end.

Definition calculate_swap_score (features : gmap string Q) : Q * gmap string Q :=
  if dict_empty features then (0, ∅)
  else
    let volume_score := Py.min2 (get_or features "total_swap_volume" 0 / 10000 * 100) 100 in
    let frequency_score := Py.min2 (get_or features "num_swaps" 0 / 50 * 100) 100 in
    let diversity_score :=
      Py.min2 (get_or features "token_diversity_score" 0 / 20 * 100) 100 in
    let activity_score :=
      Py.min2 (get_or features "swap_frequency_score" 0 / 50 * 100) 100 in
    let pool_diversity_score :=
      Py.min2 (get_or features "unique_pools_swapped" 0 / 10 * 100) 100 in
    let total_score :=
      volume_score * (3 # 10) + frequency_score * (2 # 10) + diversity_score * (2 # 10)
      + activity_score * (15 # 100) + pool_diversity_score * (15 # 100) in
    (total_score,
     list_to_map
       [ ("volume_score", volume_score); ("frequency_score", frequency_score);
         ("diversity_score", diversity_score); ("activity_score", activity_score);
         ("pool_diversity_score", pool_diversity_score) ]).

(** [a >= b]. *)
Definition geb (a b : Q) : bool := Qle_bool b a.

Definition generate_user_tags (lp_features swap_features : gmap string Q)
  : list string :=
  let total_deposit := get_or lp_features "total_deposit_usd" 0 in
  let avg_holding_time := get_or lp_features "avg_hold_time_days" 0 in
  let total_volume := get_or swap_features "total_swap_volume" 0 in
  let num_swaps := get_or swap_features "num_swaps" 0 in
  let token_diversity := get_or swap_features "token_diversity_score" 0 in
  ((if geb total_deposit 100000 then ["Whale LP"]
    else if geb total_deposit 50000 then ["Large LP"]
    else if geb total_deposit 10000 then ["Medium LP"]
    else if geb total_deposit 1000 then ["Small LP"]
    else [])
   ++ (if geb avg_holding_time 90 then ["Long-term Holder"]
       else if geb avg_holding_time 30 then ["Medium-term Holder"]
       else [])
   ++ (if geb total_volume 500000 then ["Whale Trader"]
       else if geb total_volume 100000 then ["Large Trader"]
       else [])
   ++ (if geb num_swaps 100 then ["High Frequency Trader"]
       else if geb num_swaps 50 then ["Active Trader"]
       else [])
   ++ (if geb token_diversity 15 then ["Diversified Trader"] else []))%list.

Definition calculate_final_score (lp_score swap_score : Q)
           (lp_features swap_features : gmap string Q) : WalletResult :=
  let final_score := lp_score * (6 # 10) + swap_score * (4 # 10) in
  let zscore := PFloat ((final_score - 50) / 25) in
  let zscore := pynum_max (PInt (-3)) (pynum_min (PInt 3) zscore) in
  let user_tags := generate_user_tags lp_features swap_features in
  {| zscore := pynum_round 3 zscore;
     lp_category :=
       {| score := Py.round_float 2 lp_score;
          features := lp_features;
          tags := filter (fun tag => Py.contains "LP" tag || Py.contains "Holder" tag = true)
                         user_tags |};
     swap_category :=
       {| score := Py.round_float 2 swap_score;
          features := swap_features;
          tags := filter (fun tag => Py.contains "Trader" tag = true) user_tags |} |}.

Definition zero_result : WalletResult :=
  {| zscore := PFloat 0;
     lp_category := {| score := 0; features := ∅; tags := [] |};
     swap_category := {| score := 0; features := ∅; tags := [] |} |}.

(** The [try] block re-raises whatever it catches, so an error of any
    step is the error of the whole. *)
Definition process_wallet (wallet_address : string)
           (protocol_data : gmap string protocol_value) : result WalletResult :=
  transactions ← preprocess_dex_transactions protocol_data;
  match transactions with
  | [] => Ok zero_result
  | _ =>
      lp_features ← calculate_lp_features transactions;
      let '(lp_score, lp_breakdown) := calculate_lp_score lp_features in
      swap_features ← calculate_swap_features transactions;
      let '(swap_score, swap_breakdown) := calculate_swap_score swap_features in
      mret (calculate_final_score lp_score swap_score lp_features swap_features)
  end.

End WithLibrary.
End DexModel.

(** ** Text of numbers: [str] and [float] *)

Module PyStr.

Definition digits (n : Z) : string := NilZero.string_of_uint (N.to_uint (Z.to_N n)).

(** [str(z)] on an [int]. *)
Definition str_int (z : Z) : string := NilZero.string_of_int (Z.to_int z).

(** The fractional digits of a count of thousandths, without trailing
    zeros but never empty. *)
Definition fraction (thousandths : Z) : string :=
  let d1 := (thousandths / 100)%Z in
  let d2 := (thousandths / 10 mod 10)%Z in
  let d3 := (thousandths mod 10)%Z in
  if (d3 =? 0)%Z
  then if (d2 =? 0)%Z then digits d1 else digits d1 ++ digits d2
  else digits d1 ++ digits d2 ++ digits d3.

(** [str(x)] on a [float] that has at most three decimals, the only kind
    the service prints: the shortest decimal text, as [repr] gives it.
    (A negative zero, which binary64 prints as [-0.0], has no counterpart
    over the rationals.) *)
Definition str_float (q : Q) : string :=
  let m := Py.round_half_even (q * 1000) in
  let a := Z.abs m in
  (if (m <? 0)%Z then "-" else "")
    ++ digits (a / 1000) ++ "." ++ fraction (a mod 1000).

Definition str (n : pynum) : string :=
  match n with
  | PInt z => str_int z
  | PFloat q => str_float q
  end.

Definition digit_of (c : ascii) : option Z :=
  let n := nat_of_ascii c in
  if (48 <=? n)%nat && (n <=? 57)%nat then Some (Z.of_nat (n - 48)) else None.

(** The longest run of decimal digits at the head of [s]: its value, its
    length and what follows. *)
Fixpoint digits_prefix (s : string) (acc : Z) (n : nat) : Z * nat * string :=
  match s with
  | EmptyString => (acc, n, s)
  | String c r =>
      match digit_of c with
      | Some d => digits_prefix r (acc * 10 + d)%Z (S n)
      | None => (acc, n, s)
      end
  end.

Definition float_unsigned (s : string) : option Q :=
  let '(ip, n1, rest) := digits_prefix s 0%Z 0%nat in
  match rest with
  | EmptyString => if (n1 =? 0)%nat then None else Some (inject_Z ip)
  | String c r =>
      if Ascii.eqb c "."%char then
        let '(fp, n2, rest2) := digits_prefix r 0%Z 0%nat in
        match rest2 with
        | EmptyString =>
            if (n1 + n2 =? 0)%nat then None
            else Some (inject_Z ip + Qmake fp (Z.to_pos (10 ^ Z.of_nat n2)))
        | _ => None
        end
      else None
  end.

(** [float(s)] on plain decimal text (sign, digits, optional point);
    [None] is the [ValueError].  Exponents, padding, underscores and the
    words [inf] and [nan], which Python also reads, are not modelled. *)
Definition float (s : string) : option Q :=
  match s with
  | String c r =>
      if Ascii.eqb c "-"%char then Qopp <$> float_unsigned r
      else if Ascii.eqb c "+"%char then float_unsigned r
      else float_unsigned s
  | EmptyString => None
  end.

End PyStr.

(** ** app/utils/types.py *)

(** A decoded JSON value, as [json.loads] delivers it. *)
#[warnings="-register-all"]
Inductive json : Type :=
| JNull
| JBool (b : bool)
| JInt (z : Z)
| JFloat (q : Q)
| JStr (s : string)
| JArr (l : list json)
| JObj (o : gmap string json).

(** The validation library in its default (lax) mode converts some values
    that are not of the declared type: text that reads as a number, a
    float without fractional part or a boolean given for an [int], and the
    like.  Which values it converts, and to what, is left open; [None]
    stands for a value it rejects. *)
Class LaxCoercion := {
  lax_int : json -> option Z;
  lax_float : json -> option Q
}.

Module Types.

Record TokenData : Type := mkTokenData {
  amount : Z;
  amountUSD : Q;
  address : string;
  symbol : string
}.

Record Transaction : Type := mkTransaction {
  document_id : string;
  action : string;
  timestamp : Z;
  caller : string;
  protocol : string;
  poolId : string;
  poolName : string;
  tokenIn : option TokenData;
  tokenOut : option TokenData;
  token0 : option TokenData;
  token1 : option TokenData
}.

Record ProtocolData : Type := mkProtocolData {
  protocolType : string;
  transactions : list Transaction
}.

Record WalletTransactionMessage : Type := mkWalletTransactionMessage {
  wallet_address : string;
  data : list ProtocolData
}.

Record ScoreFeatures : Type := mkScoreFeatures {
  total_deposit_usd : Q;
  total_swap_volume : Q;
  num_deposits : Q;
  num_swaps : Q;
  avg_hold_time_days : Q;
  unique_pools : Q;
  total_withdraw_usd : Q;
  num_withdraws : Q;
  withdraw_ratio : Q;
  account_age_days : Q;
  unique_pools_swapped : Q;
  avg_swap_size : Q;
  token_diversity_score : Q;
  swap_frequency_score : Q
}.

Record CategoryResult : Type := mkCategoryResult {
  category : string;
  score : Q;
  transaction_count : nat;
  features : ScoreFeatures
}.

Record CategoryError : Type := mkCategoryError {
  error_category : string;
  category_error : string;
  error_transaction_count : nat
}.

Record WalletScoreSuccessMessage : Type := mkWalletScoreSuccessMessage {
  success_wallet_address : string;
  zscore : string;
  success_timestamp : Z;
  success_processing_time_ms : Z;
  success_categories : list CategoryResult
}.

Record WalletScoreFailureMessage : Type := mkWalletScoreFailureMessage {
  failure_wallet_address : string;
  error : string;
  failure_timestamp : Z;
  failure_processing_time_ms : Z;
  failure_categories : list CategoryError
}.

(** *** Field validation

    A field is accepted when its JSON value has the declared type, or, for
    the numeric fields, when the validation library converts it
    ([LaxCoercion]); a string field takes a string only.  Unknown keys are
    ignored. *)

Definition invalid {A} (loc : string) : result A := Raise (ValidationError loc).

Definition as_str (loc : string) (v : option json) : result string :=
  match v with
  | Some (JStr s) => Ok s
  | _ => invalid loc
  end.

Section WithLibrary.
Context {lax : LaxCoercion}.

Definition as_int (loc : string) (v : option json) : result Z :=
  match v with
  | Some (JInt z) => Ok z
  | Some j =>
      match lax_int j with
      | Some z => Ok z
      | None => invalid loc
      end
  | None => invalid loc
  end.

Definition as_float (loc : string) (v : option json) : result Q :=
  match v with
  | Some (JInt z) => Ok (inject_Z z)
  | Some (JFloat q) => Ok q
  | Some j =>
      match lax_float j with
      | Some q => Ok q
      | None => invalid loc
      end
  | None => invalid loc
  end.

Definition as_list (loc : string) (v : option json) : result (list json) :=
  match v with
  | Some (JArr l) => Ok l
  | _ => invalid loc
  end.

(** [Field(..., pattern="^(a|b|...)$")]: the whole string is one of the
    alternatives. *)
Definition as_pattern (alternatives : list string) (loc : string) (v : option json)
  : result string :=
  s ← as_str loc v;
  if bool_decide (s ∈ alternatives) then Ok s else invalid loc.

Fixpoint validate_all {A} (f : json -> result A) (l : list json) : result (list A) :=
  match l with
  | [] => Ok []
  | j :: r =>
      a ← f j;
      rest ← validate_all f r;
      mret (a :: rest)
  end.

Definition validate_TokenData (j : json) : result TokenData :=
  match j with
  | JObj o =>
      amount ← as_int "amount" (o !! "amount");
      amountUSD ← as_float "amountUSD" (o !! "amountUSD");
      address ← as_str "address" (o !! "address");
      symbol ← as_str "symbol" (o !! "symbol");
      mret (mkTokenData amount amountUSD address symbol)
  | _ => invalid "TokenData"
  end.

(** An [Optional[TokenData] = None] field under a [pre=True, always=True]
    validator that rejects [None] when [required]. *)
Definition validate_leg (required : bool) (msg : string) (v : option json)
  : result (option TokenData) :=
  match v with
  | None | Some JNull => if required then invalid msg else Ok None
  | Some j => t ← validate_TokenData j; mret (Some t)
  end.

Definition validate_swap_tokens (action : string) : option json -> result (option TokenData) :=
  validate_leg (bool_decide (action = "swap"))
               "Swap transactions must have tokenIn and tokenOut".

Definition validate_lp_tokens (action : string) : option json -> result (option TokenData) :=
  validate_leg (bool_decide (action ∈ ["deposit"; "withdraw"]))
               "LP transactions must have token0 and token1".

Definition validate_Transaction (j : json) : result Transaction :=
  match j with
  | JObj o =>
      document_id ← as_str "document_id" (o !! "document_id");
      action ← as_pattern ["swap"; "deposit"; "withdraw"] "action" (o !! "action");
      timestamp ← as_int "timestamp" (o !! "timestamp");
      caller ← as_str "caller" (o !! "caller");
      protocol ← as_str "protocol" (o !! "protocol");
      poolId ← as_str "poolId" (o !! "poolId");
      poolName ← as_str "poolName" (o !! "poolName");
      tokenIn ← validate_swap_tokens action (o !! "tokenIn");
      tokenOut ← validate_swap_tokens action (o !! "tokenOut");
      token0 ← validate_lp_tokens action (o !! "token0");
      token1 ← validate_lp_tokens action (o !! "token1");
      mret (mkTransaction document_id action timestamp caller protocol poolId
                          poolName tokenIn tokenOut token0 token1)
  | _ => invalid "Transaction"
  end.

Definition validate_ProtocolData (j : json) : result ProtocolData :=
  match j with
  | JObj o =>
      protocolType ← as_pattern ["dexes"] "protocolType" (o !! "protocolType");
      raw ← as_list "transactions" (o !! "transactions");
      transactions ← validate_all validate_Transaction raw;
      mret (mkProtocolData protocolType transactions)
  | _ => invalid "ProtocolData"
  end.

(** Building [WalletTransactionMessage] from the spread [message_data]:
    anything but a mapping cannot be spread into keyword arguments. *)
Definition validate_WalletTransactionMessage (message_data : json)
  : result WalletTransactionMessage :=
  match message_data with
  | JObj o =>
      wallet_address ← as_str "wallet_address" (o !! "wallet_address");
      raw ← as_list "data" (o !! "data");
      data ← validate_all validate_ProtocolData raw;
      mret (mkWalletTransactionMessage wallet_address data)
  | _ => Raise TypeError
  end.

End WithLibrary.

(** [tx.dict()], seen through the keys the scoring model and the service
    read: of these only [action] and [timestamp] exist on a [Transaction]. *)
Definition Transaction_dict (tx : Transaction) : DexModel.TransactionDict :=
  {| DexModel.type_ := None;
     DexModel.action := Some (action tx);
     DexModel.amount_usd := None;
     DexModel.timestamp := Some (DexModel.TsInt (timestamp tx));
     DexModel.pool_id := None;
     DexModel.pool_address := None;
     DexModel.token_in_symbol := None;
     DexModel.token_out_symbol := None |}.

(** Building [ScoreFeatures] from the spread feature dictionary: absent
    keys take the declared default, keys that are no field are ignored. *)
Definition ScoreFeatures_of (features : gmap string Q) : ScoreFeatures :=
  let get k := DexModel.get_or features k 0 in
  {| total_deposit_usd := get "total_deposit_usd";
     total_swap_volume := get "total_swap_volume";
     num_deposits := get "num_deposits";
     num_swaps := get "num_swaps";
     avg_hold_time_days := get "avg_hold_time_days";
     unique_pools := get "unique_pools";
     total_withdraw_usd := get "total_withdraw_usd";
     num_withdraws := get "num_withdraws";
     withdraw_ratio := get "withdraw_ratio";
     account_age_days := get "account_age_days";
     unique_pools_swapped := get "unique_pools_swapped";
     avg_swap_size := get "avg_swap_size";
     token_diversity_score := get "token_diversity_score";
     swap_frequency_score := get "swap_frequency_score" |}.

(** [WalletScoreSuccessMessage(...)] with its [validate_zscore_format]. *)
Definition make_success (wallet_address zscore : string) (timestamp processing_time_ms : Z)
           (categories : list CategoryResult) : result WalletScoreSuccessMessage :=
  match PyStr.float zscore with
  | Some _ =>
      Ok (mkWalletScoreSuccessMessage wallet_address zscore timestamp
                                      processing_time_ms categories)
  | None => invalid "zscore must be a valid number string"
  end.

(** [WalletScoreFailureMessage(...)]: the wallet address comes unvalidated
    from the raw payload and must be a string. *)
Definition make_failure (wallet_address : json) (error : string)
           (timestamp processing_time_ms : Z) (categories : list CategoryError)
  : result WalletScoreFailureMessage :=
  match wallet_address with
  | JStr w =>
      Ok (mkWalletScoreFailureMessage w error timestamp processing_time_ms categories)
  | _ => invalid "wallet_address"
  end.

End Types.

(** ** app/services/kafka_service.py *)

Module KafkaService.
Import Types.

(** What one call of [process_message] meets outside the program: the
    readings of the clock, and whether the broker acknowledges a record
    sent to the success and to the failure topic. *)
Record environment : Type := mkEnvironment {
  utc_timestamp : Z;
  processing_time_ms : Z;
  success_acknowledged : bool;
  failure_acknowledged : bool
}.

(** The service object: its statistics (without [service_started_at],
    which nothing here reads), whether [self.consumer] is set, and the
    records the two output topics have received. *)
Record service : Type := mkService {
  messages_processed : nat;
  messages_failed : nat;
  last_processed_at : option Z;
  consumer : bool;
  success_topic : list WalletScoreSuccessMessage;
  failure_topic : list WalletScoreFailureMessage
}.

(** What the consumer hands over at one step of [async for]. *)
Inductive polled : Type :=
| Message (env : environment) (value : json)
| ConsumerFailure (e : exn).

(** [str(e)]. *)
Definition exn_str (e : exn) : string :=
  match e with
  | ZeroDivisionError => "division by zero"
  | StatisticsError => "mean requires at least one data point"
  | OverflowError => "int too large to convert to float"
  | TypeError => "argument after ** must be a mapping"
  | AttributeError => "object has no attribute 'get'"
  | RuntimeError => "Consumer not initialized. Call start() first."
  | ValidationError msg => msg
  | KafkaError => "KafkaError"
  end.

(** The loop that picks the first group of protocol type "dexes". *)
Fixpoint protocol_data_of (data : list ProtocolData)
  : gmap string DexModel.protocol_value :=
  match data with
  | [] => ∅
  | protocol :: rest =>
      if bool_decide (protocolType protocol = "dexes")
      then <["protocolType" := DexModel.PVStr (protocolType protocol)]>
             (<["transactions" :=
                  DexModel.PVList (map Transaction_dict (transactions protocol))]> ∅)
      else protocol_data_of rest
  end.

(** Iterating [protocol_data.get("transactions", [])] and calling [get] on
    each element. *)
Definition transactions_of (protocol_data : gmap string DexModel.protocol_value)
  : result (list DexModel.TransactionDict) :=
  match protocol_data !! "transactions" with
  | None => Ok []
  | Some (DexModel.PVList l) => Ok l
  | Some (DexModel.PVStr EmptyString) => Ok []
  | Some (DexModel.PVStr _) => Raise AttributeError
  end.

Definition action_in (actions : list string) (tx : DexModel.TransactionDict) : bool :=
  match DexModel.action tx with
  | Some a => bool_decide (a ∈ actions)
  | None => false
  end.

Section WithLibrary.
Context {iso : IsoFormat} {up : StrUpper} {lax : LaxCoercion}.

(** The [try] block up to the construction of the success message. *)
Definition build_success (env : environment) (message_data : json)
  : result WalletScoreSuccessMessage :=
  wallet_message ← validate_WalletTransactionMessage message_data;
  let protocol_data := protocol_data_of (data wallet_message) in
  result ← DexModel.process_wallet (wallet_address wallet_message) protocol_data;
  let lp_cat := DexModel.lp_category result in
  let lp_features := ScoreFeatures_of (DexModel.features lp_cat) in
  lp_txs ← transactions_of protocol_data;
  let lp_result :=
    mkCategoryResult "liquidity_provision" (DexModel.score lp_cat)
      (length (filter (fun tx => action_in ["deposit"; "withdraw"] tx = true) lp_txs))
      lp_features in
  let swap_cat := DexModel.swap_category result in
  let swap_features := ScoreFeatures_of (DexModel.features swap_cat) in
  swap_txs ← transactions_of protocol_data;
  let swap_result :=
    mkCategoryResult "trading" (DexModel.score swap_cat)
      (length (filter (fun tx => action_in ["swap"] tx = true) swap_txs))
      swap_features in
  make_success (wallet_address wallet_message) (PyStr.str (DexModel.zscore result))
               (utc_timestamp env) (processing_time_ms env)
               [lp_result; swap_result].

(** [message_data.get("wallet_address", "unknown")] under its bare
    [except]: a payload without [get] leaves the default in place. *)
Definition raw_wallet_address (message_data : json) : json :=
  match message_data with
  | JObj o =>
      match o !! "wallet_address" with
      | Some v => v
      | None => JStr "unknown"
      end
  | _ => JStr "unknown"
  end.

(** The [except Exception as e] handler. *)
Definition handle_failure (env : environment) (s : service) (message_data : json)
           (e : exn) : result unit * service :=
  let wallet_address := raw_wallet_address message_data in
  match make_failure wallet_address (exn_str e) (utc_timestamp env)
                     (processing_time_ms env) [] with
  | Raise e' => (Raise e', s)
  | Ok failure_message =>
      if failure_acknowledged env
      then (Ok tt,
            {| messages_processed := messages_processed s;
               messages_failed := S (messages_failed s);
               last_processed_at := last_processed_at s;
               consumer := consumer s;
               success_topic := success_topic s;
               failure_topic := failure_topic s ++ [failure_message] |})
      else (Raise KafkaError, s)
  end.

Definition process_message (env : environment) (s : service) (message_data : json)
  : result unit * service :=
  match build_success env message_data with
  | Ok success_message =>
      if success_acknowledged env
      then (Ok tt,
            {| messages_processed := S (messages_processed s);
               messages_failed := messages_failed s;
               last_processed_at := Some (utc_timestamp env);
               consumer := consumer s;
               success_topic := success_topic s ++ [success_message];
               failure_topic := failure_topic s |})
      else handle_failure env s message_data KafkaError
  | Raise e => handle_failure env s message_data e
  end.

(** The body of [async for message in self.consumer]: whatever
    [process_message] raises is logged and the loop goes on; a failure
    of the consumer itself ends the loop with that error. *)
Fixpoint consume_loop (stream : list polled) (s : service) : result unit * service :=
  match stream with
  | [] => (Ok tt, s)
  | Message env value :: rest => consume_loop rest (snd (process_message env s value))
  | ConsumerFailure e :: _ => (Raise e, s)
  end.

Definition consume_messages (stream : list polled) (s : service)
  : result unit * service :=
  if consumer s then consume_loop stream s else (Raise RuntimeError, s).

(** [start] creates the consumer and the producer before it connects. *)
Definition set_consumer (s : service) : service :=
  {| messages_processed := messages_processed s;
     messages_failed := messages_failed s;
     last_processed_at := last_processed_at s;
     consumer := true;
     success_topic := success_topic s;
     failure_topic := failure_topic s |}.

(** [start], then [consume_messages] with [stop] in its [finally];
    [connects] tells whether the consumer and the producer both start, a
    failure of either being re-raised by [start]. *)
Definition run (connects : bool) (stream : list polled) (s : service)
  : result unit * service :=
  if connects
  then consume_messages stream (set_consumer s)
  else (Raise KafkaError, set_consumer s).

End WithLibrary.
End KafkaService.

Module KafkaServiceManager.

Definition max_retries : Z := 5.
Definition base_delay : Z := 5.

(** What one pass of the loop meets: the value of [self._running] at the
    loop head, whether the connections start, and what the consumer then
    delivers. *)
Record attempt : Type := mkAttempt {
  running : bool;
  connects : bool;
  stream : list KafkaService.polled
}.

(** Where the worker is: still in the loop, out of it through [break]
    (the retry budget is spent), or out of it because [_running] was
    cleared. *)
Inductive phase : Type :=
| Running
| Failed
| Stopped.

(** The local variables of [_run_with_retry], with the delays it has
    slept so far and the service it supervises. *)
Record worker : Type := mkWorker {
  state : phase;
  retry_count : Z;
  sleeps : list Z;
  kafka_service : KafkaService.service
}.

Section WithLibrary.
Context {iso : IsoFormat} {up : StrUpper} {lax : LaxCoercion}.

(** One pass of [while self._running]. *)
Definition retry_step (w : worker) (a : attempt) : worker :=
  match state w with
  | Failed | Stopped => w
  | Running =>
      if negb (running a)
      then mkWorker Stopped (retry_count w) (sleeps w) (kafka_service w)
      else
      match KafkaService.run (connects a) (stream a) (kafka_service w) with
      | (Raise e, s) =>
          let retry_count := (retry_count w + 1)%Z in
          if (max_retries <? retry_count)%Z
          then mkWorker Failed retry_count (sleeps w) s
          else
            let delay := (base_delay * 2 ^ (retry_count - 1))%Z in
            mkWorker Running retry_count (sleeps w ++ [delay]) s
      | (Ok _, s) => mkWorker Running 0 (sleeps w) s
      end
  end.

(** The worker started on a service, then run on the attempts. *)
Definition _run_with_retry (script : list attempt) (s : KafkaService.service) : worker :=
  fold_left retry_step script (mkWorker Running 0 [] s).

End WithLibrary.
End KafkaServiceManager.

(** ** Statistics: kafka_service.py [get_stats] and main.py [get_stats] *)

Module Main.

(** A value of the service's [stats] dictionary: a counter, or a time
    that may not have been set yet. *)
Inductive stat_value : Type :=
| StatCount (n : nat)
| StatTime (t : option Z).

(** [KafkaService.get_stats]: a copy of the [stats] dictionary, under the
    keys it is kept under. *)
Definition service_stats (service_started_at : option Z) (s : KafkaService.service)
  : gmap string stat_value :=
  <["messages_processed" := StatCount (KafkaService.messages_processed s)]>
    (<["messages_failed" := StatCount (KafkaService.messages_failed s)]>
       (<["last_processed_at" := StatTime (KafkaService.last_processed_at s)]>
          (<["service_started_at" := StatTime service_started_at]> ∅))).

Record StatsResponse : Type := mkStatsResponse {
  total_processed : nat;
  successful_processed : nat;
  failed_processed : nat;
  average_processing_time_ms : Q;
  uptime_seconds : Q;
  last_processed_timestamp : option Z
}.

(** An [int] field of [StatsResponse] filled from [kafka_stats.get(k, 0)]. *)
Definition count_field (kafka_stats : gmap string stat_value) (k : string) : result nat :=
  match kafka_stats !! k with
  | None => Ok 0%nat
  | Some (StatCount n) => Ok n
  | Some (StatTime _) => Raise (ValidationError k)
  end.

(** The [float] field filled from [kafka_stats.get(k, 0.0)]. *)
Definition float_field (kafka_stats : gmap string stat_value) (k : string) : result Q :=
  match kafka_stats !! k with
  | None => Ok 0
  | Some (StatCount n) => Ok (inject_Z (Z.of_nat n))
  | Some (StatTime _) => Raise (ValidationError k)
  end.

(** The [Optional[int]] field filled from [kafka_stats.get(k)]. *)
Definition time_field (kafka_stats : gmap string stat_value) (k : string)
  : result (option Z) :=
  match kafka_stats !! k with
  | None => Ok None
  | Some (StatCount n) => Ok (Some (Z.of_nat n))
  | Some (StatTime None) => Ok None
  | Some (StatTime (Some _)) => Raise (ValidationError k)
  end.

(** The [/stats] endpoint.  [kafka_stats] is what [get_stats] of the
    managed service returns, [None] while there is no manager;
    [service_start_time] and [now] are the readings of the clock.  The
    error case is the [HTTPException] with status 500. *)
Definition get_stats (kafka_stats : option (gmap string stat_value))
           (service_start_time : option Z) (now : Z) : result StatsResponse :=
  let uptime_seconds :=
    match service_start_time with
    | Some started => inject_Z (now - started)
    | None => 0
    end in
  match kafka_stats with
  | None => Ok (mkStatsResponse 0 0 0 0 uptime_seconds None)
  | Some kafka_stats =>
      total_processed ← count_field kafka_stats "total_processed";
      successful_processed ← count_field kafka_stats "successful_processed";
      failed_processed ← count_field kafka_stats "failed_processed";
      average_processing_time_ms ← float_field kafka_stats "average_processing_time_ms";
      last_processed_timestamp ← time_field kafka_stats "last_processed_timestamp";
      mret (mkStatsResponse total_processed successful_processed failed_processed
                            average_processing_time_ms uptime_seconds
                            last_processed_timestamp)
  end.

End Main.

(** ** Reference statements and sample inputs

    The definitions of this part are not translated from the source: they
    write down what the specification says, in its own terms, so that the
    properties below can compare the two; and they fix the concrete inputs
    on which the properties are exercised. *)

(** *** Timestamps that convert

    An [int] timestamp beyond the range of binary64 makes
    [_parse_timestamp] raise.  The definitions of this module give the
    values that the calculations of [DexModel] over parsed timestamps
    take when no timestamp of the input does so; the properties relate
    the two. *)

Module Converted.
Import DexModel.

Section WithLibrary.
Context {iso : IsoFormat}.

(** The time a timestamp stands for: what [_parse_timestamp] returns. *)
Definition time_of (timestamp : option timestamp_value) : option Q :=
  match _parse_timestamp timestamp with
  | Ok parsed_time => parsed_time
  | Raise _ => None
  end.

(** The conversion of the transaction's timestamp to a float does not
    overflow. *)
Definition converts (tx : TransactionDict) : Prop :=
  is_ok (_parse_timestamp (timestamp tx)) = true.

Definition all_convert (txs : list TransactionDict) : Prop := Forall converts txs.

(** The parsed withdraw times after a deposit. *)
Definition future_withdraws (withdraws : list TransactionDict) (deposit_time : Q)
  : list Q :=
  flat_map (fun w =>
              match time_of (timestamp w) with
              | Some parsed_time =>
                  if Py.ltb deposit_time parsed_time then [parsed_time] else []
              | None => []
              end) withdraws.

(** One iteration of the loop over the deposits. *)
Definition holding_step (withdraws : list TransactionDict)
           (holding_times : list Q) (deposit : TransactionDict) : list Q :=
  let deposit_timestamp := timestamp deposit in
  if negb (truthy_timestamp deposit_timestamp) then holding_times
  else
    match time_of deposit_timestamp with
    | None => holding_times
    | Some deposit_time =>
        match future_withdraws withdraws deposit_time with
        | [] => holding_times
        | w :: ws =>
            let withdraw_time := Py.min_list w ws in
            (holding_times ++ [(withdraw_time - deposit_time) / 86400])%list
        end
    end.

Definition holding_times (deposits withdraws : list TransactionDict) : list Q :=
  fold_left (holding_step withdraws) deposits [].

Definition calculate_holding_time (deposits withdraws : list TransactionDict)
  : result Q :=
  match deposits with
  | [] => Ok 0
  | _ =>
      match holding_times deposits withdraws with
      | [] => Ok 0
      | hts => Py.mean hts
      end
  end.


Definition parsed_timestamps (txs : list TransactionDict) : list Q :=
  flat_map (fun tx =>
              match time_of (timestamp tx) with
              | Some parsed_time => [parsed_time]
              | None => []
              end) txs.

Definition account_age (lp_transactions : list TransactionDict) : Q :=
  match lp_transactions with
  | [] => 0
  | _ =>
      match parsed_timestamps lp_transactions with
      | t1 :: (t2 :: _) as rest =>
          (Py.max_list t1 rest - Py.min_list t1 rest) / 86400
      | _ => 0
      end
  end.

Definition calculate_swap_frequency (swaps : list TransactionDict) : result Q :=
  if (length swaps <? 2)%nat then Ok 0
  else
    let parsed_swaps := parsed_timestamps swaps in
    if (length parsed_swaps <? 2)%nat then Ok 0
    else
      let swaps_sorted := sorted parsed_swaps in
      let time_diffs_hours := map (fun diff => diff / 3600) (time_diffs swaps_sorted) in
      avg_time_between_swaps ← Py.mean time_diffs_hours;
      mret (if Qle_bool avg_time_between_swaps 1 then 100
            else if Qle_bool avg_time_between_swaps 24 then 80
            else if Qle_bool avg_time_between_swaps 168 then 60
            else if Qle_bool avg_time_between_swaps 720 then 40
            else 20).


(** What one pass of the loop over the deposits appends. *)
Definition contribution (withdraws : list TransactionDict) (d : TransactionDict)
  : list Q := holding_step withdraws [] d.

End WithLibrary.
End Converted.

(** *** The statements of the specification *)

Module Spec.
Import DexModel Converted.

Definition total (l : list Q) : Q := fold_right Qplus 0 l.


(** [clamp(x, lo, hi)]. *)
Definition clamp (x lo hi : Q) : Q := Qmax lo (Qmin hi x).

(** The z-score before rounding, as the specification writes it. *)
Definition raw_zscore (lp_score swap_score : Q) : Q :=
  clamp (((6 # 10) * lp_score + (4 # 10) * swap_score - 50) / 25) (-3) 3.

(** [r] is [x] rounded to three decimals: a whole number of thousandths
    at most half a thousandth away. *)
Definition rounds_to_3 (x r : Q) : Prop :=
  (exists m : Z, r == m # 1000) /\ r - x <= 1 # 2000 /\ x - r <= 1 # 2000.

(** The thousandths from -3.000 to 3.000. *)
Definition zscore_range : list Z :=
  map (fun k => (Z.of_nat k - 3000)%Z) (seq 0 (Z.to_nat 6001)).

(** Printing a float of [m] thousandths and reading the text back gives
    the same number. *)
Definition reads_back (m : Z) : bool :=
  match PyStr.float (PyStr.str (PFloat (m # 1000))) with
  | Some q => Qeq_bool q (m # 1000)
  | None => false
  end.

Definition mean_or_zero (l : list Q) : Q :=
  match l with
  | [] => 0
  | _ => total l / inject_Z (Z.of_nat (length l))
  end.


(** The fixed stable-token set of the specification. *)
Definition stable_names : list string :=
  ["USDC"; "USDT"; "DAI"; "LUSD"; "USDP"; "TUSD"; "FRAX"].

Section Tokens.
Context {up : StrUpper}.

(** A symbol is stable when, in upper case, it is one of the names. *)
Definition is_stable (token : string) : Prop := str_upper token ∈ stable_names.

#[global] Instance is_stable_dec (token : string) : Decision (is_stable token) :=
  (_ : Decision (str_upper token ∈ stable_names)).

End Tokens.

(** The symbols traded by a list of swaps: what appears, non-empty, on
    the in or the out side of one of them. *)
Definition traded (swaps : list TransactionDict) (token : string) : Prop :=
  token <> ""
  /\ exists tx, tx ∈ swaps
                /\ (token_in_symbol tx = Some token \/ token_out_symbol tx = Some token).

(** *** The raw record, as the specification's decoding rule reads it *)

Definition raw_field (j : json) (k : string) : option json :=
  match j with
  | JObj o => o !! k
  | _ => None
  end.

Definition raw_list (v : option json) : list json :=
  match v with
  | Some (JArr l) => l
  | _ => []
  end.

Definition raw_groups (message_data : json) : list json :=
  raw_list (raw_field message_data "data").

Definition raw_transactions (group : json) : list json :=
  raw_list (raw_field group "transactions").

Definition all_transactions (message_data : json) : list json :=
  flat_map raw_transactions (raw_groups message_data).

Definition is_text (v : option json) (s : string) : bool :=
  match v with
  | Some (JStr t) => bool_decide (t = s)
  | _ => false
  end.

(** "the wallet address is missing" *)
Definition wallet_missing (message_data : json) : bool :=
  match raw_field message_data "wallet_address" with
  | None => true
  | Some _ => false
  end.

(** "action is not one of swap|deposit|withdraw" *)
Definition bad_action (tx : json) : bool :=
  negb (existsb (is_text (raw_field tx "action")) ["swap"; "deposit"; "withdraw"]).

Definition leg_absent (tx : json) (k : string) : bool :=
  match raw_field tx k with
  | None | Some JNull => true
  | Some _ => false
  end.

(** "lacks the token-leg fields its action requires" *)
Definition missing_leg (tx : json) : bool :=
  is_text (raw_field tx "action") "swap"
    && (leg_absent tx "tokenIn" || leg_absent tx "tokenOut")
  || (is_text (raw_field tx "action") "deposit"
      || is_text (raw_field tx "action") "withdraw")
     && (leg_absent tx "token0" || leg_absent tx "token1").

(** The three causes of failure the specification names. *)
Definition named_failure (message_data : json) : bool :=
  wallet_missing message_data
  || existsb (fun tx => bad_action tx || missing_leg tx) (all_transactions message_data).

(** The declared fields that the three named causes do not cover: they
    are present and of the declared type. *)
Definition is_object (j : json) : bool :=
  match j with JObj _ => true | _ => false end.

Definition has_str (j : json) (k : string) : bool :=
  match raw_field j k with Some (JStr _) => true | _ => false end.

Definition has_list (j : json) (k : string) : bool :=
  match raw_field j k with Some (JArr _) => true | _ => false end.

Section Shapes.
Context {lax : LaxCoercion}.

(** The value is an integer, or one the validation library converts to
    an integer. *)
Definition reads_as_int (v : json) : bool :=
  match v with
  | JInt _ => true
  | _ => bool_decide (is_Some (lax_int v))
  end.

(** The value is a number, or one the validation library converts to a
    float. *)
Definition reads_as_float (v : json) : bool :=
  match v with
  | JInt _ | JFloat _ => true
  | _ => bool_decide (is_Some (lax_float v))
  end.

Definition has_int (j : json) (k : string) : bool :=
  match raw_field j k with Some v => reads_as_int v | None => false end.

Definition has_number (j : json) (k : string) : bool :=
  match raw_field j k with Some v => reads_as_float v | None => false end.

Definition token_shape (j : json) : bool :=
  is_object j && has_int j "amount" && has_number j "amountUSD"
  && has_str j "address" && has_str j "symbol".

(** A token leg that is given is a well-formed token. *)
Definition leg_shape (tx : json) (k : string) : bool :=
  match raw_field tx k with
  | None | Some JNull => true
  | Some j => token_shape j
  end.

Definition transaction_shape (tx : json) : bool :=
  is_object tx && has_str tx "document_id" && has_int tx "timestamp"
  && has_str tx "caller" && has_str tx "protocol" && has_str tx "poolId"
  && has_str tx "poolName" && leg_shape tx "tokenIn" && leg_shape tx "tokenOut"
  && leg_shape tx "token0" && leg_shape tx "token1".

Definition group_shape (g : json) : bool :=
  is_object g && has_list g "transactions"
  && forallb transaction_shape (raw_transactions g).

(** A wallet address that is given is a string. *)
Definition wallet_shape (message_data : json) : bool :=
  match raw_field message_data "wallet_address" with
  | None | Some (JStr _) => true
  | Some _ => false
  end.

Definition message_shape (message_data : json) : bool :=
  is_object message_data && wallet_shape message_data && has_list message_data "data"
  && forallb group_shape (raw_groups message_data).

(** Some other declared field is missing or ill-typed. *)
Definition malformed (message_data : json) : bool := negb (message_shape message_data).

End Shapes.

(** The failure is a validation error. *)
Definition is_validation (e : exn) : Prop := exists msg, e = ValidationError msg.

(** Some group is of a protocol type other than "dexes". *)
Definition foreign_group (message_data : json) : bool :=
  existsb (fun g => negb (is_text (raw_field g "protocolType") "dexes"))
          (raw_groups message_data).

Section Holding.
Context {iso : IsoFormat}.

Definition withdrawn_at (withdraws : list TransactionDict) (t : Q) : Prop :=
  exists w, In w withdraws /\ time_of (timestamp w) = Some t.

(** [m] is the earliest withdraw time strictly after [td], over all
    the withdraws. *)
Definition earliest_after (withdraws : list TransactionDict) (td m : Q) : Prop :=
  withdrawn_at withdraws m /\ td < m
  /\ forall t, withdrawn_at withdraws t -> td < t -> m <= t.

Definition none_after (withdraws : list TransactionDict) (td : Q) : Prop :=
  forall t, withdrawn_at withdraws t -> t <= td.

(** The term of one deposit as the specification words it: every
    deposit with a parsable timestamp is matched. *)
Inductive claimed_term (withdraws : list TransactionDict) (d : TransactionDict)
  : option Q -> Prop :=
| claimed_unparsable :
    time_of (timestamp d) = None ->
    claimed_term withdraws d None
| claimed_unmatched td :
    time_of (timestamp d) = Some td ->
    none_after withdraws td ->
    claimed_term withdraws d None
| claimed_matched td m :
    time_of (timestamp d) = Some td ->
    earliest_after withdraws td m ->
    claimed_term withdraws d (Some ((m - td) / 86400)).

Definition claimed_holding_time (deposits withdraws : list TransactionDict) (r : Q)
  : Prop :=
  exists terms, Forall2 (claimed_term withdraws) deposits terms
                /\ r == mean_or_zero (omap id terms).

(** The term of one deposit as the code computes it: a timestamp that
    is false as a truth value (absent, zero, the empty string) is passed
    over before it is parsed. *)
Inductive holding_term (withdraws : list TransactionDict) (d : TransactionDict)
  : option Q -> Prop :=
| term_falsy :
    truthy_timestamp (timestamp d) = false ->
    holding_term withdraws d None
| term_unparsable :
    truthy_timestamp (timestamp d) = true ->
    time_of (timestamp d) = None ->
    holding_term withdraws d None
| term_unmatched td :
    truthy_timestamp (timestamp d) = true ->
    time_of (timestamp d) = Some td ->
    none_after withdraws td ->
    holding_term withdraws d None
| term_matched td m :
    truthy_timestamp (timestamp d) = true ->
    time_of (timestamp d) = Some td ->
    earliest_after withdraws td m ->
    holding_term withdraws d (Some ((m - td) / 86400)).

Definition term_list (t : option Q) : list Q :=
  match t with Some x => [x] | None => [] end.

End Holding.

Section Retry.
Context {iso : IsoFormat} {up : StrUpper} {lax : LaxCoercion}.
Import KafkaServiceManager.

(** A pass of the loop that is entered and whose run of the service
    raises, on whatever state the service is. *)
Definition run_fails (a : attempt) : Prop :=
  running a = true
  /\ forall s, is_ok (fst (KafkaService.run (connects a) (stream a) s)) = false.

(** A pass of the loop that is entered and whose run returns. *)
Definition run_succeeds (a : attempt) : Prop :=
  running a = true
  /\ forall s, is_ok (fst (KafkaService.run (connects a) (stream a) s)) = true.

(** [delay = base * 2^(attempt - 1)] with base 5. *)
Definition backoff (attempt : Z) : Z := (5 * 2 ^ (attempt - 1))%Z.

End Retry.

End Spec.

(** The instances the sample inputs are run with: no ISO text parses,
    upper case changes the ASCII letters only, and the validation library
    converts nothing. *)
Definition no_iso : IsoFormat := fun _ => None.

Definition ascii_only : StrUpper :=
  {| str_upper := Py.ascii_upper; str_upper_ascii := fun _ _ => eq_refl |}.

Definition no_coercion : LaxCoercion :=
  {| lax_int := fun _ => None; lax_float := fun _ => None |}.

(** A validation library that takes a text of decimal digits for an
    integer, and converts nothing else. *)
Definition digits_as_int : LaxCoercion :=
  {| lax_int := fun v =>
       match v with
       | JStr s =>
           let '(n, count, rest) := PyStr.digits_prefix s 0%Z 0%nat in
           match rest with
           | EmptyString => if (count =? 0)%nat then None else Some n
           | _ => None
           end
       | _ => None
       end;
     lax_float := fun _ => None |}.

Module Samples.
Import DexModel.

(** An LP transaction of action [a] at epoch time [t], in whole seconds. *)
Definition lp_tx (a : string) (t : Z) (usd : option Q) (pool : option string)
  : TransactionDict :=
  mkTransactionDict (Some "lp") (Some a) usd (Some (TsInt t)) pool None None None.

Definition thirty_days : Z := 30 * 86400.

Definition deposit_at_epoch : TransactionDict := lp_tx "deposit" 0 (Some 100) (Some "pool").
Definition withdraw_next_day : TransactionDict := lp_tx "withdraw" 86400 (Some 100) (Some "pool").

(** A swap of [token_in] for [token_out]. *)
Definition swap_tx (token_in token_out : string) : TransactionDict :=
  mkTransactionDict (Some "swap") None (Some 100) None None None
                    (Some token_in) (Some token_out).

Definition three_token_swaps : list TransactionDict :=
  [swap_tx "USDC" "ETH"; swap_tx "USDT" "USDC"].


(** *** Wire records *)

Definition token : json :=
  JObj {[ "amount" := JInt 1; "amountUSD" := JFloat (3 # 2);
          "address" := JStr "0xa"; "symbol" := JStr "ETH" ]}.

Definition deposit : json :=
  JObj {[ "document_id" := JStr "doc-1"; "action" := JStr "deposit";
          "timestamp" := JInt 1700000000; "caller" := JStr "0xw";
          "protocol" := JStr "uniswap"; "poolId" := JStr "0xpool";
          "poolName" := JStr "ETH/USDC"; "token0" := token; "token1" := token ]}.

Definition group (protocol_type : string) (txs : list json) : json :=
  JObj {[ "protocolType" := JStr protocol_type; "transactions" := JArr txs ]}.

Definition message (groups : list json) : json :=
  JObj {[ "wallet_address" := JStr "0xw"; "data" := JArr groups ]}.

(** A well-formed record with one deposit. *)
Definition dexes_message : json := message [group "dexes" [deposit]].

(** The same record with a second group of another protocol type. *)
Definition lending_message : json :=
  message [group "dexes" [deposit]; group "lending" []].

(** The well-formed record with the timestamp of its deposit given as
    text. *)
Definition text_timestamp_message : json :=
  message
    [group "dexes"
       [JObj {[ "document_id" := JStr "doc-1"; "action" := JStr "deposit";
                "timestamp" := JStr "1700000000"; "caller" := JStr "0xw";
                "protocol" := JStr "uniswap"; "poolId" := JStr "0xpool";
                "poolName" := JStr "ETH/USDC"; "token0" := token; "token1" := token ]}]].

(** A record whose wallet address is present but [null]. *)
Definition null_wallet_message : json := JObj {[ "wallet_address" := JNull ]}.

Definition env : KafkaService.environment :=
  KafkaService.mkEnvironment 1700000000 12 true true.

Definition fresh_service : KafkaService.service :=
  KafkaService.mkService 0 0 None false [] [].

(** A pass of the retry loop in which the connections do not start. *)
Definition no_connection : KafkaServiceManager.attempt :=
  KafkaServiceManager.mkAttempt true false [].

(** A pass in which the service connects and the stream ends. *)
Definition quiet_run : KafkaServiceManager.attempt :=
  KafkaServiceManager.mkAttempt true true [].

End Samples.

(** ** Notions used by the further properties *)

Module Notions.
Import DexModel.



(** The six values [calculate_swap_frequency] returns. *)
Definition frequency_scores : list Q := [0; 20; 40; 60; 80; 100].

(** The score of a mean gap between swaps, in hours. *)
Definition gap_score (hours : Q) : Q :=
  if Qle_bool hours 1 then 100
  else if Qle_bool hours 24 then 80
  else if Qle_bool hours 168 then 60
  else if Qle_bool hours 720 then 40
  else 20.


(** No transaction carries a type key of its own. *)
Definition untyped (txs : list TransactionDict) : Prop :=
  Forall (fun tx => type_ tx = None) txs.

(** [x] is a least, respectively greatest, element of [l]. *)
Definition least (l : list Q) (x : Q) : Prop := In x l /\ forall y, In y l -> x <= y.
Definition greatest (l : list Q) (x : Q) : Prop := In x l /\ forall y, In y l -> y <= x.

End Notions.

Module Inputs.
Import DexModel.


(** An entry of the LP list and an entry of the swap list, both without a
    type key and both with the action "deposit". *)
Definition plain_deposit : TransactionDict :=
  mkTransactionDict None (Some "deposit") (Some 100) (Some (TsInt 0)) (Some "pool")
                    None None None.

Definition plain_swap : TransactionDict :=
  mkTransactionDict None (Some "deposit") (Some 100) None None None
                    (Some "ETH") (Some "USDC").

Definition two_lists : gmap string protocol_value :=
  {[ "lp_transactions" := PVList [plain_deposit];
     "swap_transactions" := PVList [plain_swap] ]}.

(** A swap at epoch time [t]. *)
Definition swap_at (t : Z) : TransactionDict :=
  mkTransactionDict (Some "swap") None (Some 100) (Some (TsInt t)) None None
                    (Some "ETH") (Some "USDC").

(** Three swaps, a day apart. *)
Definition daily_swaps : list TransactionDict :=
  [swap_at 0; swap_at 86400; swap_at 172800].

End Inputs.

Module Flow.
Import Types KafkaService.

(** The transactions of the first group of a message, if it has one. *)
Definition first_group (data : list ProtocolData) : list Transaction :=
  match data with
  | [] => []
  | protocol :: _ => transactions protocol
  end.

(** The first failure of the consumer in what it delivers. *)
Fixpoint first_failure (stream : list polled) : option exn :=
  match stream with
  | [] => None
  | Message _ _ :: rest => first_failure rest
  | ConsumerFailure e :: _ => Some e
  end.

(** What the consumer delivers before its first failure. *)
Fixpoint before_failure (stream : list polled) : list polled :=
  match stream with
  | [] => []
  | Message env value :: rest => Message env value :: before_failure rest
  | ConsumerFailure _ :: _ => []
  end.

(** The delays of the exponential backoff, in seconds. *)
Definition delays : list Z := [5; 10; 20; 40; 80]%Z.

(** The transaction of [Samples.deposit], validated. *)
Definition deposit_record : Transaction :=
  mkTransaction "doc-1" "deposit" 1700000000 "0xw" "uniswap" "0xpool" "ETH/USDC"
                None None
                (Some (mkTokenData 1 (3 # 2) "0xa" "ETH"))
                (Some (mkTokenData 1 (3 # 2) "0xa" "ETH")).

(** The message of [Samples.dexes_message], validated. *)
Definition dexes_record : WalletTransactionMessage :=
  mkWalletTransactionMessage "0xw" [mkProtocolData "dexes" [deposit_record]].

End Flow.

(** * Properties *)

(** ** Arithmetic of the embedded built-ins *)

Ltac qconsts :=
  unfold Qdiv in *;
  repeat match goal with
    | |- context [Qinv (Qmake ?n ?d)] =>
        let r := eval cbv in (Qinv (Qmake n d)) in
        change (Qinv (Qmake n d)) with r
    | H : context [Qinv (Qmake ?n ?d)] |- _ =>
        let r := eval cbv in (Qinv (Qmake n d)) in
        change (Qinv (Qmake n d)) with r in H
    end.

Lemma ltb_lt a b : Py.ltb a b = true <-> a < b.
Proof. unfold Py.ltb. destruct (Qlt_le_dec a b); split; intros; try done; lra. Qed.

Lemma ltb_ge a b : Py.ltb a b = false <-> b <= a.
Proof. unfold Py.ltb. destruct (Qlt_le_dec a b); split; intros; try done; lra. Qed.



Lemma round_half_even_near q :
  inject_Z (Py.round_half_even q) - q <= 1 # 2
  /\ q - inject_Z (Py.round_half_even q) <= 1 # 2.
Proof.
  unfold Py.round_half_even.
  pose proof (Qfloor_le q) as Hlo. pose proof (Qlt_floor q) as Hhi.
  rewrite inject_Z_plus in Hhi. change (inject_Z 1) with 1 in Hhi.
  destruct (Py.ltb _ _) eqn:E1.
  { apply ltb_lt in E1. lra. }
  apply ltb_ge in E1.
  destruct (Py.ltb (1 # 2) _) eqn:E2.
  { apply ltb_lt in E2. rewrite inject_Z_plus. change (inject_Z 1) with 1. lra. }
  apply ltb_ge in E2.
  destruct (Z.even _); rewrite ?inject_Z_plus; change (inject_Z 1) with 1 in *; lra.
Qed.

Lemma thousandths (m : Z) : m # 1000 == inject_Z m * (1 # 1000).
Proof. unfold Qeq, Qmult, inject_Z. simpl. lia. Qed.

(** ** The LP score (C7) *)

Section LpScore.
Import DexModel Spec.







End LpScore.

(** ** The z-score and its text (C6) *)

Section FinalScore.
Import DexModel Spec.

(** The three ways out of [max(-3, min(3, z))]. *)
Lemma zscore_cases lp sw lf sf :
  let zf := (lp * (6 # 10) + sw * (4 # 10) - 50) / 25 in
  (3 <= zf /\ zscore (calculate_final_score lp sw lf sf) = PInt 3)
  \/ (zf <= -3 /\ zscore (calculate_final_score lp sw lf sf) = PInt (-3))
  \/ (-3 < zf /\ zf < 3
      /\ zscore (calculate_final_score lp sw lf sf)
         = PFloat (Py.round_half_even (zf * 1000) # 1000)).
Proof.
  intros zf. unfold calculate_final_score. cbn [zscore].
  fold zf. unfold pynum_min. cbn [pynum_val].
  destruct (Py.ltb zf (inject_Z 3)) eqn:E3.
  - apply ltb_lt in E3. change (inject_Z 3) with 3 in E3.
    unfold pynum_max. cbn [pynum_val].
    destruct (Py.ltb (inject_Z (-3)) zf) eqn:Em.
    + apply ltb_lt in Em. change (inject_Z (-3)) with (-3) in Em.
      right; right. repeat split; try assumption.
    + apply ltb_ge in Em. change (inject_Z (-3)) with (-3) in Em.
      right; left. split; [assumption | reflexivity].
  - apply ltb_ge in E3. change (inject_Z 3) with 3 in E3.
    left. split; [assumption | reflexivity].
Qed.

Lemma clamp_inside x : -3 < x -> x < 3 -> clamp x (-3) 3 == x.
Proof.
  intros Hlo Hhi. unfold clamp.
  rewrite (Q.min_r 3 x) by lra. apply Q.max_r. lra.
Qed.

Lemma clamp_above x : 3 <= x -> clamp x (-3) 3 == 3.
Proof.
  intros Hhi. unfold clamp.
  rewrite (Q.min_l 3 x) by lra. apply Q.max_r. lra.
Qed.

Lemma clamp_below x : x <= -3 -> clamp x (-3) 3 == -3.
Proof.
  intros Hlo. unfold clamp.
  rewrite (Q.min_r 3 x) by lra. apply Q.max_l. lra.
Qed.

(** An integer within half a unit of a rational in (-3000, 3000). *)
Lemma round_in_range x :
  -3000 < x -> x < 3000 ->
  (-3000 <= Py.round_half_even x <= 3000)%Z.
Proof.
  intros Hlo Hhi. destruct (round_half_even_near x) as [Hup Hdown].
  split.
  - apply Z.lt_succ_r, Z.succ_lt_mono. rewrite Zlt_Qlt.
    rewrite <- !Z.add_1_r, !inject_Z_plus.
    change (inject_Z (-3000)) with (-3000). change (inject_Z 1) with 1. lra.
  - apply Z.lt_succ_r. rewrite Zlt_Qlt.
    rewrite <- !Z.add_1_r, !inject_Z_plus.
    change (inject_Z 3000) with 3000. change (inject_Z 1) with 1. lra.
Qed.

Lemma zscore_range_all : forallb reads_back zscore_range = true.
Proof. vm_compute. reflexivity. Qed.

Lemma reads_back_in_range (m : Z) :
  (-3000 <= m <= 3000)%Z ->
  exists q, PyStr.float (PyStr.str (PFloat (m # 1000))) = Some q /\ q == m # 1000.
Proof.
  intros Hm.
  assert (Hin : In m zscore_range).
  { unfold zscore_range. apply in_map_iff. exists (Z.to_nat (m + 3000)). split.
    - lia.
    - apply in_seq. lia. }
  pose proof (proj1 (forallb_forall _ _) zscore_range_all m Hin) as Hrb.
  unfold reads_back in Hrb.
  destruct (PyStr.float _) as [q|]; [|discriminate].
  exists q. split; [reflexivity|]. by apply Qeq_bool_iff.
Qed.

(** The z-score lies within three units and prints as text that reads
    back to it. *)
Lemma zscore_text lp sw lf sf :
  let z := zscore (calculate_final_score lp sw lf sf) in
  exists q, PyStr.float (PyStr.str z) = Some q /\ q == pynum_val z /\ -3 <= q /\ q <= 3.
Proof.
  intros z. subst z.
  destruct (zscore_cases lp sw lf sf) as [[_ ->]|[[_ ->]|(Hlo & Hhi & ->)]].
  - exists 3. vm_compute. repeat split; discriminate.
  - exists (-3). vm_compute. repeat split; discriminate.
  - set (zf := (lp * (6 # 10) + sw * (4 # 10) - 50) / 25) in *.
    assert (Hr : (-3000 <= Py.round_half_even (zf * 1000) <= 3000)%Z).
    { apply round_in_range; lra. }
    destruct (reads_back_in_range _ Hr) as (q & Hq & Heq).
    exists q. split; [exact Hq|]. cbn [pynum_val]. split; [exact Heq|].
    rewrite Heq, thousandths. destruct Hr as [Hr1 Hr2].
    rewrite Zle_Qle in Hr1, Hr2.
    change (inject_Z (-3000)) with (-3000) in Hr1.
    change (inject_Z 3000) with 3000 in Hr2. lra.
Qed.

(** The z-score is the normalised, clamped combined score, rounded to
    three decimals. *)
Lemma final_score_rounds (lp_score swap_score : Q)
      (lp_features swap_features : gmap string Q) :
  rounds_to_3 (raw_zscore lp_score swap_score)
              (pynum_val (zscore (calculate_final_score lp_score swap_score
                                                        lp_features swap_features))).
Proof.
  unfold rounds_to_3, raw_zscore.
  assert (Hform : ((6 # 10) * lp_score + (4 # 10) * swap_score - 50) / 25
                  == (lp_score * (6 # 10) + swap_score * (4 # 10) - 50) / 25).
  { qconsts. ring. }
  destruct (zscore_cases lp_score swap_score lp_features swap_features)
    as [[H3 ->]|[[H3 ->]|(Hlo & Hhi & ->)]];
    set (zf := (lp_score * (6 # 10) + swap_score * (4 # 10) - 50) / 25) in *;
    set (x := ((6 # 10) * lp_score + (4 # 10) * swap_score - 50) / 25) in *;
    cbn [pynum_val].
  - rewrite clamp_above by lra. split.
    + exists 3000%Z. reflexivity.
    + change (inject_Z 3) with 3. lra.
  - rewrite clamp_below by lra. split.
    + exists (-3000)%Z. reflexivity.
    + change (inject_Z (-3)) with (-3). lra.
  - rewrite clamp_inside by lra. split.
    + eexists. reflexivity.
    + rewrite thousandths.
      destruct (round_half_even_near (zf * 1000)) as [Hup Hdown]. lra.
Qed.

End FinalScore.

(** ** Timestamps that convert, and what happens when one does not *)

Section Conversion.
Context {iso : IsoFormat}.
Import DexModel Converted.

Lemma bind_ok {A B} (m : result A) (f : A -> result B) (b : B) :
  m ≫= f = Ok b -> exists a, m = Ok a /\ f a = Ok b.
Proof. destruct m as [a|e]; [|discriminate]. intros Hf. by exists a. Qed.

Lemma bind_raise {A B} (m : result A) (f : A -> result B) (e : exn) :
  m ≫= f = Raise e -> m = Raise e \/ exists a, m = Ok a /\ f a = Raise e.
Proof.
  destruct m as [a|e']; intros Hf.
  - right. by exists a.
  - left. by injection Hf as ->.
Qed.


Lemma float_of_int_raises (n : Z) (e : exn) :
  Py.float_of_int n = Raise e -> e = OverflowError.
Proof.
  unfold Py.float_of_int. cbv zeta.
  destruct (Z.log2 (Z.abs n) <? 53)%Z; [discriminate|].
  match goal with
  | |- context [if ?b then Raise OverflowError else _] => destruct b
  end; [congruence | discriminate].
Qed.

Lemma parse_raises (ts : option timestamp_value) (e : exn) :
  _parse_timestamp ts = Raise e -> e = OverflowError.
Proof.
  destruct ts as [[n|t|s]|]; try discriminate. cbn [_parse_timestamp]. intros Hp.
  apply bind_raise in Hp as [Hp|(t & _ & Hp)]; [|discriminate].
  by apply float_of_int_raises in Hp.
Qed.

Lemma parse_converts (tx : TransactionDict) :
  converts tx -> _parse_timestamp (timestamp tx) = Ok (time_of (timestamp tx)).
Proof.
  unfold converts, time_of. by destruct (_parse_timestamp (timestamp tx)).
Qed.

Lemma time_of_ok (ts : option timestamp_value) (t : option Q) :
  _parse_timestamp ts = Ok t -> time_of ts = t.
Proof. unfold time_of. by intros ->. Qed.



(** *** Comprehensions and loops whose body does not raise *)

Lemma collect_ok {A B} (f : A -> result (list B)) (g : A -> list B) (l : list A) :
  Forall (fun x => f x = Ok (g x)) l -> Py.collect f l = Ok (flat_map g l).
Proof.
  induction 1 as [|x l Hx _ IH]; [reflexivity|].
  cbn [Py.collect flat_map]. by rewrite Hx, IH.
Qed.

Lemma collect_raises {A B} (f : A -> result (list B)) (l : list A) (e : exn) :
  Py.collect f l = Raise e -> exists x, x ∈ l /\ f x = Raise e.
Proof.
  induction l as [|x l IH]; [discriminate|]. cbn [Py.collect]. intros Hc.
  apply bind_raise in Hc as [Hc|(ys & _ & Hc)].
  - exists x. split; [by left | exact Hc].
  - apply bind_raise in Hc as [Hc|(more & _ & Hc)]; [|discriminate].
    destruct (IH Hc) as (y & Hy & Hf). exists y. split; [by right | exact Hf].
Qed.

Lemma for_each_ok {A S} (body : S -> A -> result S) (g : S -> A -> S)
      (l : list A) (acc : S) :
  Forall (fun x => forall acc, body acc x = Ok (g acc x)) l ->
  Py.for_each body l acc = Ok (fold_left g l acc).
Proof.
  intros Hall. revert acc. induction Hall as [|x l Hx _ IH]; intros acc; [reflexivity|].
  cbn [Py.for_each fold_left]. rewrite Hx. apply IH.
Qed.

Lemma for_each_raises {A S} (body : S -> A -> result S) (l : list A) (acc : S)
      (e : exn) :
  Py.for_each body l acc = Raise e -> exists acc' x, x ∈ l /\ body acc' x = Raise e.
Proof.
  revert acc. induction l as [|x l IH]; intros acc; [discriminate|].
  cbn [Py.for_each]. intros Hc.
  apply bind_raise in Hc as [Hc|(acc' & _ & Hc)].
  - exists acc, x. split; [by left | exact Hc].
  - destruct (IH _ Hc) as (acc'' & y & Hy & Hb). exists acc'', y.
    split; [by right | exact Hb].
Qed.

(** *** The calculations of the model on timestamps that convert *)

Lemma future_withdraws_converts (withdraws : list TransactionDict) (deposit_time : Q) :
  all_convert withdraws ->
  DexModel.future_withdraws withdraws deposit_time
  = Ok (future_withdraws withdraws deposit_time).
Proof.
  intros Hall. unfold DexModel.future_withdraws, future_withdraws.
  apply collect_ok. eapply Forall_impl; [exact Hall|].
  intros w Hw. by rewrite (parse_converts w Hw).
Qed.

Lemma holding_step_converts (withdraws : list TransactionDict) (acc : list Q)
      (deposit : TransactionDict) :
  converts deposit -> all_convert withdraws ->
  DexModel.holding_step withdraws acc deposit = Ok (holding_step withdraws acc deposit).
Proof.
  intros Hd Hw. unfold DexModel.holding_step, holding_step. cbv zeta.
  destruct (negb (truthy_timestamp (timestamp deposit))); [reflexivity|].
  rewrite (parse_converts deposit Hd). cbn [mbind result_bind].
  destruct (time_of (timestamp deposit)) as [td|]; [|reflexivity].
  rewrite (future_withdraws_converts withdraws td Hw). cbn [mbind result_bind].
  by destruct (future_withdraws withdraws td).
Qed.

Lemma holding_times_converts (deposits withdraws : list TransactionDict) :
  all_convert deposits -> all_convert withdraws ->
  DexModel.holding_times deposits withdraws = Ok (holding_times deposits withdraws).
Proof.
  intros Hd Hw. unfold DexModel.holding_times, holding_times.
  apply for_each_ok. eapply Forall_impl; [exact Hd|].
  intros d Hconv acc. by apply holding_step_converts.
Qed.

Lemma holding_time_converts (deposits withdraws : list TransactionDict) :
  all_convert deposits -> all_convert withdraws ->
  DexModel.calculate_holding_time deposits withdraws
  = calculate_holding_time deposits withdraws.
Proof.
  intros Hd Hw. unfold DexModel.calculate_holding_time, calculate_holding_time.
  destruct deposits as [|d ds]; [reflexivity|].
  rewrite (holding_times_converts _ _ Hd Hw). cbn [mbind result_bind].
  by destruct (holding_times (d :: ds) withdraws).
Qed.

Lemma parsed_timestamps_converts (txs : list TransactionDict) :
  all_convert txs -> DexModel.parsed_timestamps txs = Ok (parsed_timestamps txs).
Proof.
  intros Hall. unfold DexModel.parsed_timestamps, parsed_timestamps.
  apply collect_ok. eapply Forall_impl; [exact Hall|].
  intros tx Htx. by rewrite (parse_converts tx Htx).
Qed.


Lemma swap_frequency_converts (swaps : list TransactionDict) :
  all_convert swaps ->
  DexModel.calculate_swap_frequency swaps = calculate_swap_frequency swaps.
Proof.
  intros Hall. unfold DexModel.calculate_swap_frequency, calculate_swap_frequency.
  destruct (length swaps <? 2)%nat; [reflexivity|].
  by rewrite (parsed_timestamps_converts _ Hall).
Qed.

(** *** The only failure of these calculations is the overflow *)

Lemma parsed_timestamps_raises (txs : list TransactionDict) (e : exn) :
  DexModel.parsed_timestamps txs = Raise e -> e = OverflowError.
Proof.
  intros Hc. apply collect_raises in Hc as (tx & _ & Hc).
  apply bind_raise in Hc as [Hc|(t & _ & Hc)]; [|discriminate].
  by apply parse_raises in Hc.
Qed.


Lemma future_withdraws_raises (withdraws : list TransactionDict) (deposit_time : Q)
      (e : exn) :
  DexModel.future_withdraws withdraws deposit_time = Raise e -> e = OverflowError.
Proof.
  intros Hc. apply collect_raises in Hc as (tx & _ & Hc).
  apply bind_raise in Hc as [Hc|(t & _ & Hc)]; [|discriminate].
  by apply parse_raises in Hc.
Qed.

Lemma holding_step_raises (withdraws : list TransactionDict) (acc : list Q)
      (deposit : TransactionDict) (e : exn) :
  DexModel.holding_step withdraws acc deposit = Raise e -> e = OverflowError.
Proof.
  unfold DexModel.holding_step. cbv zeta.
  destruct (negb (truthy_timestamp (timestamp deposit))); [discriminate|]. intros Hc.
  apply bind_raise in Hc as [Hc|(t & _ & Hc)]; [by apply parse_raises in Hc|].
  destruct t as [td|]; [|discriminate].
  apply bind_raise in Hc as [Hc|(future & _ & Hc)];
    [by apply future_withdraws_raises in Hc|].
  by destruct future.
Qed.

Lemma holding_time_raises (deposits withdraws : list TransactionDict) (e : exn) :
  DexModel.calculate_holding_time deposits withdraws = Raise e -> e = OverflowError.
Proof.
  unfold DexModel.calculate_holding_time. destruct deposits as [|d ds]; [discriminate|].
  intros Hc. apply bind_raise in Hc as [Hc|(hts & _ & Hc)].
  - apply for_each_raises in Hc as (acc & x & _ & Hc).
    by apply holding_step_raises in Hc.
  - by destruct hts.
Qed.

End Conversion.

(** ** Holding time (C2, C3) and the withdraw ratio (C4) *)

Section HoldingTime.
Context {iso : IsoFormat}.
Import DexModel Converted Spec.

Lemma sum_from (l : list Q) (a : Q) : fold_left Qplus l a == a + total l.
Proof.
  revert a. induction l as [|x l IH]; intros a; simpl.
  - ring.
  - rewrite IH. ring.
Qed.

Lemma sum_total (l : list Q) : Py.sum l == total l.
Proof. unfold Py.sum. rewrite sum_from. ring. Qed.

(** [min] of a non-empty list is one of its elements and below all. *)
Lemma min_list_spec (l : list Q) (x : Q) :
  In (Py.min_list x l) (x :: l)
  /\ forall y, In y (x :: l) -> Py.min_list x l <= y.
Proof.
  unfold Py.min_list. revert x. induction l as [|a l IH]; intros x; simpl.
  - split; [by left|]. intros y [<-|[]]. lra.
  - destruct (IH (Py.min2 x a)) as [Hin Hle]. split.
    + destruct Hin as [Hin|Hin]; [|by right; right].
      rewrite <- Hin. unfold Py.min2. destruct (Py.ltb a x); [right; by left | by left].
    + intros y Hy.
      assert (Hm : Py.min2 x a <= x /\ Py.min2 x a <= a).
      { unfold Py.min2. destruct (Py.ltb a x) eqn:E.
        - apply ltb_lt in E. lra.
        - apply ltb_ge in E. lra. }
      pose proof (Hle (Py.min2 x a) (or_introl eq_refl)) as H0.
      destruct Hy as [<-|[<-|Hy]]; [lra | lra |].
      apply Hle. by right.
Qed.

Lemma in_future_withdraws (withdraws : list TransactionDict) (td p : Q) :
  In p (future_withdraws withdraws td) <-> withdrawn_at withdraws p /\ td < p.
Proof.
  unfold future_withdraws, withdrawn_at. rewrite in_flat_map. split.
  - intros (w & Hw & Hp). destruct (time_of (timestamp w)) as [t|] eqn:E; [|done].
    destruct (Py.ltb td t) eqn:Elt; [|done].
    destruct Hp as [<-|[]]. apply ltb_lt in Elt. eauto.
  - intros ((w & Hw & E) & Hlt). exists w. split; [done|].
    rewrite E. apply ltb_lt in Hlt. rewrite Hlt. by left.
Qed.

Lemma holding_step_app withdraws acc d :
  holding_step withdraws acc d = (acc ++ contribution withdraws d)%list.
Proof.
  unfold contribution, holding_step.
  destruct (negb _); [by rewrite app_nil_r|].
  destruct (time_of _); [|by rewrite app_nil_r].
  destruct (future_withdraws _ _); [by rewrite app_nil_r | reflexivity].
Qed.

Lemma holding_fold withdraws deposits acc :
  fold_left (holding_step withdraws) deposits acc
  = (acc ++ flat_map (contribution withdraws) deposits)%list.
Proof.
  revert acc. induction deposits as [|d ds IH]; intros acc; simpl.
  - by rewrite app_nil_r.
  - rewrite IH, holding_step_app, <- app_assoc. reflexivity.
Qed.

Lemma contribution_term withdraws d :
  exists t, holding_term withdraws d t /\ contribution withdraws d = term_list t.
Proof.
  unfold contribution, holding_step.
  destruct (truthy_timestamp (timestamp d)) eqn:Et; simpl.
  2:{ exists None. split; [by apply term_falsy | reflexivity]. }
  destruct (time_of (timestamp d)) as [td|] eqn:Ep.
  2:{ exists None. split; [by apply term_unparsable | reflexivity]. }
  destruct (future_withdraws withdraws td) as [|w ws] eqn:Ef.
  - exists None. split; [|reflexivity].
    apply (term_unmatched _ _ td); try done.
    intros t Ht. destruct (Qlt_le_dec td t) as [Hlt|Hle]; [|done].
    assert (Hin : In t (future_withdraws withdraws td)) by by apply in_future_withdraws.
    rewrite Ef in Hin. destruct Hin.
  - exists (Some ((Py.min_list w ws - td) / 86400)). split; [|reflexivity].
    apply term_matched; try done.
    destruct (min_list_spec ws w) as [Hin Hle].
    rewrite <- Ef in Hin. apply in_future_withdraws in Hin as [Hat Hlt].
    repeat split; try done.
    intros t Ht Hlt'. apply Hle. rewrite <- Ef. by apply in_future_withdraws.
Qed.

Lemma holding_times_terms deposits withdraws :
  exists terms, Forall2 (holding_term withdraws) deposits terms
                /\ holding_times deposits withdraws = omap id terms.
Proof.
  unfold holding_times. rewrite holding_fold. simpl.
  induction deposits as [|d ds (terms & Hall & Heq)]; simpl.
  - exists []. split; [constructor | reflexivity].
  - destruct (contribution_term withdraws d) as (t & Ht & Hc).
    exists (t :: terms). split; [by constructor|].
    rewrite Hc, Heq. by destruct t.
Qed.

Lemma mean_ok (l : list Q) :
  l <> [] -> exists r, Py.mean l = Ok r /\ r == mean_or_zero l.
Proof.
  destruct l as [|x l]; [done|]. intros _. eexists. split; [reflexivity|].
  unfold mean_or_zero. by rewrite sum_total.
Qed.

Lemma holding_time_terms (deposits withdraws : list TransactionDict) :
  exists terms r,
    Forall2 (holding_term withdraws) deposits terms
    /\ calculate_holding_time deposits withdraws = Ok r
    /\ r == mean_or_zero (omap id terms).
Proof.
  destruct (holding_times_terms deposits withdraws) as (terms & Hall & Heq).
  exists terms. unfold calculate_holding_time.
  destruct deposits as [|d ds].
  { inversion Hall; subst. exists 0. by repeat split. }
  rewrite Heq. destruct (omap id terms) as [|x l] eqn:E.
  - exists 0. by repeat split.
  - destruct (mean_ok (x :: l)) as (r & Hr & Hm); [done|].
    exists r. by repeat split.
Qed.

(** C2, as amended.  The times compared are the timestamps as
    [_parse_timestamp] returns them, an [int] being converted to the
    nearest float.  When no timestamp overflows in that conversion,
    [calculate_holding_time] returns: each deposit whose timestamp is true
    as a truth value and parses is matched to the earliest withdraw time
    strictly after it, taken over all the withdraws, whatever the other
    deposits were matched to; a deposit without such a withdraw, or whose
    timestamp is absent, zero, empty or unparsable, contributes no term;
    the result is the mean of the matched (withdraw - deposit)/86400, and
    0 without deposits or matches.  The only failure is the
    [OverflowError] of a timestamp that does not convert. *)
Theorem holding_time_matches (deposits withdraws : list TransactionDict) :
  (all_convert deposits -> all_convert withdraws ->
   exists terms r,
     Forall2 (holding_term withdraws) deposits terms
     /\ DexModel.calculate_holding_time deposits withdraws = Ok r
     /\ r == mean_or_zero (omap id terms))
  /\ (forall e,
        DexModel.calculate_holding_time deposits withdraws = Raise e ->
        e = OverflowError /\ ~ (all_convert deposits /\ all_convert withdraws)).
Proof.
  split.
  - intros Hd Hw. rewrite (holding_time_converts _ _ Hd Hw).
    apply holding_time_terms.
  - intros e He. split; [by apply holding_time_raises in He|].
    intros [Hd Hw]. rewrite (holding_time_converts _ _ Hd Hw) in He.
    destruct (holding_time_terms deposits withdraws) as (terms & r & _ & Hr & _).
    congruence.
Qed.

End HoldingTime.

Lemma holding_time_matches_witness :
  exists terms r,
    Forall2 (Spec.holding_term (iso := no_iso) [Samples.withdraw_next_day])
            [Samples.lp_tx "deposit" 1 (Some 100) (Some "pool")] terms
    /\ DexModel.calculate_holding_time
         (iso := no_iso) [Samples.lp_tx "deposit" 1 (Some 100) (Some "pool")]
         [Samples.withdraw_next_day] = Ok r
    /\ r == Spec.mean_or_zero (omap id terms).
Proof.
  apply (holding_time_matches
           (iso := no_iso) [Samples.lp_tx "deposit" 1 (Some 100) (Some "pool")]
           [Samples.withdraw_next_day]).
  - repeat constructor.
  - repeat constructor.
Defined.

(** C2 as stated fails: a deposit at epoch time 0 has a parsable timestamp
    and a withdraw one day later, so the claimed mean is one day; the code
    passes the deposit over and returns 0. *)
Lemma holding_time_counterexample :
  DexModel.calculate_holding_time
    (iso := no_iso) [Samples.deposit_at_epoch] [Samples.withdraw_next_day] = Ok 0
  /\ Spec.claimed_holding_time
       (iso := no_iso) [Samples.deposit_at_epoch] [Samples.withdraw_next_day] 1
  /\ ~ Spec.claimed_holding_time
        (iso := no_iso) [Samples.deposit_at_epoch] [Samples.withdraw_next_day] 0.
Proof.
  split; [reflexivity|]. split.
  - exists [Some ((86400 - 0) / 86400)]. split; [|reflexivity].
    constructor; [|constructor].
    apply (Spec.claimed_matched _ _ 0 86400); [reflexivity|].
    assert (Hat : forall t, Spec.withdrawn_at (iso := no_iso) [Samples.withdraw_next_day] t
                            -> t = 86400).
    { intros t (w & [<-|[]] & Hw). by injection Hw. }
    split; [|split].
    + exists Samples.withdraw_next_day. split; [by left | reflexivity].
    + reflexivity.
    + intros t Ht _. rewrite (Hat t Ht). apply Qle_refl.
  - intros (terms & Hall & Hr).
    inversion Hall as [|d t ds ts Ht Hnil]; subst. inversion Hnil; subst.
    inversion Ht as [Hp | td Hp Hnone | td m Hp (Hat & Hlt & Hmin)]; subst.
    + discriminate Hp.
    + injection Hp as <-.
      specialize (Hnone 86400).
      assert (86400 <= 0) as Habs; [|vm_compute in Habs; by apply Habs].
      apply Hnone. exists Samples.withdraw_next_day. split; [by left | reflexivity].
    + injection Hp as <-. destruct Hat as (w & [<-|[]] & Hw). injection Hw as <-.
      vm_compute in Hr. discriminate Hr.
Qed.

Section LpFeatures.
Context {iso : IsoFormat}.
Import DexModel Converted Spec.













End LpFeatures.





(** Timestamps that do not fit a float.  A deposit at 10^30 and a withdraw
    thirty days later convert to the same float, so the deposit finds no
    later withdraw; at 10^400 the conversion overflows, in the holding
    time and in the account age. *)
Example large_timestamps :
  DexModel.calculate_holding_time
    (iso := no_iso)
    [Samples.lp_tx "deposit" (10 ^ 30) (Some 100) (Some "pool")]
    [Samples.lp_tx "withdraw" (10 ^ 30 + Samples.thirty_days) (Some 100) (Some "pool")]
  = Ok 0
  /\ DexModel.calculate_holding_time
       (iso := no_iso) [Samples.lp_tx "deposit" (10 ^ 400) (Some 100) (Some "pool")] []
     = Raise OverflowError
  /\ DexModel.calculate_lp_features
       (iso := no_iso) [Samples.lp_tx "deposit" (10 ^ 400) (Some 100) (Some "pool")]
     = Raise OverflowError.
Proof. repeat split; vm_compute; reflexivity. Qed.

(** ** Token diversity (C5) *)

Section TokenDiversity.
Context {up : StrUpper}.
Import DexModel Spec.

Lemma is_stable_token_spec (token : string) :
  _is_stable_token token = true <-> is_stable token.
Proof.
  unfold _is_stable_token, is_stable, stable_tokens, stable_names.
  rewrite bool_decide_eq_true. set_unfold. tauto.
Qed.

Lemma elem_of_symbols (key : TransactionDict -> option string) swaps token :
  token ∈ symbols key swaps
  <-> token <> "" /\ exists tx, tx ∈ swaps /\ key tx = Some token.
Proof.
  unfold symbols. rewrite elem_of_list_to_set, list_elem_of_In, in_flat_map. split.
  - intros (tx & Htx & Hin). destruct (key tx) as [s|] eqn:E; [|done].
    destruct s as [|c s]; [done|]. destruct Hin as [<-|[]].
    split; [done|]. exists tx. by rewrite list_elem_of_In.
  - intros (Hne & tx & Htx & E). exists tx. rewrite <- list_elem_of_In. split; [done|].
    rewrite E. destruct token; [done|]. by left.
Qed.

Lemma elem_of_all_tokens swaps token :
  token ∈ all_tokens swaps <-> traded swaps token.
Proof.
  unfold all_tokens, traded. rewrite elem_of_union, !elem_of_symbols. split.
  - intros [(Hne & tx & Htx & E)|(Hne & tx & Htx & E)];
      (split; [done|]; exists tx; auto).
  - intros (Hne & tx & Htx & [E|E]); [left|right]; eauto.
Qed.

Lemma size_split (X : gset string) :
  size X = (size (filter is_stable X) + size (filter (fun t => ~ is_stable t) X))%nat.
Proof.
  rewrite <- size_union by apply disjoint_filter_complement.
  by rewrite filter_union_complement.
Qed.

Lemma filter_stable (X : gset string) :
  filter (fun token => _is_stable_token token = true) X = filter is_stable X.
Proof.
  apply set_eq. intros t. rewrite !elem_of_filter, is_stable_token_spec. done.
Qed.

(** On ASCII symbols the classification is that of the ASCII upper
    case. *)
Lemma filter_stable_ascii (X : gset string) :
  (forall token, token ∈ X -> Py.is_ascii token = true) ->
  filter is_stable X = filter (is_stable (up := ascii_only)) X.
Proof.
  intros Hascii. apply set_eq. intros t. rewrite !elem_of_filter. unfold is_stable.
  change (@str_upper ascii_only t) with (Py.ascii_upper t).
  split; intros [Hs Ht]; (split; [|exact Ht]);
    [rewrite <- (str_upper_ascii _ (Hascii t Ht)) | rewrite (str_upper_ascii _ (Hascii t Ht))];
    exact Hs.
Qed.

Lemma filter_volatile_ascii (X : gset string) :
  (forall token, token ∈ X -> Py.is_ascii token = true) ->
  filter (fun t => ~ is_stable t) X
  = filter (fun t => ~ is_stable (up := ascii_only) t) X.
Proof.
  intros Hascii. apply set_eq. intros t. rewrite !elem_of_filter. unfold is_stable.
  change (@str_upper ascii_only t) with (Py.ascii_upper t).
  split; intros [Hs Ht]; (split; [|exact Ht]);
    [rewrite <- (str_upper_ascii _ (Hascii t Ht)) | rewrite (str_upper_ascii _ (Hascii t Ht))];
    exact Hs.
Qed.

(** C5.  The tokens of a swap list are the distinct non-empty symbols on
    the in and out sides; each is classified by its upper-case form, as
    [str.upper] gives it, against the fixed stable set, and
    [calculate_token_diversity] returns ten points per stable and fifteen
    per volatile token, capped at 150.  A swap list whose tokens are
    exactly USDC, USDT and ETH scores 35. *)
Theorem token_diversity_formula (swaps : list TransactionDict) :
  (forall token, token ∈ all_tokens swaps <-> traded swaps token)
  /\ calculate_token_diversity swaps
     = Z.min (Z.of_nat (size (filter is_stable (all_tokens swaps))) * 10
              + Z.of_nat (size (filter (fun t => ~ is_stable t) (all_tokens swaps))) * 15)
             150
  /\ (all_tokens swaps = {[ "USDC"; "USDT"; "ETH" ]} ->
      calculate_token_diversity swaps = 35%Z).
Proof.
  split; [apply elem_of_all_tokens|].
  assert (Hformula :
    calculate_token_diversity swaps
    = Z.min (Z.of_nat (size (filter is_stable (all_tokens swaps))) * 10
             + Z.of_nat (size (filter (fun t => ~ is_stable t) (all_tokens swaps))) * 15)
            150).
  { unfold calculate_token_diversity. destruct swaps as [|tx swaps].
    - reflexivity.
    - rewrite filter_stable.
      pose proof (size_split (all_tokens (tx :: swaps))) as Hsplit.
      f_equal. lia. }
  split; [exact Hformula|].
  intros Htokens. rewrite Hformula, Htokens.
  assert (Hascii : forall token : string,
             token ∈ ({[ "USDC"; "USDT"; "ETH" ]} : gset string) ->
             Py.is_ascii token = true).
  { intros token Ht. set_unfold. destruct Ht as [[-> | ->] | ->]; reflexivity. }
  rewrite (filter_stable_ascii _ Hascii), (filter_volatile_ascii _ Hascii).
  vm_compute. reflexivity.
Qed.

End TokenDiversity.

Lemma token_diversity_formula_witness :
  DexModel.calculate_token_diversity (up := ascii_only) Samples.three_token_swaps = 35%Z.
Proof.
  apply (token_diversity_formula (up := ascii_only)). vm_compute. reflexivity.
Defined.

(** ** The per-record pipeline (C1, C6, C9) *)

Section Pipeline.
Context {iso : IsoFormat} {up : StrUpper} {lax : LaxCoercion}.
Import Types KafkaService.

(** The dictionary built for the model has at most two keys. *)
Lemma protocol_data_of_other (data : list ProtocolData) (k : string) :
  k <> "protocolType" -> k <> "transactions" ->
  protocol_data_of data !! k = None.
Proof.
  intros H1 H2. induction data as [|p data IH]; simpl.
  - apply lookup_empty.
  - destruct (bool_decide _); [|exact IH].
    rewrite !lookup_insert_ne by done. apply lookup_empty.
Qed.

Lemma protocol_data_of_dom (data : list ProtocolData) :
  dom (protocol_data_of data) ⊆ {[ "protocolType"; "transactions" ]}.
Proof.
  intros k Hk. apply elem_of_dom in Hk as [v Hv].
  destruct (decide (k = "protocolType")) as [->|H1]; [set_unfold; tauto|].
  destruct (decide (k = "transactions")) as [->|H2]; [set_unfold; tauto|].
  by rewrite protocol_data_of_other in Hv.
Qed.

Lemma transactions_of_ok (data : list ProtocolData) :
  exists l, transactions_of (protocol_data_of data) = Ok l.
Proof.
  unfold transactions_of. induction data as [|p data IH]; simpl.
  - rewrite lookup_empty. by exists [].
  - destruct (bool_decide _); [|exact IH].
    rewrite lookup_insert_ne by done. rewrite lookup_insert_eq. eauto.
Qed.

(** [preprocess_dex_transactions] depends on two keys only. *)
Lemma preprocess_reads (pd1 pd2 : gmap string DexModel.protocol_value) :
  pd1 !! "lp_transactions" = pd2 !! "lp_transactions" ->
  pd1 !! "swap_transactions" = pd2 !! "swap_transactions" ->
  DexModel.preprocess_dex_transactions pd1 = DexModel.preprocess_dex_transactions pd2.
Proof. intros Hlp Hswap. unfold DexModel.preprocess_dex_transactions. by rewrite Hlp, Hswap. Qed.

Lemma preprocess_nothing (data : list ProtocolData) :
  DexModel.preprocess_dex_transactions (protocol_data_of data) = Ok [].
Proof.
  unfold DexModel.preprocess_dex_transactions.
  by rewrite !protocol_data_of_other.
Qed.

Lemma process_wallet_zero (wallet : string) (data : list ProtocolData) :
  DexModel.process_wallet wallet (protocol_data_of data) = Ok DexModel.zero_result.
Proof. unfold DexModel.process_wallet. by rewrite preprocess_nothing. Qed.

Lemma build_success_valid (env : environment) (message_data : json)
      (wallet_message : WalletTransactionMessage) :
  validate_WalletTransactionMessage message_data = Ok wallet_message ->
  exists m, build_success env message_data = Ok m /\ zscore m = "0.0".
Proof.
  intros Hv. unfold build_success. rewrite Hv. cbn [mbind result_bind].
  rewrite process_wallet_zero.
  destruct (transactions_of_ok (data wallet_message)) as (l & ->).
  cbn [mbind result_bind]. eexists. split; reflexivity.
Qed.

(** Whatever [process_wallet] returns comes from one of its two
    [return]s. *)
Lemma process_wallet_result wallet pd r :
  DexModel.process_wallet wallet pd = Ok r ->
  r = DexModel.zero_result
  \/ exists lp sw lf sf, r = DexModel.calculate_final_score lp sw lf sf.
Proof.
  unfold DexModel.process_wallet. intros Hr.
  apply bind_ok in Hr as (txs & _ & Hr).
  destruct txs as [|tx txs]; [left; by injection Hr|].
  apply bind_ok in Hr as (lf & _ & Hr).
  destruct (DexModel.calculate_lp_score lf) as [lp lb].
  apply bind_ok in Hr as (sf & _ & Hr).
  destruct (DexModel.calculate_swap_score sf) as [sw sb].
  right. exists lp, sw, lf, sf. by injection Hr.
Qed.

(** The [zscore] field of any success record the service builds. *)
Lemma success_zscore (env : environment) (message_data : json)
      (m : WalletScoreSuccessMessage) :
  build_success env message_data = Ok m ->
  exists q, PyStr.float (zscore m) = Some q /\ -3 <= q /\ q <= 3.
Proof.
  unfold build_success. intros Hm.
  apply bind_ok in Hm as (wm & _ & Hm).
  apply bind_ok in Hm as (r & Hr & Hm).
  apply bind_ok in Hm as (l1 & _ & Hm).
  apply bind_ok in Hm as (l2 & _ & Hm).
  unfold make_success in Hm.
  destruct (PyStr.float (PyStr.str (DexModel.zscore r))) as [q|] eqn:Eq; [|discriminate].
  injection Hm as <-. cbn [zscore]. exists q. split; [exact Eq|].
  apply process_wallet_result in Hr as [->|(lp & sw & lf & sf & ->)].
  - vm_compute in Eq. injection Eq as <-. split; discriminate.
  - destruct (zscore_text lp sw lf sf) as (q' & Hq' & _ & Hlo & Hhi).
    rewrite Hq' in Eq. injection Eq as <-. by split.
Qed.

(** C1.  For every message that passes validation: the dictionary handed
    to [process_wallet] has no key besides [protocolType] and
    [transactions]; [preprocess_dex_transactions] depends on the keys
    [lp_transactions] and [swap_transactions] only, and returns the empty
    list; [process_wallet] returns the zero-valued result; and the success
    record carries the zscore text "0.0", whatever the transactions. *)
Theorem valid_message_scores_zero (env : environment) (message_data : json)
        (wallet_message : WalletTransactionMessage) :
  validate_WalletTransactionMessage message_data = Ok wallet_message ->
  let protocol_data := protocol_data_of (data wallet_message) in
  dom protocol_data ⊆ {[ "protocolType"; "transactions" ]}
  /\ (forall pd1 pd2 : gmap string DexModel.protocol_value,
        pd1 !! "lp_transactions" = pd2 !! "lp_transactions" ->
        pd1 !! "swap_transactions" = pd2 !! "swap_transactions" ->
        DexModel.preprocess_dex_transactions pd1
        = DexModel.preprocess_dex_transactions pd2)
  /\ DexModel.preprocess_dex_transactions protocol_data = Ok []
  /\ DexModel.process_wallet (wallet_address wallet_message) protocol_data
     = Ok {| DexModel.zscore := PFloat 0;
             DexModel.lp_category :=
               {| DexModel.score := 0; DexModel.features := ∅; DexModel.tags := [] |};
             DexModel.swap_category :=
               {| DexModel.score := 0; DexModel.features := ∅; DexModel.tags := [] |} |}
  /\ exists m,
       build_success env message_data = Ok m
       /\ zscore m = "0.0"
       /\ forall s, success_acknowledged env = true ->
            fst (process_message env s message_data) = Ok tt
            /\ success_topic (snd (process_message env s message_data))
               = (success_topic s ++ [m])%list.
Proof.
  intros Hv protocol_data.
  split; [apply protocol_data_of_dom|].
  split; [apply preprocess_reads|].
  split; [apply preprocess_nothing|].
  split; [apply process_wallet_zero|].
  destruct (build_success_valid env message_data wallet_message Hv) as (m & Hm & Hz).
  exists m. split; [exact Hm|]. split; [exact Hz|].
  intros s Hack. unfold process_message. rewrite Hm, Hack. by split.
Qed.

(** A record that fails, whose raw wallet address is absent or a string,
    on a failure topic that acknowledges: one failure record with that
    address (or "unknown") and no categories, one more failed message. *)
Lemma failure_recorded (env : environment) (s : service) (message_data : json)
      (e : exn) (w : string) :
  build_success env message_data = Raise e ->
  raw_wallet_address message_data = JStr w ->
  failure_acknowledged env = true ->
  process_message env s message_data
  = (Ok tt,
     {| messages_processed := messages_processed s;
        messages_failed := S (messages_failed s);
        last_processed_at := last_processed_at s;
        consumer := consumer s;
        success_topic := success_topic s;
        failure_topic :=
          failure_topic s
          ++ [mkWalletScoreFailureMessage w (exn_str e) (utc_timestamp env)
                                          (processing_time_ms env) []] |}).
Proof.
  intros Hb Hw Hack. unfold process_message, handle_failure.
  by rewrite Hb, Hw, Hack.
Qed.

(** C9, at the failing input.  A record whose [wallet_address] is [null]
    fails validation, and the handler fails in turn when it builds the
    failure record: [process_message] raises, no failure record is
    emitted and [messages_failed] is not incremented.  The consume loop
    swallows the exception and goes on with the next message. *)
Theorem null_wallet_loses_failure_record (env : environment) (s : service)
        (rest : list polled) :
  build_success env Samples.null_wallet_message
  = Raise (ValidationError "wallet_address")
  /\ process_message env s Samples.null_wallet_message
     = (Raise (ValidationError "wallet_address"), s)
  /\ consume_loop (Message env Samples.null_wallet_message :: rest) s
     = consume_loop rest s.
Proof.
  assert (Hp : process_message env s Samples.null_wallet_message
               = (Raise (ValidationError "wallet_address"), s)) by reflexivity.
  split; [reflexivity|]. split; [exact Hp|].
  cbn [consume_loop]. by rewrite Hp.
Qed.

End Pipeline.

Lemma valid_message_scores_zero_witness :
  exists m,
    KafkaService.build_success (iso := no_iso) (up := ascii_only) (lax := no_coercion) Samples.env Samples.dexes_message = Ok m
    /\ Types.zscore m = "0.0"
    /\ fst (KafkaService.process_message
              (iso := no_iso) (up := ascii_only) (lax := no_coercion) Samples.env Samples.fresh_service Samples.dexes_message)
       = Ok tt
    /\ KafkaService.success_topic
         (snd (KafkaService.process_message
                 (iso := no_iso) (up := ascii_only) (lax := no_coercion) Samples.env Samples.fresh_service Samples.dexes_message))
       = [m].
Proof.
  destruct (valid_message_scores_zero
              (iso := no_iso) (up := ascii_only) (lax := no_coercion)
              Samples.env Samples.dexes_message
              {| Types.wallet_address := "0xw";
                 Types.data :=
                   [ {| Types.protocolType := "dexes";
                        Types.transactions :=
                          [ Types.mkTransaction
                              "doc-1" "deposit" 1700000000 "0xw" "uniswap" "0xpool"
                              "ETH/USDC" None None
                              (Some (Types.mkTokenData 1 (3 # 2) "0xa" "ETH"))
                              (Some (Types.mkTokenData 1 (3 # 2) "0xa" "ETH")) ] |} ] |})
    as (_ & _ & _ & _ & m & Hm & Hz & Hsent).
  - vm_compute. reflexivity.
  - exists m. split; [exact Hm|]. split; [exact Hz|].
    exact (Hsent Samples.fresh_service eq_refl).
Defined.

(** C6.  [calculate_final_score] returns as z-score the combined score
    [0.6*lp + 0.4*swap], normalised by [(x - 50)/25], clamped to [-3, 3]
    and rounded to three decimals.  The text [str] makes of it reads back
    as a float equal to it, within [-3, 3], whatever the scores; and so does
    the [zscore] field of every success record the service builds. *)
Theorem final_score_zscore {iso : IsoFormat} {up : StrUpper} {lax : LaxCoercion}
        (lp_score swap_score : Q)
        (lp_features swap_features : gmap string Q) :
  let z := DexModel.zscore
             (DexModel.calculate_final_score lp_score swap_score lp_features swap_features) in
  Spec.rounds_to_3 (Spec.raw_zscore lp_score swap_score) (pynum_val z)
  /\ (exists q, PyStr.float (PyStr.str z) = Some q
                /\ q == pynum_val z /\ -3 <= q /\ q <= 3)
  /\ forall env message_data m,
       KafkaService.build_success env message_data = Ok m ->
       exists q, PyStr.float (Types.zscore m) = Some q /\ -3 <= q /\ q <= 3.
Proof.
  intros z. split; [apply final_score_rounds|]. split; [apply zscore_text|].
  apply success_zscore.
Qed.

Lemma final_score_zscore_witness :
  exists m q,
    KafkaService.build_success
      (iso := no_iso) (up := ascii_only) (lax := no_coercion)
      Samples.env Samples.dexes_message = Ok m
    /\ PyStr.float (Types.zscore m) = Some q /\ -3 <= q /\ q <= 3.
Proof.
  destruct (final_score_zscore (iso := no_iso) (up := ascii_only) (lax := no_coercion)
              1000 100 ∅ ∅) as (_ & _ & Hrecord).
  eexists. 
  destruct (Hrecord Samples.env Samples.dexes_message _ eq_refl) as (q & Hq & Hlo & Hhi).
  exists q. split; [reflexivity|]. split; [exact Hq|]. split; [exact Hlo | exact Hhi].
Defined.

(** ** Decoding (C8) *)

Section Decoding.
Context {lax : LaxCoercion}.
Import Types Spec.

Lemma validate_all_ok {A} (f : json -> result A) (l : list json) (out : list A) :
  validate_all f l = Ok out -> forall j, j ∈ l -> exists a, f j = Ok a.
Proof.
  revert out. induction l as [|x l IH]; intros out Hout j Hj.
  - by apply elem_of_nil in Hj.
  - cbn [validate_all] in Hout.
    apply bind_ok in Hout as (a & Ha & Hout).
    apply bind_ok in Hout as (rest & Hrest & _).
    apply elem_of_cons in Hj as [->|Hj]; [eauto|].
    by apply (IH rest).
Qed.

Lemma validate_all_Forall2 {A} (f : json -> result A) (l : list json) (out : list A) :
  validate_all f l = Ok out -> Forall2 (fun j a => f j = Ok a) l out.
Proof.
  revert out. induction l as [|x l IH]; intros out Hout.
  - injection Hout as <-. constructor.
  - cbn [validate_all] in Hout.
    apply bind_ok in Hout as (a & Ha & Hout).
    apply bind_ok in Hout as (rest & Hrest & Hout).
    injection Hout as <-. constructor; [done|]. by apply IH.
Qed.

Lemma validate_all_sound {A} (f : json -> result A) (l : list json) :
  (forall j, j ∈ l -> exists a, f j = Ok a) -> exists out, validate_all f l = Ok out.
Proof.
  induction l as [|x l IH]; intros Hall; [by exists []|].
  destruct (Hall x) as (a & Ha); [by left|].
  destruct IH as (out & Hout); [intros j Hj; apply Hall; by right|].
  exists (a :: out). cbn [validate_all]. by rewrite Ha, Hout.
Qed.

(** *** What an accepted field looks like *)

Lemma as_str_ok loc v s : as_str loc v = Ok s -> v = Some (JStr s).
Proof. destruct v as [[]|]; try discriminate. intros [= ->]. reflexivity. Qed.

(** A numeric field is accepted exactly when its value reads as a number
    of the declared kind. *)
Lemma as_int_accepts loc (o : gmap string json) k :
  is_ok (as_int loc (o !! k)) = has_int (JObj o) k.
Proof.
  unfold as_int, has_int, reads_as_int. cbn [raw_field].
  destruct (o !! k) as [j|]; [|reflexivity].
  destruct j; try reflexivity;
    (destruct (lax_int _) as [z|] eqn:E;
     [symmetry; by apply bool_decide_eq_true | symmetry; apply bool_decide_eq_false;
                                                 by intros [z Hz]]).
Qed.

Lemma as_float_accepts loc (o : gmap string json) k :
  is_ok (as_float loc (o !! k)) = has_number (JObj o) k.
Proof.
  unfold as_float, has_number, reads_as_float. cbn [raw_field].
  destruct (o !! k) as [j|]; [|reflexivity].
  destruct j; try reflexivity;
    (destruct (lax_float _) as [z|] eqn:E;
     [symmetry; by apply bool_decide_eq_true | symmetry; apply bool_decide_eq_false;
                                                 by intros [z Hz]]).
Qed.

Lemma is_ok_true {A} (r : result A) : is_ok r = true -> exists a, r = Ok a.
Proof. destruct r as [a|e]; [by exists a | discriminate]. Qed.

Lemma as_list_ok loc v l : as_list loc v = Ok l -> v = Some (JArr l).
Proof. destruct v as [[]|]; try discriminate. intros [= ->]. reflexivity. Qed.

Lemma as_pattern_ok alternatives loc v s :
  as_pattern alternatives loc v = Ok s -> v = Some (JStr s) /\ s ∈ alternatives.
Proof.
  unfold as_pattern. intros Hs. apply bind_ok in Hs as (t & Ht & Hs).
  apply as_str_ok in Ht. destruct (bool_decide (t ∈ alternatives)) eqn:E; [|discriminate].
  injection Hs as <-. apply bool_decide_eq_true in E. done.
Qed.

Lemma as_pattern_sound alternatives loc s :
  s ∈ alternatives -> as_pattern alternatives loc (Some (JStr s)) = Ok s.
Proof.
  intros Hs. unfold as_pattern. cbn. by rewrite bool_decide_eq_true_2.
Qed.

Lemma has_str_inv o k : has_str (JObj o) k = true -> exists s, o !! k = Some (JStr s).
Proof. unfold has_str. cbn. destruct (o !! k) as [[]|]; try discriminate. eauto. Qed.

Lemma has_list_inv o k : has_list (JObj o) k = true -> exists l, o !! k = Some (JArr l).
Proof. unfold has_list. cbn. destruct (o !! k) as [[]|]; try discriminate. eauto. Qed.

Lemma is_text_same s : is_text (Some (JStr s)) s = true.
Proof. cbn. by apply bool_decide_eq_true. Qed.

Lemma is_text_inv v s : is_text v s = true -> v = Some (JStr s).
Proof.
  destruct v as [[]|]; try discriminate. cbn. intros E.
  apply bool_decide_eq_true in E. by subst.
Qed.

(** *** Tokens and token legs *)

Lemma valid_token (j : json) (t : TokenData) :
  validate_TokenData j = Ok t -> token_shape j = true.
Proof.
  destruct j as [| | | | | |o]; try discriminate. cbn [validate_TokenData]. intros Ht.
  apply bind_ok in Ht as (amount & Ham & Ht).
  apply bind_ok in Ht as (usd & Husd & Ht).
  apply bind_ok in Ht as (address & Had & Ht).
  apply bind_ok in Ht as (symbol & Hsy & _).
  apply as_str_ok in Had, Hsy.
  unfold token_shape. cbn [is_object andb].
  rewrite <- (as_int_accepts "amount"), <- (as_float_accepts "amountUSD"), Ham, Husd.
  unfold has_str. cbn [raw_field is_ok andb]. by rewrite Had, Hsy.
Qed.

Lemma sound_token (j : json) :
  token_shape j = true -> exists t, validate_TokenData j = Ok t.
Proof.
  destruct j as [| | | | | |o]; try discriminate.
  unfold token_shape. cbn [is_object andb validate_TokenData]. intros Hshape.
  apply andb_prop in Hshape as [Hshape Hsy].
  apply andb_prop in Hshape as [Hshape Had].
  apply andb_prop in Hshape as [Ham Husd].
  rewrite <- (as_int_accepts "amount") in Ham.
  rewrite <- (as_float_accepts "amountUSD") in Husd.
  apply is_ok_true in Ham as (amount & ->), Husd as (usd & ->).
  apply has_str_inv in Had as (address & ->), Hsy as (symbol & ->).
  eexists. reflexivity.
Qed.

Lemma valid_leg (required : bool) msg (o : gmap string json) k t :
  validate_leg required msg (o !! k) = Ok t ->
  leg_shape (JObj o) k = true
  /\ (required = true -> leg_absent (JObj o) k = false).
Proof.
  unfold validate_leg, leg_shape, leg_absent. cbn [raw_field].
  destruct (o !! k) as [j|]; [|by destruct required].
  destruct j; try (by destruct required);
    (intros Ht; apply bind_ok in Ht as (t' & Ht' & _);
     apply valid_token in Ht'; by split).
Qed.

Lemma sound_leg (required : bool) msg (o : gmap string json) k :
  leg_shape (JObj o) k = true ->
  (required = true -> leg_absent (JObj o) k = false) ->
  exists t, validate_leg required msg (o !! k) = Ok t.
Proof.
  unfold validate_leg, leg_shape, leg_absent. cbn [raw_field].
  destruct (o !! k) as [j|].
  2:{ intros _ Hreq. destruct required; [by specialize (Hreq eq_refl) | by eexists]. }
  destruct j;
    try (intros Hshape _; apply sound_token in Hshape as (t & ->); by eexists).
  intros _ Hreq. destruct required; [by specialize (Hreq eq_refl) | by eexists].
Qed.

(** *** Transactions, groups and messages that validate *)

Lemma valid_transaction (tx : json) (t : Transaction) :
  validate_Transaction tx = Ok t ->
  transaction_shape tx = true /\ bad_action tx = false /\ missing_leg tx = false.
Proof.
  destruct tx as [| | | | | |o]; try discriminate. cbn [validate_Transaction].
  intros Ht.
  apply bind_ok in Ht as (document_id & Hdoc & Ht).
  apply bind_ok in Ht as (action & Ha & Ht).
  apply bind_ok in Ht as (timestamp & Hts & Ht).
  apply bind_ok in Ht as (caller & Hca & Ht).
  apply bind_ok in Ht as (protocol & Hpr & Ht).
  apply bind_ok in Ht as (poolId & Hpi & Ht).
  apply bind_ok in Ht as (poolName & Hpn & Ht).
  apply bind_ok in Ht as (tin & Hin & Ht).
  apply bind_ok in Ht as (tout & Hout & Ht).
  apply bind_ok in Ht as (t0 & H0 & Ht).
  apply bind_ok in Ht as (t1 & H1 & _).
  apply as_str_ok in Hdoc, Hca, Hpr, Hpi, Hpn.
  assert (Sts : has_int (JObj o) "timestamp" = true)
    by by rewrite <- (as_int_accepts "timestamp"), Hts.
  apply as_pattern_ok in Ha as [Ha Hmem].
  apply valid_leg in Hin as [Sin Rin], Hout as [Sout Rout].
  apply valid_leg in H0 as [S0 R0], H1 as [S1 R1].
  split; [|split].
  - unfold transaction_shape. rewrite Sts. unfold has_str. cbn [is_object raw_field].
    by rewrite Hdoc, Hca, Hpr, Hpi, Hpn, Sin, Sout, S0, S1.
  - unfold bad_action. cbn [raw_field]. rewrite Ha.
    set_unfold in Hmem. by destruct Hmem as [->|[->|[->|[]]]].
  - unfold missing_leg. cbn [raw_field]. rewrite Ha.
    set_unfold in Hmem. destruct Hmem as [->|[->|[->|[]]]].
    + by rewrite Rin, Rout.
    + by rewrite R0, R1.
    + by rewrite R0, R1.
Qed.

Lemma sound_transaction (tx : json) :
  transaction_shape tx = true -> bad_action tx = false -> missing_leg tx = false ->
  exists t, validate_Transaction tx = Ok t.
Proof.
  destruct tx as [| | | | | |o]; try discriminate.
  unfold transaction_shape. cbn [is_object andb].
  intros Hshape Hbad Hlegs.
  apply andb_prop in Hshape as [Hshape Sleg1].
  apply andb_prop in Hshape as [Hshape Sleg0].
  apply andb_prop in Hshape as [Hshape Slegout].
  apply andb_prop in Hshape as [Hshape Slegin].
  apply andb_prop in Hshape as [Hshape Hpn].
  apply andb_prop in Hshape as [Hshape Hpi].
  apply andb_prop in Hshape as [Hshape Hpr].
  apply andb_prop in Hshape as [Hshape Hca].
  apply andb_prop in Hshape as [Hdoc Hts].
  apply has_str_inv in Hdoc as (document_id & Hdoc), Hca as (caller & Hca).
  apply has_str_inv in Hpr as (protocol & Hpr), Hpi as (poolId & Hpi).
  apply has_str_inv in Hpn as (poolName & Hpn).
  rewrite <- (as_int_accepts "timestamp") in Hts.
  apply is_ok_true in Hts as (timestamp & Hts).
  unfold bad_action in Hbad. apply negb_false_iff, existsb_exists in Hbad as (a & Hmem & Ha).
  apply is_text_inv in Ha. cbn [raw_field] in Ha.
  assert (Hlegs' :
            (a = "swap" -> leg_absent (JObj o) "tokenIn" = false
                           /\ leg_absent (JObj o) "tokenOut" = false)
            /\ (a ∈ ["deposit"; "withdraw"] -> leg_absent (JObj o) "token0" = false
                                               /\ leg_absent (JObj o) "token1" = false)).
  { unfold missing_leg in Hlegs. cbn [raw_field] in Hlegs. rewrite Ha in Hlegs.
    apply orb_false_iff in Hlegs as [Hswap Hlp]. split.
    - intros ->. rewrite is_text_same in Hswap. by apply orb_false_iff in Hswap.
    - intros Hlp'. apply orb_false_iff. set_unfold in Hlp'.
      destruct Hlp' as [->|[->|[]]]; by rewrite ?is_text_same, ?orb_true_r in Hlp. }
  destruct Hlegs' as [Hswap Hlp].
  destruct (sound_leg (bool_decide (a = "swap"))
              "Swap transactions must have tokenIn and tokenOut" o "tokenIn")
    as (tin & Hin); [done | intros E; apply bool_decide_eq_true in E; by apply Hswap |].
  destruct (sound_leg (bool_decide (a = "swap"))
              "Swap transactions must have tokenIn and tokenOut" o "tokenOut")
    as (tout & Hout); [done | intros E; apply bool_decide_eq_true in E; by apply Hswap |].
  destruct (sound_leg (bool_decide (a ∈ ["deposit"; "withdraw"]))
              "LP transactions must have token0 and token1" o "token0")
    as (t0 & Hin0); [done | intros E; apply bool_decide_eq_true in E; by apply Hlp |].
  destruct (sound_leg (bool_decide (a ∈ ["deposit"; "withdraw"]))
              "LP transactions must have token0 and token1" o "token1")
    as (t1 & Hin1); [done | intros E; apply bool_decide_eq_true in E; by apply Hlp |].
  cbn [validate_Transaction]. unfold validate_swap_tokens, validate_lp_tokens.
  rewrite Hdoc, Ha. cbn [as_str mbind result_bind].
  rewrite as_pattern_sound by (by apply list_elem_of_In).
  cbn [mbind result_bind].
  rewrite Hts, Hca, Hpr, Hpi, Hpn.
  cbn [as_str mbind result_bind]. rewrite Hin, Hout, Hin0, Hin1.
  eexists. reflexivity.
Qed.

Lemma valid_group (g : json) (p : ProtocolData) :
  validate_ProtocolData g = Ok p ->
  protocolType p = "dexes"
  /\ group_shape g = true
  /\ is_text (raw_field g "protocolType") "dexes" = true
  /\ forall tx, tx ∈ raw_transactions g -> bad_action tx = false /\ missing_leg tx = false.
Proof.
  destruct g as [| | | | | |o]; try discriminate. cbn [validate_ProtocolData].
  intros Hp.
  apply bind_ok in Hp as (pt & Hpt & Hp).
  apply bind_ok in Hp as (raw & Hraw & Hp).
  apply bind_ok in Hp as (txs & Htxs & Hp).
  injection Hp as <-. cbn [protocolType].
  apply as_pattern_ok in Hpt as [Hpt Hmem].
  apply list_elem_of_singleton in Hmem as ->.
  apply as_list_ok in Hraw.
  assert (Hall : forall tx, tx ∈ raw ->
            transaction_shape tx = true /\ bad_action tx = false /\ missing_leg tx = false).
  { intros tx Htx. destruct (validate_all_ok _ _ _ Htxs tx Htx) as (t & Ht).
    by apply (valid_transaction tx t). }
  split; [reflexivity|].
  unfold group_shape, has_list, raw_transactions. cbn [is_object raw_field].
  rewrite Hpt, Hraw. cbn [raw_list andb]. split; [|split].
  - apply forallb_forall. intros tx Htx. apply list_elem_of_In in Htx. by apply Hall.
  - apply is_text_same.
  - intros tx Htx. by apply Hall.
Qed.

Lemma sound_group (g : json) :
  group_shape g = true ->
  is_text (raw_field g "protocolType") "dexes" = true ->
  (forall tx, tx ∈ raw_transactions g -> bad_action tx = false /\ missing_leg tx = false) ->
  exists p, validate_ProtocolData g = Ok p.
Proof.
  destruct g as [| | | | | |o]; try discriminate.
  unfold group_shape, raw_transactions. cbn [is_object andb raw_field].
  intros Hshape Hpt Hsound.
  apply andb_prop in Hshape as [Hlist Htxs].
  apply has_list_inv in Hlist as (raw & Hraw). rewrite Hraw in Htxs, Hsound.
  cbn [raw_list] in Htxs, Hsound.
  apply is_text_inv in Hpt.
  destruct (validate_all_sound validate_Transaction raw) as (txs & Hall).
  { intros tx Htx. destruct (Hsound tx Htx) as [Hb Hl].
    apply sound_transaction; try done.
    rewrite forallb_forall in Htxs. apply Htxs. by apply list_elem_of_In. }
  cbn [validate_ProtocolData]. rewrite Hpt, Hraw.
  rewrite as_pattern_sound by (by left). cbn [as_list mbind result_bind].
  rewrite Hall. eexists. reflexivity.
Qed.

Lemma valid_message (message_data : json) (m : WalletTransactionMessage) :
  validate_WalletTransactionMessage message_data = Ok m ->
  message_shape message_data = true
  /\ named_failure message_data = false
  /\ foreign_group message_data = false
  /\ Forall (fun p => protocolType p = "dexes") (data m).
Proof.
  destruct message_data as [| | | | | |o]; try discriminate.
  cbn [validate_WalletTransactionMessage]. intros Hm.
  apply bind_ok in Hm as (w & Hw & Hm).
  apply bind_ok in Hm as (raw & Hraw & Hm).
  apply bind_ok in Hm as (groups & Hgroups & Hm).
  injection Hm as <-. cbn [data].
  apply as_str_ok in Hw. apply as_list_ok in Hraw.
  assert (Hall : forall g, g ∈ raw ->
            group_shape g = true
            /\ is_text (raw_field g "protocolType") "dexes" = true
            /\ forall tx, tx ∈ raw_transactions g ->
                 bad_action tx = false /\ missing_leg tx = false).
  { intros g Hg. destruct (validate_all_ok _ _ _ Hgroups g Hg) as (p & Hp).
    by apply valid_group in Hp as (_ & ? & ? & ?). }
  split; [|split; [|split]].
  - unfold message_shape, wallet_shape, has_list, raw_groups. cbn [is_object raw_field].
    rewrite Hw, Hraw. cbn [raw_list andb].
    apply forallb_forall. intros g Hg. apply list_elem_of_In in Hg. by apply Hall.
  - unfold named_failure, wallet_missing, all_transactions, raw_groups.
    cbn [raw_field]. rewrite Hw, Hraw. cbn [raw_list orb].
    apply not_true_iff_false. intros Hex.
    apply existsb_exists in Hex as (tx & Htx & Hbad).
    apply in_flat_map in Htx as (g & Hg & Htx).
    rewrite <- list_elem_of_In in Hg, Htx.
    destruct (Hall g Hg) as (_ & _ & Hsound).
    destruct (Hsound tx Htx) as [Hb Hl]. rewrite Hb, Hl in Hbad. discriminate Hbad.
  - unfold foreign_group, raw_groups. cbn [raw_field]. rewrite Hraw. cbn [raw_list].
    apply not_true_iff_false. intros Hex.
    apply existsb_exists in Hex as (g & Hg & Hforeign).
    rewrite <- list_elem_of_In in Hg.
    destruct (Hall g Hg) as (_ & Ht & _). rewrite Ht in Hforeign. discriminate Hforeign.
  - apply validate_all_Forall2 in Hgroups. clear Hraw Hall.
    induction Hgroups as [|g p raw' groups' Hp _ IH]; constructor.
    + by apply valid_group in Hp as (? & _).
    + exact IH.
Qed.

Lemma sound_message (message_data : json) :
  message_shape message_data = true ->
  named_failure message_data = false ->
  foreign_group message_data = false ->
  exists m, validate_WalletTransactionMessage message_data = Ok m.
Proof.
  destruct message_data as [| | | | | |o]; try discriminate.
  unfold message_shape, wallet_shape, named_failure, wallet_missing, foreign_group,
    all_transactions, raw_groups.
  cbn [is_object andb raw_field].
  intros Hshape Hnamed Hforeign.
  apply andb_prop in Hshape as [Hshape Hgroups].
  apply andb_prop in Hshape as [Hwallet Hlist].
  apply has_list_inv in Hlist as (raw & Hraw).
  rewrite Hraw in Hgroups, Hnamed, Hforeign. cbn [raw_list] in Hgroups, Hnamed, Hforeign.
  destruct (o !! "wallet_address") as [[| | | |w| |]|] eqn:Hw; try discriminate.
  cbn [orb] in Hnamed.
  destruct (validate_all_sound validate_ProtocolData raw) as (groups & Hall).
  { intros g Hg. apply sound_group.
    - rewrite forallb_forall in Hgroups. apply Hgroups. by apply list_elem_of_In.
    - apply negb_false_iff. apply not_true_iff_false. intros Hn.
      apply not_true_iff_false in Hforeign. apply Hforeign.
      apply existsb_exists. exists g. split; [by apply list_elem_of_In | done].
    - intros tx Htx.
      assert (Hok : bad_action tx || missing_leg tx = false).
      { apply not_true_iff_false. intros Hn.
        apply not_true_iff_false in Hnamed. apply Hnamed.
        apply existsb_exists. exists tx. split; [|done].
        apply in_flat_map. exists g. by rewrite <- !list_elem_of_In. }
      by apply orb_false_iff in Hok. }
  cbn [validate_WalletTransactionMessage]. rewrite Hw, Hraw.
  cbn [as_str as_list mbind result_bind]. rewrite Hall. eexists. reflexivity.
Qed.

(** *** The kind of error *)

Lemma as_str_raises loc v e : as_str loc v = Raise e -> is_validation e.
Proof. destruct v as [[]|]; try discriminate; intros [= <-]; by eexists. Qed.

Lemma as_int_raises loc v e : as_int loc v = Raise e -> is_validation e.
Proof.
  unfold as_int. destruct v as [[]|]; try discriminate;
    try destruct (lax_int _); try discriminate; intros [= <-]; by eexists.
Qed.

Lemma as_float_raises loc v e : as_float loc v = Raise e -> is_validation e.
Proof.
  unfold as_float. destruct v as [[]|]; try discriminate;
    try destruct (lax_float _); try discriminate; intros [= <-]; by eexists.
Qed.

Lemma as_list_raises loc v e : as_list loc v = Raise e -> is_validation e.
Proof. destruct v as [[]|]; try discriminate; intros [= <-]; by eexists. Qed.

Lemma as_pattern_raises alternatives loc v e :
  as_pattern alternatives loc v = Raise e -> is_validation e.
Proof.
  unfold as_pattern. intros He. apply bind_raise in He as [He|(s & _ & He)].
  - by apply as_str_raises in He.
  - destruct (bool_decide _); [discriminate|]. injection He as <-. by eexists.
Qed.

(** Splits a failing chain of binds into its failing step. *)
Ltac failing_step He :=
  repeat (apply bind_raise in He as [He|(? & _ & He)];
          [ first [ by apply as_str_raises in He
                  | by apply as_int_raises in He
                  | by apply as_float_raises in He
                  | by apply as_list_raises in He
                  | by apply as_pattern_raises in He
                  | idtac ] | ]).

Lemma token_raises j e : validate_TokenData j = Raise e -> is_validation e.
Proof.
  destruct j as [| | | | | |o]; try (intros [= <-]; by eexists).
  cbn [validate_TokenData]. intros He. failing_step He. discriminate He.
Qed.

Lemma leg_raises required msg v e : validate_leg required msg v = Raise e -> is_validation e.
Proof.
  unfold validate_leg. intros He.
  destruct v as [j|]; [|destruct required; [injection He as <-; by eexists | discriminate]].
  destruct j;
    try (apply bind_raise in He as [He|(? & _ & He)];
         [by apply token_raises in He | discriminate He]).
  destruct required; [injection He as <-; by eexists | discriminate].
Qed.

Lemma transaction_raises j e : validate_Transaction j = Raise e -> is_validation e.
Proof.
  destruct j as [| | | | | |o]; try (intros [= <-]; by eexists).
  cbn [validate_Transaction]. unfold validate_swap_tokens, validate_lp_tokens.
  intros He. failing_step He; try (by apply leg_raises in He). discriminate He.
Qed.

Lemma validate_all_raises {A} (f : json -> result A) (l : list json) (e : exn) :
  (forall j e', f j = Raise e' -> is_validation e') ->
  validate_all f l = Raise e -> is_validation e.
Proof.
  intros Hf. induction l as [|x l IH]; [discriminate|].
  cbn [validate_all]. intros He.
  apply bind_raise in He as [He|(a & _ & He)]; [by apply Hf in He|].
  apply bind_raise in He as [He|(r & _ & He)]; [by apply IH | discriminate He].
Qed.

Lemma group_raises j e : validate_ProtocolData j = Raise e -> is_validation e.
Proof.
  destruct j as [| | | | | |o]; try (intros [= <-]; by eexists).
  cbn [validate_ProtocolData]. intros He. failing_step He.
  - apply validate_all_raises in He; [done | apply transaction_raises].
  - discriminate He.
Qed.

Lemma message_raises o e :
  validate_WalletTransactionMessage (JObj o) = Raise e -> is_validation e.
Proof.
  cbn [validate_WalletTransactionMessage]. intros He. failing_step He.
  - apply validate_all_raises in He; [done | apply group_raises].
  - discriminate He.
Qed.

(** C8, as amended.  Decoding fails if and only if the wallet address is
    missing, some transaction's action is not one of swap, deposit and
    withdraw, a transaction lacks the token legs its action requires, some
    group's protocol type is not "dexes", or some other declared field is
    missing or ill-typed, that is, holds a value that is neither of the
    declared type nor converted to it by the validation library; on a
    JSON object the failure is a validation error.  A batch with a group
    of another protocol type therefore never decodes: every decoded batch
    is made of "dexes" groups only. *)
Theorem decode_failures (message_data : json) :
  (is_ok (validate_WalletTransactionMessage message_data) = false
   <-> named_failure message_data = true
       \/ foreign_group message_data = true
       \/ malformed message_data = true)
  /\ (forall o e, message_data = JObj o ->
        validate_WalletTransactionMessage message_data = Raise e -> is_validation e)
  /\ (forall m, validate_WalletTransactionMessage message_data = Ok m ->
        Forall (fun p => protocolType p = "dexes") (data m)).
Proof.
  split; [|split].
  - unfold malformed. split.
    + intros Hfail.
      destruct (named_failure message_data) eqn:Hn; [by left|].
      destruct (foreign_group message_data) eqn:Hf; [right; by left|].
      destruct (message_shape message_data) eqn:Hs; [|right; by right].
      destruct (sound_message message_data Hs Hn Hf) as (m & Hm).
      rewrite Hm in Hfail. discriminate Hfail.
    + intros Hbad.
      destruct (validate_WalletTransactionMessage message_data) as [m|e] eqn:E; [|done].
      apply valid_message in E as (Hs & Hn & Hf & _). rewrite Hs, Hn, Hf in Hbad.
      by destruct Hbad as [?|[?|?]].
  - intros o e -> He. by apply message_raises in He.
  - intros m Hm. by apply valid_message in Hm as (_ & _ & _ & ?).
Qed.

End Decoding.

Lemma decode_failures_witness :
  is_ok (Types.validate_WalletTransactionMessage
           (lax := no_coercion) Samples.lending_message) = false
  /\ (exists msg, Types.validate_WalletTransactionMessage
                    (lax := no_coercion) Samples.lending_message
                  = Raise (ValidationError msg))
  /\ (exists m, Types.validate_WalletTransactionMessage
                  (lax := no_coercion) Samples.dexes_message = Ok m
                /\ Forall (fun p => Types.protocolType p = "dexes") (Types.data m))
  /\ is_ok (Types.validate_WalletTransactionMessage
              (lax := no_coercion) Samples.text_timestamp_message) = false
  /\ is_ok (Types.validate_WalletTransactionMessage
              (lax := digits_as_int) Samples.text_timestamp_message) = true.
Proof.
  destruct (decode_failures (lax := no_coercion) Samples.lending_message)
    as (Hfail & Hkind & _).
  destruct (decode_failures (lax := no_coercion) Samples.dexes_message)
    as (_ & _ & Hdexes).
  destruct (decode_failures (lax := no_coercion) Samples.text_timestamp_message)
    as (Hstrict & _ & _).
  destruct (decode_failures (lax := digits_as_int) Samples.text_timestamp_message)
    as (Hlax & _ & _).
  split; [|split; [|split; [|split]]].
  - apply Hfail. right. left. vm_compute. reflexivity.
  - assert (He : Types.validate_WalletTransactionMessage
                   (lax := no_coercion) Samples.lending_message
                 = Raise (ValidationError "protocolType")) by (vm_compute; reflexivity).
    destruct (Hkind _ _ eq_refl He) as [msg Hmsg].
    exists msg. rewrite He, Hmsg. reflexivity.
  - eexists. split; [vm_compute; reflexivity|]. apply Hdexes. vm_compute. reflexivity.
  - apply Hstrict. right. right. vm_compute. reflexivity.
  - apply not_false_iff_true. intros E.
    apply Hlax in E. vm_compute in E. destruct E as [E|[E|E]]; discriminate E.
Defined.

(** C8 as stated fails: a batch with a well-formed "dexes" group and a
    second group of protocol type "lending" has its wallet address, sound
    actions and all token legs, and yet it does not decode. *)
Lemma decode_counterexample :
  Spec.named_failure Samples.lending_message = false
  /\ Spec.malformed (lax := no_coercion) Samples.lending_message = false
  /\ Types.validate_WalletTransactionMessage (lax := no_coercion) Samples.lending_message
     = Raise (ValidationError "protocolType").
Proof. repeat split; vm_compute; reflexivity. Qed.

(** ** The retry loop (C10) *)

Section RetryLoop.
Context {iso : IsoFormat} {up : StrUpper} {lax : LaxCoercion}.
Import KafkaServiceManager Spec.

(** A failing pass, from inside the loop. *)
Lemma retry_step_fails (w : worker) (a : attempt) :
  state w = Running -> run_fails a ->
  exists s,
    retry_step w a
    = if (max_retries <? retry_count w + 1)%Z
      then mkWorker Failed (retry_count w + 1) (sleeps w) s
      else mkWorker Running (retry_count w + 1)
                    (sleeps w ++ [backoff (retry_count w + 1)]) s.
Proof.
  intros Hw [Hrun Hfail]. unfold retry_step. rewrite Hw, Hrun. cbn [negb].
  specialize (Hfail (kafka_service w)).
  destruct (KafkaService.run _ _ _) as [[u|e] s]; [discriminate Hfail|].
  exists s. reflexivity.
Qed.

(** Once out of the loop, the worker stays where it is. *)
Lemma retry_step_over (w : worker) (a : attempt) :
  state w <> Running -> retry_step w a = w.
Proof. unfold retry_step. by destruct (state w). Qed.

Lemma retry_over (script : list attempt) (w : worker) :
  state w <> Running -> fold_left retry_step script w = w.
Proof.
  intros Hw. induction script as [|a script IH]; [reflexivity|].
  cbn [fold_left]. by rewrite retry_step_over.
Qed.

(** A returning pass resets the counter and stays in the loop. *)
Lemma retry_step_succeeds (w : worker) (a : attempt) :
  state w = Running -> run_succeeds a ->
  state (retry_step w a) = Running
  /\ retry_count (retry_step w a) = 0%Z
  /\ sleeps (retry_step w a) = sleeps w.
Proof.
  intros Hw [Hrun Hok]. unfold retry_step. rewrite Hw, Hrun. cbn [negb].
  specialize (Hok (kafka_service w)).
  destruct (KafkaService.run _ _ _) as [[u|e] s]; [|discriminate Hok].
  by repeat split.
Qed.

(** The worker after [n] failing passes from the start, for [n] up to
    the budget: still in the loop, [n] on the counter, the first [n]
    delays slept. *)
Lemma failing_passes (script : list attempt) (s : KafkaService.service) :
  Forall run_fails script -> (length script <= 5)%nat ->
  exists s',
    _run_with_retry script s
    = mkWorker Running (Z.of_nat (length script))
               (map (fun k => backoff (Z.of_nat k)) (seq 1 (length script))) s'.
Proof.
  unfold _run_with_retry. induction script as [|a script IH] using rev_ind.
  - intros _ _. by exists s.
  - intros Hall Hlen. apply Forall_app in Hall as [Hall Ha].
    apply Forall_inv in Ha.
    rewrite length_app in Hlen. cbn [length] in Hlen.
    destruct IH as (s' & IH); [done | lia |].
    rewrite fold_left_app, IH. cbn [fold_left].
    match goal with
    | |- context [retry_step ?w a] =>
        destruct (retry_step_fails w a eq_refl Ha) as (s'' & Hstep)
    end.
    cbn [retry_count sleeps] in Hstep.
    assert (Hbudget : (max_retries <? Z.of_nat (length script) + 1)%Z = false).
    { apply Z.ltb_ge. unfold max_retries. lia. }
    rewrite Hbudget in Hstep. rewrite Hstep. exists s''.
    rewrite length_app. cbn [length].
    rewrite Nat.add_1_r, seq_S, map_app. cbn [map].
    f_equal; [lia|]. do 3 f_equal. lia.
Qed.

(** C10.  If every run of the supervised service fails, the loop sleeps
    5, 10, 20, 40 and 80 seconds in that order, each delay being
    5 * 2^(attempt - 1): after five failures it has slept exactly these
    and is still in the loop; the failure that follows exceeds the budget
    and takes the worker out of the loop for good, without a further
    sleep.  A run that returns resets the attempt counter to 0. *)
Theorem retry_backoff (script : list attempt) (s : KafkaService.service) :
  (Forall run_fails script -> length script = 5%nat ->
   state (_run_with_retry script s) = Running
   /\ retry_count (_run_with_retry script s) = 5%Z
   /\ sleeps (_run_with_retry script s) = [5; 10; 20; 40; 80]%Z)
  /\ (Forall run_fails script -> (6 <= length script)%nat ->
      state (_run_with_retry script s) = Failed
      /\ sleeps (_run_with_retry script s) = [5; 10; 20; 40; 80]%Z
      /\ sleeps (_run_with_retry script s) = map backoff [1; 2; 3; 4; 5]%Z
      /\ forall more, _run_with_retry (script ++ more) s = _run_with_retry script s)
  /\ (forall w a, state w = Running -> run_succeeds a ->
        state (retry_step w a) = Running /\ retry_count (retry_step w a) = 0%Z).
Proof.
  split; [|split].
  - intros Hall Hlen.
    destruct (failing_passes script s Hall) as (s' & ->); [lia|].
    rewrite Hlen. by repeat split.
  - intros Hall Hlen.
    assert (Hsplit : script = (take 5 script ++ drop 5 script)%list)
      by (symmetry; apply take_drop).
    destruct (drop 5 script) as [|a rest] eqn:Hdrop.
    { apply (f_equal length) in Hdrop. rewrite length_drop in Hdrop. cbn in Hdrop. lia. }
    assert (Hfive : length (take 5 script) = 5%nat) by (rewrite length_take; lia).
    rewrite Hsplit in Hall. apply Forall_app in Hall as [Hfirst Hrest].
    assert (Ha : run_fails a) by by apply Forall_inv in Hrest.
    destruct (failing_passes (take 5 script) s Hfirst) as (s' & Hw); [lia|].
    rewrite Hfive in Hw.
    assert (Hsix : exists s'',
               _run_with_retry script s = mkWorker Failed 6 [5; 10; 20; 40; 80]%Z s'').
    { rewrite Hsplit. unfold _run_with_retry in *.
      rewrite fold_left_app, Hw. cbn [fold_left].
      destruct (retry_step_fails
                  (mkWorker Running 5 [5; 10; 20; 40; 80]%Z s') a eq_refl Ha)
        as (s'' & Hstep).
      change (fold_left retry_step rest ?w) with (fold_left retry_step rest w).
      exists s''. rewrite <- (retry_over rest (mkWorker Failed 6 [5; 10; 20; 40; 80]%Z s''))
        by done.
      f_equal. exact Hstep. }
    destruct Hsix as (s'' & Hsix). rewrite Hsix. repeat split.
    intros more. unfold _run_with_retry in *.
    rewrite fold_left_app, Hsix. by apply retry_over.
  - intros w a Hw Ha.
    by destruct (retry_step_succeeds w a Hw Ha) as (? & ? & _).
Qed.

End RetryLoop.

Lemma retry_backoff_witness :
  (KafkaServiceManager.state
     (KafkaServiceManager._run_with_retry
        (iso := no_iso) (up := ascii_only) (lax := no_coercion) (repeat Samples.no_connection 5) Samples.fresh_service)
   = KafkaServiceManager.Running
   /\ KafkaServiceManager.sleeps
        (KafkaServiceManager._run_with_retry
           (iso := no_iso) (up := ascii_only) (lax := no_coercion) (repeat Samples.no_connection 5) Samples.fresh_service)
      = [5; 10; 20; 40; 80]%Z)
  /\ (KafkaServiceManager.state
        (KafkaServiceManager._run_with_retry
           (iso := no_iso) (up := ascii_only) (lax := no_coercion) (repeat Samples.no_connection 7) Samples.fresh_service)
      = KafkaServiceManager.Failed
      /\ KafkaServiceManager.sleeps
           (KafkaServiceManager._run_with_retry
              (iso := no_iso) (up := ascii_only) (lax := no_coercion) (repeat Samples.no_connection 7) Samples.fresh_service)
         = [5; 10; 20; 40; 80]%Z)
  /\ KafkaServiceManager.retry_count
       (KafkaServiceManager.retry_step
          (iso := no_iso) (up := ascii_only) (lax := no_coercion)
          (KafkaServiceManager.mkWorker KafkaServiceManager.Running 3 [5; 10; 20]%Z
                                        Samples.fresh_service)
          Samples.quiet_run)
     = 0%Z.
Proof.
  assert (Hfails : forall n, Forall (Spec.run_fails (iso := no_iso) (up := ascii_only) (lax := no_coercion))
                                    (repeat Samples.no_connection n)).
  { intros n. apply Forall_forall. intros a Ha.
    apply list_elem_of_In, repeat_spec in Ha as ->.
    split; [reflexivity|]. intros s. reflexivity. }
  split; [|split].
  - destruct (retry_backoff (iso := no_iso) (up := ascii_only) (lax := no_coercion) (repeat Samples.no_connection 5) Samples.fresh_service)
      as (Hfive & _ & _).
    destruct Hfive as (Hstate & _ & Hsleeps); [apply Hfails | reflexivity |].
    split; [exact Hstate | exact Hsleeps].
  - destruct (retry_backoff (iso := no_iso) (up := ascii_only) (lax := no_coercion) (repeat Samples.no_connection 7) Samples.fresh_service)
      as (_ & Hsix & _).
    destruct Hsix as (Hstate & Hsleeps & _); [apply Hfails | cbn; lia |].
    split; [exact Hstate | exact Hsleeps].
  - destruct (retry_backoff (iso := no_iso) (up := ascii_only) (lax := no_coercion) [] Samples.fresh_service) as (_ & _ & Hreset).
    apply Hreset; [reflexivity|].
    split; [reflexivity|]. intros s. reflexivity.
Defined.

(** * Further properties of the code *)

(** ** The statistics endpoint *)

(** X1.  The [/stats] endpoint reads the keys [total_processed],
    [successful_processed], [failed_processed],
    [average_processing_time_ms] and [last_processed_timestamp], none of
    which the service keeps: whatever the service has processed, the
    response reports zero records, a zero average and no last timestamp. *)
Theorem stats_endpoint_reports_zero (service_started_at : option Z)
        (s : KafkaService.service) (service_start_time : option Z) (now : Z) :
  exists response,
    Main.get_stats (Some (Main.service_stats service_started_at s)) service_start_time now
    = Ok response
    /\ Main.total_processed response = 0%nat
    /\ Main.successful_processed response = 0%nat
    /\ Main.failed_processed response = 0%nat
    /\ Main.average_processing_time_ms response = 0
    /\ Main.last_processed_timestamp response = None.
Proof.
  unfold Main.get_stats, Main.count_field, Main.float_field, Main.time_field,
    Main.service_stats.
  rewrite !lookup_insert_ne by done. rewrite !lookup_empty.
  eexists. split; [reflexivity|]. by repeat split.
Qed.

(** ** Swap frequency *)

Section SwapFrequency.
Context {iso : IsoFormat}.
Import DexModel Converted Notions.

Lemma length_insert_sorted (x : Q) (l : list Q) :
  length (insert_sorted x l) = S (length l).
Proof.
  induction l as [|y l IH]; [reflexivity|]. cbn [insert_sorted].
  destruct (Py.ltb y x); cbn [length]; [by rewrite IH | reflexivity].
Qed.

Lemma length_sorted (l : list Q) : length (sorted l) = length l.
Proof.
  induction l as [|x l IH]; [reflexivity|].
  cbn [sorted fold_right]. fold (sorted l). by rewrite length_insert_sorted, IH.
Qed.

Lemma insert_sorted_perm (x : Q) (l : list Q) : Permutation (insert_sorted x l) (x :: l).
Proof.
  induction l as [|y l IH]; [reflexivity|]. cbn [insert_sorted].
  destruct (Py.ltb y x); [|reflexivity].
  rewrite IH. apply perm_swap.
Qed.

Lemma sorted_perm (l : list Q) : Permutation (sorted l) l.
Proof.
  induction l as [|x l IH]; [reflexivity|].
  cbn [sorted fold_right]. fold (sorted l). by rewrite insert_sorted_perm, IH.
Qed.

(** The list ascends: every element is below those that follow it. *)
Lemma insert_sorted_ascends (x : Q) (l : list Q) :
  StronglySorted Qle l -> StronglySorted Qle (insert_sorted x l).
Proof.
  induction l as [|y l IH]; intros Hl; cbn [insert_sorted].
  - repeat constructor.
  - apply StronglySorted_inv in Hl as [Hl Hy].
    destruct (Py.ltb y x) eqn:E.
    + apply ltb_lt in E. constructor; [by apply IH|].
      rewrite Forall_forall in *. intros z Hz.
      apply list_elem_of_In in Hz.
      apply (Permutation_in _ (insert_sorted_perm x l)) in Hz as [<-|Hz]; [lra|].
      apply Hy. by apply list_elem_of_In.
    + apply ltb_ge in E. constructor; [by constructor|].
      constructor; [done|]. rewrite Forall_forall in *. intros z Hz.
      specialize (Hy z Hz). lra.
Qed.

Lemma sorted_ascends (l : list Q) : StronglySorted Qle (sorted l).
Proof.
  induction l as [|x l IH]; [constructor|].
  cbn [sorted fold_right]. fold (sorted l). by apply insert_sorted_ascends.
Qed.

Lemma ascending_head (a : Q) (l : list Q) :
  StronglySorted Qle (a :: l) -> least (a :: l) a.
Proof.
  intros Hs. apply StronglySorted_inv in Hs as [_ Ha]. split; [by left|].
  intros y [<-|Hy]; [lra|]. rewrite Forall_forall in Ha. apply Ha. by apply list_elem_of_In.
Qed.

Lemma ascending_last (a : Q) (l : list Q) :
  StronglySorted Qle (a :: l) -> greatest (a :: l) (List.last (a :: l) a).
Proof.
  revert a. induction l as [|b l IH]; intros a Hs.
  - split; [by left|]. intros y [<-|[]]. apply Qle_refl.
  - apply StronglySorted_inv in Hs as [Hl Ha].
    destruct (IH b Hl) as [Hin Hmax].
    assert (Hlast : List.last (a :: b :: l) a = List.last (b :: l) b).
    { cbn [List.last]. destruct l as [|c l]; [reflexivity|]. clear.
      revert c. induction l as [|d l IHl]; intros c; [reflexivity|]. apply IHl. }
    rewrite Hlast. split; [by right|].
    intros y [<-|Hy]; [|by apply Hmax].
    rewrite Forall_forall in Ha. apply Ha. by apply list_elem_of_In.
Qed.

(** The gaps of a list add up to the distance from its first to its
    last element. *)
Lemma total_time_diffs (a : Q) (l : list Q) :
  Spec.total (time_diffs (a :: l)) == List.last (a :: l) a - a.
Proof.
  revert a. induction l as [|b l IH]; intros a.
  - cbn. ring.
  - change (time_diffs (a :: b :: l)) with ((b - a) :: time_diffs (b :: l)).
    cbn [Spec.total fold_right]. fold (Spec.total (time_diffs (b :: l))). rewrite IH.
    assert (Hlast : List.last (a :: b :: l) a = List.last (b :: l) b).
    { cbn [List.last]. destruct l as [|c l]; [reflexivity|]. clear.
      revert c. induction l as [|d l IHl]; intros c; [reflexivity|]. apply IHl. }
    rewrite Hlast. ring.
Qed.

Lemma length_time_diffs (a : Q) (l : list Q) : length (time_diffs (a :: l)) = length l.
Proof.
  revert a. induction l as [|b l IH]; intros a; [reflexivity|].
  change (time_diffs (a :: b :: l)) with ((b - a) :: time_diffs (b :: l)).
  cbn [length]. by rewrite IH.
Qed.

Lemma total_map_scale (c : Q) (l : list Q) :
  Spec.total (map (fun d => d / c) l) == Spec.total l / c.
Proof.
  induction l as [|x l IH].
  - cbn. unfold Qdiv. ring.
  - cbn [map Spec.total fold_right]. fold (Spec.total l).
    fold (Spec.total (map (fun d => d / c) l)). rewrite IH. unfold Qdiv. ring.
Qed.

Lemma gap_score_values (h : Q) : In (gap_score h) frequency_scores.
Proof.
  unfold gap_score, frequency_scores.
  repeat (destruct (Qle_bool _ _); [cbn; tauto|]). cbn; tauto.
Qed.

Lemma gap_score_comp (h1 h2 : Q) : h1 == h2 -> gap_score h1 = gap_score h2.
Proof. intros E. unfold gap_score. by rewrite !(Qleb_comp _ _ E _ _ (Qeq_refl _)). Qed.

Lemma length_parsed_timestamps (txs : list TransactionDict) :
  (length (parsed_timestamps txs) <= length txs)%nat.
Proof.
  unfold parsed_timestamps. induction txs as [|tx txs IH]; [done|].
  cbn [flat_map]. rewrite length_app.
  destruct (time_of _); cbn [length]; lia.
Qed.

(** With two parsed timestamps or more, the score is that of the mean gap,
    which is the span of the timestamps over the number of gaps. *)
Lemma swap_frequency_span (swaps : list TransactionDict) :
  (2 <= length (parsed_timestamps swaps))%nat ->
  exists lo hi,
    least (parsed_timestamps swaps) lo /\ greatest (parsed_timestamps swaps) hi
    /\ calculate_swap_frequency swaps
       = Ok (gap_score ((hi - lo) / 3600
                        / inject_Z (Z.of_nat (length (parsed_timestamps swaps) - 1)))).
Proof.
  intros Hlen.
  pose proof (length_parsed_timestamps swaps) as Hswaps.
  unfold calculate_swap_frequency.
  destruct (length swaps <? 2)%nat eqn:E1; [apply Nat.ltb_lt in E1; lia|].
  destruct (length (parsed_timestamps swaps) <? 2)%nat eqn:E2; [apply Nat.ltb_lt in E2; lia|].
  pose proof (sorted_perm (parsed_timestamps swaps)) as Hperm.
  pose proof (sorted_ascends (parsed_timestamps swaps)) as Hasc.
  pose proof (length_sorted (parsed_timestamps swaps)) as Hls.
  destruct (sorted (parsed_timestamps swaps)) as [|a l] eqn:Es; [cbn in Hls; lia|].
  destruct l as [|b l]; [cbn in Hls; lia|].
  destruct (ascending_head _ _ Hasc) as [Hlo_in Hlo].
  destruct (ascending_last _ _ Hasc) as [Hhi_in Hhi].
  exists a, (List.last (a :: b :: l) a). split; [|split].
  - split; [by apply (Permutation_in _ Hperm)|].
    intros y Hy. apply Hlo. by apply (Permutation_in _ (Permutation_sym Hperm)).
  - split; [by apply (Permutation_in _ Hperm)|].
    intros y Hy. apply Hhi. by apply (Permutation_in _ (Permutation_sym Hperm)).
  - change (time_diffs (a :: b :: l)) with ((b - a) :: time_diffs (b :: l)).
    cbn [map Py.mean mbind result_bind mret result_ret].
    fold (gap_score
            (Py.sum ((b - a) / 3600 :: map (fun diff => diff / 3600) (time_diffs (b :: l)))
             / inject_Z (Z.of_nat (length ((b - a) / 3600
                                           :: map (fun diff => diff / 3600)
                                                  (time_diffs (b :: l))))))).
    f_equal. apply gap_score_comp.
    change ((b - a) / 3600 :: map (fun diff => diff / 3600) (time_diffs (b :: l)))
      with (map (fun diff => diff / 3600) (time_diffs (a :: b :: l))).
    rewrite sum_total, total_map_scale, total_time_diffs.
    rewrite length_map, length_time_diffs, <- Hls. cbn [length].
    replace (S (S (length l)) - 1)%nat with (S (length l)) by lia. reflexivity.
Qed.

Lemma parsed_timestamps_perm (s1 s2 : list TransactionDict) :
  Permutation s1 s2 -> Permutation (parsed_timestamps s1) (parsed_timestamps s2).
Proof.
  intros Hp. unfold parsed_timestamps.
  induction Hp as [|x l1 l2 _ IH|x y l|l1 l2 l3 _ IH1 _ IH2]; cbn [flat_map].
  - reflexivity.
  - by apply Permutation_app_head.
  - rewrite !app_assoc. apply Permutation_app_tail, Permutation_app_comm.
  - by rewrite IH1.
Qed.

Lemma swap_frequency_few (swaps : list TransactionDict) :
  (length (parsed_timestamps swaps) < 2)%nat -> calculate_swap_frequency swaps = Ok 0.
Proof.
  intros Hs. unfold calculate_swap_frequency.
  destruct (length swaps <? 2)%nat; [reflexivity|].
  destruct (length (parsed_timestamps swaps) <? 2)%nat eqn:E; [reflexivity|].
  apply Nat.ltb_ge in E. lia.
Qed.

Lemma swap_frequency_ok (swaps : list TransactionDict) :
  exists r, calculate_swap_frequency swaps = Ok r /\ In r frequency_scores.
Proof.
  destruct (le_lt_dec 2 (length (parsed_timestamps swaps))) as [Hlen|Hlen].
  - destruct (swap_frequency_span swaps Hlen) as (lo & hi & _ & _ & ->).
    eexists. split; [reflexivity | apply gap_score_values].
  - rewrite (swap_frequency_few swaps Hlen). exists 0. split; [reflexivity | by left].
Qed.

Lemma parsed_timestamps_returns (txs : list TransactionDict) (l : list Q) :
  DexModel.parsed_timestamps txs = Ok l -> all_convert txs.
Proof.
  unfold DexModel.parsed_timestamps. revert l.
  induction txs as [|tx txs IH]; intros l; [constructor|].
  cbn [Py.collect]. intros Hc.
  apply bind_ok in Hc as (ys & Hys & Hc).
  apply bind_ok in Hc as (more & Hmore & _).
  constructor; [|by apply (IH more)].
  unfold converts. by destruct (_parse_timestamp (timestamp tx)).
Qed.

Lemma swap_frequency_raises (swaps : list TransactionDict) (e : exn) :
  DexModel.calculate_swap_frequency swaps = Raise e -> e = OverflowError.
Proof.
  unfold DexModel.calculate_swap_frequency.
  destruct (length swaps <? 2)%nat; [discriminate|]. intros Hc.
  apply bind_raise in Hc as [Hc|(l & _ & Hc)]; [by apply parsed_timestamps_raises in Hc|].
  destruct (length l <? 2)%nat eqn:E; [discriminate|]. apply Nat.ltb_ge in E.
  pose proof (length_sorted l) as Hls.
  destruct (sorted l) as [|a [|b r]]; cbn [length] in Hls; try lia.
  discriminate Hc.
Qed.

Lemma all_convert_perm (s1 s2 : list TransactionDict) :
  Permutation s1 s2 -> all_convert s1 -> all_convert s2.
Proof.
  unfold all_convert. intros Hp Hall. rewrite Forall_forall in *. intros tx Htx.
  apply Hall. by rewrite Hp.
Qed.

Lemma swap_frequency_perm (s1 s2 : list TransactionDict) :
  Permutation s1 s2 -> calculate_swap_frequency s2 = calculate_swap_frequency s1.
Proof.
  intros Hperm.
  pose proof (parsed_timestamps_perm _ _ Hperm) as Hpp.
  pose proof (Permutation_length Hpp) as Hlen.
  destruct (le_lt_dec 2 (length (parsed_timestamps s1))) as [H2|H2].
  - destruct (swap_frequency_span s1 H2) as (lo & hi & [Hlo Hlo'] & [Hhi Hhi'] & ->).
    destruct (swap_frequency_span s2) as (lo' & hi' & [Hl Hl'] & [Hh Hh'] & ->);
      [lia|].
    f_equal. apply gap_score_comp. rewrite <- Hlen.
    assert (Elo : lo' == lo).
    { apply Qle_antisym.
      - apply Hl'. by apply (Permutation_in _ Hpp).
      - apply Hlo'. by apply (Permutation_in _ (Permutation_sym Hpp)). }
    assert (Ehi : hi' == hi).
    { apply Qle_antisym.
      - apply Hhi'. by apply (Permutation_in _ (Permutation_sym Hpp)).
      - apply Hh'. by apply (Permutation_in _ Hpp). }
    by rewrite Elo, Ehi.
  - rewrite (swap_frequency_few s1 H2). apply swap_frequency_few. lia.
Qed.

(** X2.  [calculate_swap_frequency] fails in one way only, the
    [OverflowError] of an [int] timestamp too large for a float, and
    whatever it returns is one of 0, 20, 40, 60, 80 and 100.  When every
    timestamp converts it returns; it returns 0 when fewer than two swaps
    have a parsable timestamp; and the order in which the swaps are
    listed does not matter. *)
Theorem swap_frequency_scores (swaps : list TransactionDict) :
  (forall e, DexModel.calculate_swap_frequency swaps = Raise e -> e = OverflowError)
  /\ (forall r, DexModel.calculate_swap_frequency swaps = Ok r -> In r frequency_scores)
  /\ (all_convert swaps ->
      (exists r, DexModel.calculate_swap_frequency swaps = Ok r)
      /\ ((length (parsed_timestamps swaps) < 2)%nat ->
          DexModel.calculate_swap_frequency swaps = Ok 0)
      /\ forall swaps', Permutation swaps swaps' ->
           DexModel.calculate_swap_frequency swaps'
           = DexModel.calculate_swap_frequency swaps).
Proof.
  split; [apply swap_frequency_raises|]. split.
  - intros r Hr.
    destruct (length swaps <? 2)%nat eqn:E.
    + unfold DexModel.calculate_swap_frequency in Hr. rewrite E in Hr.
      injection Hr as <-. by left.
    + assert (Hall : all_convert swaps).
      { unfold DexModel.calculate_swap_frequency in Hr. rewrite E in Hr.
        apply bind_ok in Hr as (l & Hl & _). by apply parsed_timestamps_returns in Hl. }
      rewrite (swap_frequency_converts _ Hall) in Hr.
      destruct (swap_frequency_ok swaps) as (r' & Hr' & Hin). congruence.
  - intros Hall. rewrite (swap_frequency_converts _ Hall). split; [|split].
    + destruct (swap_frequency_ok swaps) as (r & Hr & _). by exists r.
    + apply swap_frequency_few.
    + intros swaps' Hperm.
      rewrite (swap_frequency_converts swaps' (all_convert_perm _ _ Hperm Hall)).
      by apply swap_frequency_perm.
Qed.

End SwapFrequency.

Lemma swap_frequency_scores_witness :
  (exists r, DexModel.calculate_swap_frequency (iso := no_iso) Inputs.daily_swaps = Ok r)
  /\ DexModel.calculate_swap_frequency (iso := no_iso) [Inputs.swap_at 0] = Ok 0
  /\ DexModel.calculate_swap_frequency (iso := no_iso) (rev Inputs.daily_swaps)
     = DexModel.calculate_swap_frequency (iso := no_iso) Inputs.daily_swaps.
Proof.
  destruct (swap_frequency_scores (iso := no_iso) [Inputs.swap_at 0])
    as (_ & _ & Hone).
  destruct (swap_frequency_scores (iso := no_iso) Inputs.daily_swaps)
    as (_ & _ & Hthree).
  destruct Hone as (_ & Hfew & _); [repeat constructor|].
  destruct Hthree as (Hok & _ & Hperm); [repeat constructor|].
  split; [exact Hok|]. split.
  - apply Hfew. vm_compute. lia.
  - apply Hperm. apply Permutation_rev.
Defined.

(** ** Features and scores of a transaction list *)

Section Scores.
Context {iso : IsoFormat} {up : StrUpper}.
Import DexModel Converted Notions.





















End Scores.



(** ** Scoring a wallet as a whole *)

Section WalletScores.
Context {iso : IsoFormat} {up : StrUpper}.
Import DexModel Converted Notions.













(** X7.  The substring filters that give each category its tags lose and
    repeat nothing: the LP tags followed by the trading tags are the
    generated tags, in order, with at most two LP tags and three trading
    tags. *)
Theorem category_tags_split (lp_score swap_score : Q)
        (lp_features swap_features : gmap string Q) :
  let r := calculate_final_score lp_score swap_score lp_features swap_features in
  (tags (lp_category r) ++ tags (swap_category r))%list
  = generate_user_tags lp_features swap_features
  /\ (length (tags (lp_category r)) <= 2)%nat
  /\ (length (tags (swap_category r)) <= 3)%nat.
Proof.
  unfold calculate_final_score, generate_user_tags. cbn [tags lp_category swap_category].
  repeat (match goal with |- context [geb ?a ?b] => destruct (geb a b) end; cbv iota);
    vm_compute; (split; [reflexivity | split; lia]).
Qed.

End WalletScores.



(** ** Validated messages and their transaction counts *)

Section Messages.
Context {iso : IsoFormat} {up : StrUpper} {lax : LaxCoercion}.
Import Types KafkaService Flow.

Lemma leg_present (msg : string) (v : option json) (t : option TokenData) :
  validate_leg true msg v = Ok t -> is_Some t.
Proof.
  unfold validate_leg. destruct v as [j|]; [|discriminate].
  destruct j; try discriminate;
    (intros Ht; apply bind_ok in Ht as (t' & _ & Ht); injection Ht as <-; by eexists).
Qed.

Lemma transaction_legs (j : json) (tx : Transaction) :
  validate_Transaction j = Ok tx ->
  action tx ∈ ["swap"; "deposit"; "withdraw"]
  /\ (action tx = "swap" -> is_Some (tokenIn tx) /\ is_Some (tokenOut tx))
  /\ (action tx ∈ ["deposit"; "withdraw"] -> is_Some (token0 tx) /\ is_Some (token1 tx)).
Proof.
  destruct j as [| | | | | |o]; try discriminate. cbn [validate_Transaction].
  intros Ht.
  apply bind_ok in Ht as (document_id & _ & Ht).
  apply bind_ok in Ht as (act & Ha & Ht).
  apply bind_ok in Ht as (timestamp & _ & Ht).
  apply bind_ok in Ht as (caller & _ & Ht).
  apply bind_ok in Ht as (protocol & _ & Ht).
  apply bind_ok in Ht as (poolId & _ & Ht).
  apply bind_ok in Ht as (poolName & _ & Ht).
  apply bind_ok in Ht as (tin & Hin & Ht).
  apply bind_ok in Ht as (tout & Hout & Ht).
  apply bind_ok in Ht as (t0 & H0 & Ht).
  apply bind_ok in Ht as (t1 & H1 & Ht).
  injection Ht as <-. cbn [action tokenIn tokenOut token0 token1].
  apply as_pattern_ok in Ha as [_ Ha].
  split; [exact Ha|]. split.
  - intros ->. unfold validate_swap_tokens in Hin, Hout.
    rewrite bool_decide_eq_true_2 in Hin, Hout by done.
    split; eapply leg_present; eassumption.
  - intros Hlp. unfold validate_lp_tokens in H0, H1.
    rewrite bool_decide_eq_true_2 in H0, H1 by done.
    split; eapply leg_present; eassumption.
Qed.

(** X8.  A transaction that passes validation has one of the three
    actions and carries the token data of its kind: a swap has tokenIn and
    tokenOut, a deposit or withdrawal has token0 and token1. *)
Theorem validated_transaction_legs (j : json) (tx : Transaction) :
  validate_Transaction j = Ok tx ->
  action tx ∈ ["swap"; "deposit"; "withdraw"]
  /\ (action tx = "swap" -> is_Some (tokenIn tx) /\ is_Some (tokenOut tx))
  /\ (action tx ∈ ["deposit"; "withdraw"] -> is_Some (token0 tx) /\ is_Some (token1 tx)).
Proof. exact (transaction_legs j tx). Qed.

Lemma group_dexes (j : json) (p : ProtocolData) :
  validate_ProtocolData j = Ok p ->
  protocolType p = "dexes"
  /\ Forall (fun tx => action tx ∈ ["swap"; "deposit"; "withdraw"]) (transactions p).
Proof.
  destruct j as [| | | | | |o]; try discriminate. cbn [validate_ProtocolData].
  intros Hp.
  apply bind_ok in Hp as (ty & Hty & Hp).
  apply bind_ok in Hp as (raw & _ & Hp).
  apply bind_ok in Hp as (txs & Htxs & Hp).
  injection Hp as <-. cbn [protocolType transactions].
  apply as_pattern_ok in Hty as [_ Hty]. apply list_elem_of_singleton in Hty.
  split; [exact Hty|].
  apply validate_all_Forall2 in Htxs. clear -Htxs.
  induction Htxs as [|j tx raw txs Hj _ IH]; constructor; [|exact IH].
  by apply transaction_legs in Hj as [Ha _].
Qed.

Lemma message_groups (message_data : json) (wm : WalletTransactionMessage) :
  validate_WalletTransactionMessage message_data = Ok wm ->
  Forall (fun p => protocolType p = "dexes"
                   /\ Forall (fun tx => action tx ∈ ["swap"; "deposit"; "withdraw"])
                             (transactions p))
         (data wm).
Proof.
  destruct message_data as [| | | | | |o]; try discriminate.
  cbn [validate_WalletTransactionMessage]. intros Hm.
  apply bind_ok in Hm as (w & _ & Hm).
  apply bind_ok in Hm as (raw & _ & Hm).
  apply bind_ok in Hm as (groups & Hg & Hm).
  injection Hm as <-. cbn [data].
  apply validate_all_Forall2 in Hg. clear -Hg.
  induction Hg as [|j p raw groups Hj _ IH]; constructor; [|exact IH].
  by apply (group_dexes j).
Qed.

Lemma transactions_of_first (data : list ProtocolData) :
  Forall (fun p => protocolType p = "dexes") data ->
  transactions_of (protocol_data_of data)
  = Ok (map Transaction_dict (first_group data)).
Proof.
  unfold transactions_of. destruct 1 as [|p data Hp _]; [done|].
  cbn [protocol_data_of first_group]. rewrite bool_decide_eq_true_2 by done.
  rewrite lookup_insert_ne by done. by rewrite lookup_insert_eq.
Qed.

Lemma counts_cover (txs : list Transaction) :
  Forall (fun tx => action tx ∈ ["swap"; "deposit"; "withdraw"]) txs ->
  (length (filter (fun tx => action_in ["deposit"; "withdraw"] tx = true)
                  (map Transaction_dict txs))
   + length (filter (fun tx => action_in ["swap"] tx = true)
                    (map Transaction_dict txs)))%nat
  = length txs.
Proof.
  induction 1 as [|tx txs Htx _ IH]; [done|].
  cbn [map]. rewrite !filter_cons.
  assert (Hcase : action tx = "swap" \/ action tx = "deposit" \/ action tx = "withdraw").
  { set_unfold. tauto. }
  assert (Hlp : action_in ["deposit"; "withdraw"] (Transaction_dict tx)
                = negb (action_in ["swap"] (Transaction_dict tx))).
  { unfold action_in. cbn [Transaction_dict DexModel.action].
    destruct Hcase as [E | [E | E]]; by rewrite E. }
  destruct (decide (action_in ["deposit"; "withdraw"] (Transaction_dict tx) = true))
    as [E1|E1];
    destruct (decide (action_in ["swap"] (Transaction_dict tx) = true)) as [E2|E2];
    cbn [length]; try lia; exfalso; rewrite Hlp in E1;
    destruct (action_in ["swap"] (Transaction_dict tx)); cbn in E1; congruence.
Qed.

(** X9.  For every message that passes validation the success record has
    two categories, liquidity provision and trading, both with score 0,
    and their transaction counts add up to the number of transactions of
    the first group of the message: the transactions are counted although
    none of them is scored. *)
Theorem category_counts_cover_group (env : environment) (message_data : json)
        (wallet_message : WalletTransactionMessage) :
  validate_WalletTransactionMessage message_data = Ok wallet_message ->
  exists m lp_result swap_result,
    build_success env message_data = Ok m
    /\ success_categories m = [lp_result; swap_result]
    /\ category lp_result = "liquidity_provision" /\ category swap_result = "trading"
    /\ score lp_result = 0 /\ score swap_result = 0
    /\ (transaction_count lp_result + transaction_count swap_result)%nat
       = length (first_group (data wallet_message)).
Proof.
  intros Hv. pose proof (message_groups _ _ Hv) as Hg.
  assert (Hd : Forall (fun p => protocolType p = "dexes") (data wallet_message)).
  { eapply Forall_impl; [exact Hg|]. by intros p [Hp _]. }
  assert (Ha : Forall (fun tx => action tx ∈ ["swap"; "deposit"; "withdraw"])
                      (first_group (data wallet_message))).
  { destruct Hg as [|p data [_ Hp] _]; [constructor | exact Hp]. }
  unfold build_success. rewrite Hv. cbn [mbind result_bind].
  rewrite process_wallet_zero. cbn [mbind result_bind].
  rewrite (transactions_of_first _ Hd). cbn [mbind result_bind].
  eexists _, _, _. split; [reflexivity|]. cbn.
  repeat (split; [reflexivity|]). by apply counts_cover.
Qed.

End Messages.

Lemma validated_transaction_legs_witness :
  Types.action Flow.deposit_record ∈ ["swap"; "deposit"; "withdraw"]
  /\ (Types.action Flow.deposit_record = "swap" ->
      is_Some (Types.tokenIn Flow.deposit_record)
      /\ is_Some (Types.tokenOut Flow.deposit_record))
  /\ (Types.action Flow.deposit_record ∈ ["deposit"; "withdraw"] ->
      is_Some (Types.token0 Flow.deposit_record)
      /\ is_Some (Types.token1 Flow.deposit_record)).
Proof.
  apply (validated_transaction_legs (lax := no_coercion) Samples.deposit Flow.deposit_record).
  vm_compute. reflexivity.
Defined.

Lemma category_counts_cover_group_witness :
  exists m lp_result swap_result,
    KafkaService.build_success
      (iso := no_iso) (up := ascii_only) (lax := no_coercion)
      Samples.env Samples.dexes_message = Ok m
    /\ Types.success_categories m = [lp_result; swap_result]
    /\ Types.category lp_result = "liquidity_provision"
    /\ Types.category swap_result = "trading"
    /\ Types.score lp_result = 0 /\ Types.score swap_result = 0
    /\ (Types.transaction_count lp_result + Types.transaction_count swap_result)%nat
       = length (Flow.first_group (Types.data Flow.dexes_record)).
Proof.
  apply (category_counts_cover_group
           (iso := no_iso) (up := ascii_only) (lax := no_coercion)
           Samples.env Samples.dexes_message Flow.dexes_record).
  vm_compute. reflexivity.
Defined.

(** ** The service loop and its statistics *)

Section Service.
Context {iso : IsoFormat} {up : StrUpper} {lax : LaxCoercion}.
Import Types KafkaService Flow.

Lemma handle_failure_step (env : environment) (s : service) (message_data : json)
      (e : exn) :
  let s' := snd (handle_failure env s message_data e) in
  (fst (handle_failure env s message_data e) = Ok tt
   /\ exists f, failure_topic s' = (failure_topic s ++ [f])%list
                /\ success_topic s' = success_topic s
                /\ messages_failed s' = S (messages_failed s)
                /\ messages_processed s' = messages_processed s
                /\ last_processed_at s' = last_processed_at s
                /\ consumer s' = consumer s)
  \/ ((exists e', fst (handle_failure env s message_data e) = Raise e') /\ s' = s).
Proof.
  unfold handle_failure.
  destruct (make_failure _ _ _ _ _) as [f|e']; [|right; split; [by eexists | done]].
  destruct (failure_acknowledged env); [|right; split; [by eexists | done]].
  left. split; [done|]. by exists f.
Qed.

Lemma process_message_step (env : environment) (s : service) (message_data : json) :
  let s' := snd (process_message env s message_data) in
  (fst (process_message env s message_data) = Ok tt
   /\ ((exists m, success_topic s' = (success_topic s ++ [m])%list
                  /\ failure_topic s' = failure_topic s
                  /\ messages_processed s' = S (messages_processed s)
                  /\ messages_failed s' = messages_failed s
                  /\ last_processed_at s' = Some (utc_timestamp env)
                  /\ consumer s' = consumer s)
       \/ (exists f, failure_topic s' = (failure_topic s ++ [f])%list
                     /\ success_topic s' = success_topic s
                     /\ messages_failed s' = S (messages_failed s)
                     /\ messages_processed s' = messages_processed s
                     /\ last_processed_at s' = last_processed_at s
                     /\ consumer s' = consumer s)))
  \/ ((exists e, fst (process_message env s message_data) = Raise e) /\ s' = s).
Proof.
  unfold process_message.
  destruct (build_success env message_data) as [m|e].
  - destruct (success_acknowledged env).
    + left. split; [done|]. left. by exists m.
    + destruct (handle_failure_step env s message_data KafkaError) as [[Hok Hf]|Hraise].
      * left. split; [exact Hok|]. right. exact Hf.
      * right. exact Hraise.
  - destruct (handle_failure_step env s message_data e) as [[Hok Hf]|Hraise].
    + left. split; [exact Hok|]. right. exact Hf.
    + right. exact Hraise.
Qed.

(** X10.  One message delivers one record or nothing: when
    [process_message] returns, exactly one record has been appended, to
    the success topic or to the failure topic, and the counter of that
    topic has grown by one; when it raises, the service, counters and
    topics, is as it was. *)
Theorem message_delivers_one_record_or_nothing (env : environment) (s : service)
        (message_data : json) :
  let s' := snd (process_message env s message_data) in
  (fst (process_message env s message_data) = Ok tt
   /\ ((exists m, success_topic s' = (success_topic s ++ [m])%list
                  /\ failure_topic s' = failure_topic s
                  /\ messages_processed s' = S (messages_processed s)
                  /\ messages_failed s' = messages_failed s
                  /\ last_processed_at s' = Some (utc_timestamp env)
                  /\ consumer s' = consumer s)
       \/ (exists f, failure_topic s' = (failure_topic s ++ [f])%list
                     /\ success_topic s' = success_topic s
                     /\ messages_failed s' = S (messages_failed s)
                     /\ messages_processed s' = messages_processed s
                     /\ last_processed_at s' = last_processed_at s
                     /\ consumer s' = consumer s)))
  \/ ((exists e, fst (process_message env s message_data) = Raise e) /\ s' = s).
Proof. exact (process_message_step env s message_data). Qed.

Lemma process_message_ledger (env : environment) (s : service) (message_data : json) :
  let s' := snd (process_message env s message_data) in
  exists succ fail,
    success_topic s' = (success_topic s ++ succ)%list
    /\ failure_topic s' = (failure_topic s ++ fail)%list
    /\ messages_processed s' = (messages_processed s + length succ)%nat
    /\ messages_failed s' = (messages_failed s + length fail)%nat
    /\ (length succ + length fail <= 1)%nat
    /\ consumer s' = consumer s.
Proof.
  destruct (process_message_step env s message_data)
    as [[_ [(m & H1 & H2 & H3 & H4 & _ & H5)|(f & H1 & H2 & H3 & H4 & _ & H5)]]|[_ Hs]];
    cbv zeta.
  - exists [m], []. rewrite H1, H2, H3, H4, H5, app_nil_r. cbn. repeat split; lia.
  - exists [], [f]. rewrite H1, H2, H3, H4, H5, app_nil_r. cbn. repeat split; lia.
  - exists [], []. cbv zeta in Hs. rewrite Hs, !app_nil_r. cbn. repeat split; lia.
Qed.

Lemma consume_loop_ledger (stream : list polled) (s : service) :
  let s' := snd (consume_loop stream s) in
  exists succ fail,
    success_topic s' = (success_topic s ++ succ)%list
    /\ failure_topic s' = (failure_topic s ++ fail)%list
    /\ messages_processed s' = (messages_processed s + length succ)%nat
    /\ messages_failed s' = (messages_failed s + length fail)%nat
    /\ (length succ + length fail <= length stream)%nat
    /\ consumer s' = consumer s.
Proof.
  cbv zeta. revert s. induction stream as [|[env value|e] rest IH]; intros s.
  - exists [], []. rewrite !app_nil_r. cbn. repeat split; lia.
  - cbn [consume_loop].
    destruct (process_message_ledger env s value)
      as (succ1 & fail1 & H1 & H2 & H3 & H4 & H5 & H6). cbv zeta in *.
    destruct (IH (snd (process_message env s value)))
      as (succ2 & fail2 & G1 & G2 & G3 & G4 & G5 & G6).
    exists (succ1 ++ succ2)%list, (fail1 ++ fail2)%list.
    rewrite G1, G2, G3, G4, G6, H1, H2, H3, H4, H6, !app_assoc, !length_app.
    cbn [length]. repeat split; lia.
  - exists [], []. rewrite !app_nil_r. cbn. repeat split; lia.
Qed.

(** X11.  The statistics are a ledger of the two topics: over any stream
    the loop only appends to the topics, the counter of processed messages
    grows by the number of success records and the counter of failed ones
    by the number of failure records, and together they are at most the
    number of items the consumer delivered. *)
Theorem statistics_count_records (stream : list polled) (s : service) :
  let s' := snd (consume_loop stream s) in
  exists succ fail,
    success_topic s' = (success_topic s ++ succ)%list
    /\ failure_topic s' = (failure_topic s ++ fail)%list
    /\ messages_processed s' = (messages_processed s + length succ)%nat
    /\ messages_failed s' = (messages_failed s + length fail)%nat
    /\ (length succ + length fail <= length stream)%nat
    /\ consumer s' = consumer s.
Proof. exact (consume_loop_ledger stream s). Qed.

Lemma consume_loop_outcome (stream : list polled) (s : service) :
  fst (consume_loop stream s)
  = match first_failure stream with Some e => Raise e | None => Ok tt end
  /\ snd (consume_loop stream s) = snd (consume_loop (before_failure stream) s).
Proof.
  revert s. induction stream as [|[env value|e] rest IH]; intros s; [done| |done].
  cbn [consume_loop first_failure before_failure]. apply IH.
Qed.

(** X12.  A run of the service ends in an error only through the
    connections or the consumer: if the connections do not start it
    raises KafkaError, otherwise it raises the first failure of the
    consumer and returns normally when there is none, whatever the
    messages are and whatever happens while they are processed; nothing
    delivered after that failure changes the service. *)
Theorem run_fails_only_through_consumer (connects : bool) (stream : list polled)
        (s : service) :
  fst (run connects stream s)
  = (if connects
     then match first_failure stream with Some e => Raise e | None => Ok tt end
     else Raise KafkaError)
  /\ snd (run connects stream s) = snd (run connects (before_failure stream) s)
  /\ consumer (snd (run connects stream s)) = true.
Proof.
  unfold run, consume_messages. destruct connects; [|done]. cbn [consumer set_consumer].
  destruct (consume_loop_outcome stream (set_consumer s)) as [Hfst Hsnd].
  split; [exact Hfst|]. split; [exact Hsnd|].
  by destruct (consume_loop_ledger stream (set_consumer s))
    as (_ & _ & _ & _ & _ & _ & _ & ->).
Qed.

End Service.

(** ** The retry loop on arbitrary scripts *)

Section RetryInvariant.
Context {iso : IsoFormat} {up : StrUpper} {lax : LaxCoercion}.
Import KafkaServiceManager Flow.

Lemma delay_in_delays (n : Z) :
  (1 <= n <= 5)%Z -> (base_delay * 2 ^ (n - 1))%Z ∈ delays.
Proof.
  intros Hn.
  assert (Hcase : n = 1%Z \/ n = 2%Z \/ n = 3%Z \/ n = 4%Z \/ n = 5%Z) by lia.
  unfold delays.
  destruct Hcase as [E | [E | [E | [E | E]]]]; rewrite E; vm_compute; set_unfold; tauto.
Qed.

(** What every pass of the loop keeps. *)
Lemma retry_step_invariant (w : worker) (a : attempt) :
  (0 <= retry_count w <= 6)%Z ->
  Forall (fun d => d ∈ delays) (sleeps w) ->
  (state w = Failed <-> retry_count w = 6%Z) ->
  (0 <= retry_count (retry_step w a) <= 6)%Z
  /\ Forall (fun d => d ∈ delays) (sleeps (retry_step w a))
  /\ (state (retry_step w a) = Failed <-> retry_count (retry_step w a) = 6%Z)
  /\ (length (sleeps (retry_step w a)) <= S (length (sleeps w)))%nat.
Proof.
  intros Hc Hs Hf. unfold retry_step.
  destruct (state w) eqn:Est.
  - assert (Hlt : (retry_count w < 6)%Z).
    { destruct (decide (retry_count w = 6%Z)) as [E|E]; [|lia].
      apply Hf in E. discriminate. }
    destruct (running a); cbn [negb].
    + destruct (KafkaService.run (connects a) (stream a) (kafka_service w)) as [[[]|e] s'].
      * cbn [retry_count sleeps state]. repeat split; try lia; try done.
      * unfold max_retries.
        destruct (5 <? retry_count w + 1)%Z eqn:Elim.
        -- apply Z.ltb_lt in Elim. cbn [retry_count sleeps state].
           repeat split; try lia; try done.
        -- apply Z.ltb_ge in Elim. cbn [retry_count sleeps state].
           split; [lia|]. split; [|split].
           ++ apply Forall_app. split; [exact Hs|].
              constructor; [|constructor]. apply delay_in_delays. lia.
           ++ split; [discriminate | lia].
           ++ rewrite length_app. cbn. lia.
    + cbn [retry_count sleeps state]. repeat split; try lia; try done.
  - rewrite Est. repeat split; try lia; try done; by apply Hf.
  - rewrite Est. repeat split; try lia; try done; by apply Hf.
Qed.

Lemma retry_fold_invariant (script : list attempt) (w : worker) :
  (0 <= retry_count w <= 6)%Z ->
  Forall (fun d => d ∈ delays) (sleeps w) ->
  (state w = Failed <-> retry_count w = 6%Z) ->
  let w' := fold_left retry_step script w in
  (0 <= retry_count w' <= 6)%Z
  /\ Forall (fun d => d ∈ delays) (sleeps w')
  /\ (state w' = Failed <-> retry_count w' = 6%Z)
  /\ (length (sleeps w') <= length (sleeps w) + length script)%nat.
Proof.
  cbv zeta. revert w. induction script as [|a script IH]; intros w Hc Hs Hf.
  - cbn. repeat split; try lia; try done; by apply Hf.
  - cbn [fold_left length].
    destruct (retry_step_invariant w a Hc Hs Hf) as (Hc' & Hs' & Hf' & Hl').
    destruct (IH (retry_step w a) Hc' Hs' Hf') as (Hc'' & Hs'' & Hf'' & Hl'').
    repeat split; try lia; try done; by apply Hf''.
Qed.

(** X13.  Whatever the passes of the retry loop meet, the retry counter
    stays between 0 and 6, the worker has given up exactly when the counter
    is 6, every delay it has slept is one of 5, 10, 20, 40 and 80 seconds,
    and it has slept at most once per pass. *)
Theorem retry_loop_invariant (script : list attempt) (s : KafkaService.service) :
  let w := _run_with_retry script s in
  (0 <= retry_count w <= 6)%Z
  /\ Forall (fun d => d ∈ delays) (sleeps w)
  /\ (state w = Failed <-> retry_count w = 6%Z)
  /\ (length (sleeps w) <= length script)%nat.
Proof.
  unfold _run_with_retry.
  apply (retry_fold_invariant script (mkWorker Running 0 [] s)); cbn.
  - lia.
  - constructor.
  - split; [discriminate | lia].
Qed.

End RetryInvariant.

(** ** The two input lists and the two categories *)

Section Preprocessing.
Import DexModel Notions.

Lemma filter_typed_all (ty : string) (l : list TransactionDict) :
  untyped l ->
  filter (fun tx => has_type ty tx = true) (map (with_type ty) l) = map (with_type ty) l.
Proof.
  induction 1 as [|tx l Htx _ IH]; [done|].
  cbn [map]. rewrite filter_cons, IH.
  destruct (decide (has_type ty (with_type ty tx) = true)) as [E|E]; [done|].
  exfalso. apply E. unfold has_type, with_type. cbn [type_]. rewrite Htx.
  by apply bool_decide_eq_true_2.
Qed.

Lemma filter_typed_none (ty ty' : string) (l : list TransactionDict) :
  ty <> ty' -> untyped l ->
  filter (fun tx => has_type ty tx = true) (map (with_type ty') l) = [].
Proof.
  intros Hne. induction 1 as [|tx l Htx _ IH]; [done|].
  cbn [map]. rewrite filter_cons, IH.
  destruct (decide (has_type ty (with_type ty' tx) = true)) as [E|E]; [|done].
  exfalso. unfold has_type, with_type in E. cbn [type_] in E. rewrite Htx in E.
  apply bool_decide_eq_true in E. congruence.
Qed.

(** X14.  When no input transaction carries a type key of its own, the
    preprocessed list is the LP list followed by the swap list, and the
    selections by type that the two feature calculations make give back
    exactly the LP list and exactly the swap list: an entry of one list
    is never counted in the other category, whatever its action. *)
Theorem lists_keep_their_category (pd : gmap string protocol_value)
        (lp swap : list TransactionDict) :
  pd !! "lp_transactions" = Some (PVList lp) ->
  pd !! "swap_transactions" = Some (PVList swap) ->
  untyped lp -> untyped swap ->
  exists txs,
    preprocess_dex_transactions pd = Ok txs
    /\ txs = (map (with_type "lp") lp ++ map (with_type "swap") swap)%list
    /\ length txs = (length lp + length swap)%nat
    /\ filter (fun tx => has_type "lp" tx = true) txs = map (with_type "lp") lp
    /\ filter (fun tx => has_type "swap" tx = true) txs = map (with_type "swap") swap.
Proof.
  intros Hlp Hswap Ul Us. unfold preprocess_dex_transactions.
  rewrite Hlp, Hswap. cbn [spread_all mbind result_bind mret result_ret].
  eexists. split; [reflexivity|]. split; [reflexivity|].
  split; [by rewrite length_app, !length_map|].
  rewrite !filter_app.
  rewrite (filter_typed_all "lp" lp Ul), (filter_typed_all "swap" swap Us).
  rewrite (filter_typed_none "lp" "swap" swap), (filter_typed_none "swap" "lp" lp)
    by done.
  by rewrite app_nil_r.
Qed.

End Preprocessing.

Lemma lists_keep_their_category_witness :
  exists txs,
    DexModel.preprocess_dex_transactions Inputs.two_lists = Ok txs
    /\ txs = (map (DexModel.with_type "lp") [Inputs.plain_deposit]
              ++ map (DexModel.with_type "swap") [Inputs.plain_swap])%list
    /\ length txs = (length [Inputs.plain_deposit] + length [Inputs.plain_swap])%nat
    /\ filter (fun tx => DexModel.has_type "lp" tx = true) txs
       = map (DexModel.with_type "lp") [Inputs.plain_deposit]
    /\ filter (fun tx => DexModel.has_type "swap" tx = true) txs
       = map (DexModel.with_type "swap") [Inputs.plain_swap].
Proof.
  apply (lists_keep_their_category Inputs.two_lists
           [Inputs.plain_deposit] [Inputs.plain_swap]).
  - reflexivity.
  - reflexivity.
  - repeat constructor.
  - repeat constructor.
Defined.

(** ** Counts among the features *)

Section FeatureCounts.
Context {iso : IsoFormat} {up : StrUpper}.
Import DexModel Converted Notions.















End FeatureCounts.

